(** * hakit-date-and-time: clock and date widgets, embedded and verified

    The widgets of the repository (DateText, DigitalClock with its flip
    digits, AnalogClock) and their shared locale helper are translated
    function by function.  The host platform (the [Intl] object, the
    runtime's own time zone, [navigator], the timer table of [window])
    is not part of the repository; it is a record [Platform] that every
    function receives, and a small English platform [refPlatform] lets
    the definitions run on concrete inputs.

    Conventions: a JavaScript string is a [string], one character per
    UTF-16 code unit; an integer-valued Number is a [Z]; [x?: T] is an
    [option T]; a [throw] is the [Throw] branch of [completion]. *)

From Stdlib Require Import ZArith String Ascii List DecimalString Lia Bool QArith Qround.
From stdpp Require Import base option list gmap strings.

Local Open Scope string_scope.
Local Open Scope Z_scope.
Local Open Scope list_scope.

(** ** ECMAScript values *)
Module JS.

Inductive JsError : Set := RangeError | TypeError.

(** The outcome of evaluating an expression that may throw. *)
Inductive completion (A : Type) : Type :=
| Normal (a : A)
| Throw (e : JsError).
Arguments Normal {A} a.
Arguments Throw {A} e.

Definition bind {A B} (c : completion A) (k : A -> completion B) : completion B :=
  match c with
  | Normal a => k a
  | Throw e => Throw e
  end.

(** [try { body } catch { handler }] *)
Definition try_catch {A} (body : completion A) (handler : JsError -> completion A)
  : completion A :=
  match body with
  | Normal a => Normal a
  | Throw e => handler e
  end.

Definition returns {A} (c : completion A) : Prop := exists a, c = Normal a.

(** [String(n)] and the template literal of an integer Number. *)
Definition Number_toString (n : Z) : string := NilZero.string_of_int (Z.to_int n).

(** Truthiness of [x?: boolean], of [x?: string] and of an optional
    value whose defined values are all truthy. *)
Definition truthy_bool (b : option bool) : bool := default false b.
Definition truthy_string (s : option string) : bool :=
  match s with
  | Some s => negb (String.eqb s "")
  | None => false
  end.
Definition truthy_some {A} (x : option A) : bool :=
  match x with Some _ => true | None => false end.

(** [a || b] on strings. *)
Definition or_string (a : option string) (b : string) : string :=
  if truthy_string a then default b a else b.

(** [s.split("")] *)
Fixpoint split_chars (s : string) : list string :=
  match s with
  | EmptyString => []
  | String c rest => String c EmptyString :: split_chars rest
  end.

(** *** Time values (ECMA-262, Date objects)

    A time value is a number of milliseconds since the epoch. *)
Definition msPerDay : Z := 86400000.
Definition msPerHour : Z := 3600000.
Definition msPerMinute : Z := 60000.
Definition msPerSecond : Z := 1000.

Definition Day (t : Z) : Z := t / msPerDay.
Definition HourFromTime (t : Z) : Z := (t / msPerHour) mod 24.
Definition MinFromTime (t : Z) : Z := (t / msPerMinute) mod 60.
Definition SecFromTime (t : Z) : Z := (t / msPerSecond) mod 60.
Definition msFromTime (t : Z) : Z := t mod msPerSecond.
(** 0 is Sunday. *)
Definition WeekDay (t : Z) : Z := (Day t + 4) mod 7.

(** Year, month (1..12) and day of month (1..31) of a day number in
    the proleptic Gregorian calendar. *)
Definition civil_from_days (days : Z) : Z * Z * Z :=
  let z := days + 719468 in
  let era := z / 146097 in
  let doe := z - era * 146097 in
  let yoe := (doe - doe / 1460 + doe / 36524 - doe / 146096) / 365 in
  let doy := doe - (365 * yoe + yoe / 4 - yoe / 100) in
  let mp := (5 * doy + 2) / 153 in
  let d := doy - (153 * mp + 2) / 5 + 1 in
  let m := if mp <? 10 then mp + 3 else mp - 9 in
  let y := yoe + era * 400 + (if m <=? 2 then 1 else 0) in
  (y, m, d).

Definition YearFromTime (t : Z) : Z := fst (fst (civil_from_days (Day t))).
(** 1 is January (ECMA-262 counts from 0; the widgets never read it). *)
Definition MonthFromTime (t : Z) : Z := snd (fst (civil_from_days (Day t))).
Definition DateFromTime (t : Z) : Z := snd (civil_from_days (Day t)).

(** A [Date] object holding a valid time value. *)
Record Date : Set := mkDate { getTime : Z }.

End JS.
Export JS.

#[global] Instance completion_ret : MRet completion := @Normal.
#[global] Instance completion_bind : MBind completion := fun A B k c => JS.bind c k.

(** ** The host platform *)
Module Intl.

Inductive NumericStyle : Set := numeric | two_digit.
Inductive NameStyle : Set := long | short | narrow.
Inductive MonthStyle : Set :=
  month_numeric | month_2digit | month_long | month_short | month_narrow.
Inductive HourCycle : Set := h11 | h12 | h23 | h24.

(** [Intl.DateTimeFormatOptions], the fields the widgets set. *)
Record DateTimeFormatOptions : Set := mkOptions {
  timeZone : option string;
  hourCycle : option HourCycle;
  year : option NumericStyle;
  month : option MonthStyle;
  day : option NumericStyle;
  weekday : option NameStyle;
  hour : option NumericStyle;
  minute : option NumericStyle;
  second : option NumericStyle;
}.

Definition no_options : DateTimeFormatOptions :=
  mkOptions None None None None None None None None None.

(** [{ timeZone: timezone }] *)
Definition timeZone_only (timezone : option string) : DateTimeFormatOptions :=
  mkOptions timezone None None None None None None None None.

Definition override {A} (base extra : option A) : option A :=
  match extra with Some v => Some v | None => base end.

(** [{ ...base, ...extra }] *)
Definition spread (base extra : DateTimeFormatOptions) : DateTimeFormatOptions :=
  {| timeZone := override (timeZone base) (timeZone extra);
     hourCycle := override (hourCycle base) (hourCycle extra);
     year := override (year base) (year extra);
     month := override (month base) (month extra);
     day := override (day base) (day extra);
     weekday := override (weekday base) (weekday extra);
     hour := override (hour base) (hour extra);
     minute := override (minute base) (minute extra);
     second := override (second base) (second extra) |}.

Inductive PartType : Set :=
| p_literal | p_year | p_month | p_day | p_weekday
| p_hour | p_minute | p_second | p_dayPeriod.

Definition type_name (t : PartType) : string :=
  match t with
  | p_literal => "literal" | p_year => "year" | p_month => "month"
  | p_day => "day" | p_weekday => "weekday" | p_hour => "hour"
  | p_minute => "minute" | p_second => "second" | p_dayPeriod => "dayPeriod"
  end.

Record DateTimeFormatPart : Set := mkPart { type : PartType; value : string }.

(** An [Intl.DateTimeFormat] object. *)
Record DateTimeFormat : Type := mkFormat {
  formatToParts : Date -> list DateTimeFormatPart;
}.

(** What the widgets use of their host.

    - [navigator_language]: [None] when [typeof navigator] is
      ["undefined"], otherwise [navigator.language];
    - [getCanonicalLocales]: [Intl.getCanonicalLocales], which throws
      on a tag that is not structurally valid;
    - [LocalTZA]: the offset in milliseconds of the runtime's own time
      zone at a time value; [Date.prototype.getDate] and [getHours]
      read through it;
    - [zoneOffset]: the offset of a named time zone, [None] for an
      identifier the platform does not know;
    - [localeParts]: the parts a locale renders for the requested
      fields of a time value already shifted to the zone. *)
Record Platform : Type := mkPlatform {
  navigator_language : option string;
  getCanonicalLocales : list string -> completion (list string);
  LocalTZA : Z -> Z;
  zoneOffset : string -> option (Z -> Z);
  localeParts : option string -> DateTimeFormatOptions -> Z -> list DateTimeFormatPart;
}.

Definition LocalTime (P : Platform) (t : Z) : Z := t + LocalTZA P t.
Definition getDate (P : Platform) (d : Date) : Z := DateFromTime (LocalTime P (getTime d)).
Definition getHours (P : Platform) (d : Date) : Z := HourFromTime (LocalTime P (getTime d)).
Definition getMilliseconds (P : Platform) (d : Date) : Z := msFromTime (LocalTime P (getTime d)).

(** The offset the formatter of a [timeZone] option applies; the
    runtime's zone when the option is undefined. *)
Definition resolveZone (P : Platform) (tz : option string) : option (Z -> Z) :=
  match tz with
  | None => Some (LocalTZA P)
  | Some id => zoneOffset P id
  end.

Definition locale_ok (P : Platform) (locale : option string) : bool :=
  match locale with
  | None => true
  | Some l => match getCanonicalLocales P [l] with Normal _ => true | Throw _ => false end
  end.

(** [new Intl.DateTimeFormat(locale, opts)]: a RangeError for a
    malformed locale tag or an unknown time zone. *)
Definition newDateTimeFormat (P : Platform) (locale : option string)
    (opts : DateTimeFormatOptions) : completion DateTimeFormat :=
  if locale_ok P locale then
    match resolveZone P (timeZone opts) with
    | Some off =>
        Normal (mkFormat (fun d => localeParts P locale opts (getTime d + off (getTime d))))
    | None => Throw RangeError
    end
  else Throw RangeError.

(** The day of the month of an instant as it reads in a time zone. *)
Definition dayOfMonthIn (P : Platform) (tz : option string) (t : Z) : option Z :=
  off ← resolveZone P tz; Some (DateFromTime (t + off t)).

End Intl.
Export Intl.

(** ** src/helpers.ts *)
Module Helpers.

(** The initial value of [lang]. *)
Definition languageTag (P : Platform) (inputLocale : option string) : string :=
  or_string inputLocale
    (match navigator_language P with
     | Some language => language
     | None => "en-US"
     end).

Definition getLocale (P : Platform) (inputLocale : option string)
  : completion (option string) :=
  let lang := languageTag P inputLocale in
  let locale : option string := None in
  try_catch
    (canon ← getCanonicalLocales P [lang];
     Normal (head canon))
    (fun _ => Normal locale).

End Helpers.
Export Helpers.

(** ** The timer table of [window] *)
Module Timers.

Inductive TimerKind : Set := repeating | one_shot.

#[global] Instance TimerKind_eq_dec : EqDecision TimerKind.
Proof. solve_decision. Defined.

(** An active timer: its kind, its delay in milliseconds, and the
    closure it calls, named by the widget instance that owns it and
    the run of the instance's effect that created it. *)
Record Timer : Set := mkTimer { kind : TimerKind; delay : Z; owner : nat; run : nat }.

(** Handles are positive and never reused. *)
Record Window : Type := mkWindow { nextHandle : Z; active : gmap Z Timer }.

Definition setTimer (t : Timer) (w : Window) : Z * Window :=
  (nextHandle w, mkWindow (nextHandle w + 1) (<[nextHandle w := t]> (active w))).

Definition setInterval (who r : nat) (ms : Z) (w : Window) : Z * Window :=
  setTimer (mkTimer repeating ms who r) w.
Definition setTimeout (who r : nat) (ms : Z) (w : Window) : Z * Window :=
  setTimer (mkTimer one_shot ms who r) w.

(** [clearInterval] and [clearTimeout] share one table; clearing a
    handle that is not active does nothing. *)
Definition clearTimer (h : Z) (w : Window) : Window :=
  mkWindow (nextHandle w) (delete h (active w)).
Definition clearInterval := clearTimer.
Definition clearTimeout := clearTimer.

(** [if (handle) ...] on a [number | null]. *)
Definition truthy_handle (h : option Z) : bool :=
  match h with Some n => negb (n =? 0) | None => false end.

(** The active timers that call into an instance. *)
Definition owned (who : nat) (w : Window) : gmap Z Timer :=
  filter (fun kv => owner (snd kv) = who) (active w).

End Timers.
Export Timers.

(** ** src/components/DateText/index.tsx *)
Module DateText.

Inductive DatePartKey : Set := k_year | k_month | k_day | k_weekday.

Inductive SeqToken : Set :=
| part (k : DatePartKey)
| sep (s : string).

Record PresetDef : Set := mkPreset {
  label : string;
  description : string;
  order : list SeqToken;
  options : DateTimeFormatOptions;
  dayOrdinal : option bool;
}.

(** Option literals of the presets. *)
Definition opts (w : option NameStyle) (m : option MonthStyle)
    (d y : option NumericStyle) : DateTimeFormatOptions :=
  {| timeZone := None; hourCycle := None; Intl.year := y; Intl.month := m;
     Intl.day := d; Intl.weekday := w; hour := None; minute := None; second := None |}.

Definition numeric_ymd : DateTimeFormatOptions :=
  opts None (Some month_2digit) (Some two_digit) (Some numeric).

Definition PRESETS : list (string * PresetDef) :=
  [ ("weekday", mkPreset "Weekday (Long)" "Monday"
       [part k_weekday] (opts (Some long) None None None) None);
    ("weekday_short", mkPreset "Weekday (Short)" "Mon"
       [part k_weekday] (opts (Some short) None None None) None);
    ("day_numeric", mkPreset "Day (Numeric)" "3"
       [part k_day] (opts None None (Some numeric) None) None);
    ("day_ordinal", mkPreset "Day (Ordinal)" "3rd"
       [part k_day] (opts None None (Some numeric) None) (Some true));
    ("month_long", mkPreset "Month (Long)" "November"
       [part k_month] (opts None (Some month_long) None None) None);
    ("month_short", mkPreset "Month (Short)" "Nov"
       [part k_month] (opts None (Some month_short) None None) None);
    ("month_day_ordinal", mkPreset "Month Day Ordinal" "November 3rd"
       [part k_month; part k_day]
       (opts None (Some month_long) (Some numeric) None) (Some true));
    ("weekday_month_day_ordinal",
     mkPreset "Weekday, Month Day Ordinal" "Monday, November 3rd"
       [part k_weekday; sep ", "; part k_month; part k_day]
       (opts (Some long) (Some month_long) (Some numeric) None) (Some true));
    ("month_day_year", mkPreset "Month Day Year" "October 20 2025"
       [part k_month; part k_day; part k_year]
       (opts None (Some month_long) (Some numeric) (Some numeric)) None);
    ("month_day_year_ordinal", mkPreset "Month Day Year Ordinal" "November 3rd 2025"
       [part k_month; part k_day; part k_year]
       (opts None (Some month_long) (Some numeric) (Some numeric)) (Some true));
    ("weekday_month_day", mkPreset "Weekday Month Day" "Mon Oct 20"
       [part k_weekday; part k_month; part k_day]
       (opts (Some short) (Some month_short) (Some numeric) None) None);
    ("weekday_month_day_year", mkPreset "Weekday Month Day Year" "Mon Oct 20 2025"
       [part k_weekday; part k_month; part k_day; part k_year]
       (opts (Some short) (Some month_short) (Some numeric) (Some numeric)) None);
    ("dmy_slash", mkPreset "D/M/Y Slashes" "20/10/2025"
       [part k_day; sep "/"; part k_month; sep "/"; part k_year] numeric_ymd None);
    ("ymd_slash", mkPreset "Y/M/D Slashes" "2025/10/20"
       [part k_year; sep "/"; part k_month; sep "/"; part k_day] numeric_ymd None);
    ("mdy_slash", mkPreset "M/D/Y Slashes" "10/20/2025"
       [part k_month; sep "/"; part k_day; sep "/"; part k_year] numeric_ymd None);
    ("iso", mkPreset "ISO (Date)" "2025-10-20"
       [part k_year; sep "-"; part k_month; sep "-"; part k_day] numeric_ymd None);
    ("ymd_dot", mkPreset "Y.M.D Dots" "2025.10.20"
       [part k_year; sep "."; part k_month; sep "."; part k_day] numeric_ymd None);
    ("dmy_dot", mkPreset "D.M.Y Dots" "20.10.2025"
       [part k_day; sep "."; part k_month; sep "."; part k_year] numeric_ymd None);
    ("full_long", mkPreset "Full Long" "Monday, October 20, 2025"
       [part k_weekday; sep ", "; part k_month; part k_day; sep ", "; part k_year]
       (opts (Some long) (Some month_long) (Some numeric) (Some numeric)) None);
    ("weekday_day_ordinal", mkPreset "Weekday Day Ordinal" "Saturday 20th"
       [part k_weekday; part k_day]
       (opts (Some long) None (Some numeric) None) (Some true));
    ("weekday_month_day_year_ordinal",
     mkPreset "Weekday Month Day Year Ordinal" "Monday November 3rd 2025"
       [part k_weekday; part k_month; part k_day; part k_year]
       (opts (Some long) (Some month_long) (Some numeric) (Some numeric)) (Some true));
    ("iso_with_weekday", mkPreset "Weekday ISO" "Mon 2025-10-20"
       [part k_weekday; sep " "; part k_year; sep "-"; part k_month; sep "-"; part k_day]
       (opts (Some short) (Some month_2digit) (Some two_digit) (Some numeric)) None);
    ("custom", mkPreset "Custom" "Controlled by toggles below"
       [] no_options None) ].

(** [PRESETS[key]]; [None] is [undefined]. *)
Fixpoint lookup_preset (table : list (string * PresetDef)) (key : string)
  : option PresetDef :=
  match table with
  | [] => None
  | (k, def) :: rest => if String.eqb k key then Some def else lookup_preset rest key
  end.

(** Reading a property of [PRESETS[key]]: a TypeError when the key is
    not in the table. *)
Definition preset_def (key : string) : completion PresetDef :=
  match lookup_preset PRESETS key with
  | Some def => Normal def
  | None => Throw TypeError
  end.

Definition getOrdinalSuffix (day : Z) : string :=
  let v := Z.rem day 100 in
  if (v >=? 11) && (v <=? 13) then Number_toString day +:+ "th"
  else match Z.rem day 10 with
       | 1 => Number_toString day +:+ "st"
       | 2 => Number_toString day +:+ "nd"
       | 3 => Number_toString day +:+ "rd"
       | _ => Number_toString day +:+ "th"
       end.

Inductive MonthFormat : Set := mf_2digit | mf_short | mf_long | mf_narrow.
Inductive DayFormat : Set := df_2digit | df_numeric | df_ordinal.
Inductive SeparatorStyle : Set := space | slash | dash | comma_space.

(** [DateProps["format"]] *)
Record Format : Set := mkFormat {
  preset : string;
  year : option bool;
  yearFormat : option NumericStyle;
  month : option bool;
  monthFormat : option MonthFormat;
  day : option bool;
  dayFormat : option DayFormat;
  weekday : option bool;
  weekdayFormat : option NameStyle;
  separatorStyle : option SeparatorStyle;
}.

(** [{ preset: key }] *)
Definition preset_only (key : string) : Format :=
  mkFormat key None None None None None None None None None.

Record PartValueMap : Set := mkParts {
  pv_year : option string;
  pv_month : option string;
  pv_day : option string;
  pv_weekday : option string;
}.

Definition no_parts : PartValueMap := mkParts None None None None.

(** [out[key] = v] and [out[key]] *)
Definition set_part (key : DatePartKey) (v : string) (out : PartValueMap) : PartValueMap :=
  match key with
  | k_year => mkParts (Some v) (pv_month out) (pv_day out) (pv_weekday out)
  | k_month => mkParts (pv_year out) (Some v) (pv_day out) (pv_weekday out)
  | k_day => mkParts (pv_year out) (pv_month out) (Some v) (pv_weekday out)
  | k_weekday => mkParts (pv_year out) (pv_month out) (pv_day out) (Some v)
  end.

Definition get_part (key : DatePartKey) (out : PartValueMap) : option string :=
  match key with
  | k_year => pv_year out
  | k_month => pv_month out
  | k_day => pv_day out
  | k_weekday => pv_weekday out
  end.

Definition month_option (m : MonthFormat) : MonthStyle :=
  match m with
  | mf_2digit => month_2digit
  | mf_short => month_short
  | mf_long => month_long
  | mf_narrow => month_narrow
  end.

Definition is_custom (f : Format) : bool := String.eqb (preset f) "custom".

Definition buildFormatter (P : Platform) (locale timezone : option string) (f : Format)
  : completion DateTimeFormat :=
  if negb (is_custom f) then
    def ← preset_def (preset f);
    newDateTimeFormat P locale (spread (timeZone_only timezone) (options def))
  else
    let o_year :=
      if truthy_bool (year f) && truthy_some (yearFormat f) then yearFormat f else None in
    let o_month :=
      if truthy_bool (month f) && truthy_some (monthFormat f)
      then month_option <$> monthFormat f else None in
    let o_day :=
      match dayFormat f with
      | Some df =>
          if truthy_bool (day f) then
            match df with
            | df_ordinal => None
            | df_2digit => Some two_digit
            | df_numeric => Some numeric
            end
          else None
      | None => None
      end in
    let o_weekday :=
      if truthy_bool (weekday f) && truthy_some (weekdayFormat f)
      then weekdayFormat f else None in
    newDateTimeFormat P locale
      {| timeZone := timezone; hourCycle := None; Intl.year := o_year;
         Intl.month := o_month; Intl.day := o_day; Intl.weekday := o_weekday;
         hour := None; minute := None; second := None |}.

Definition extractParts (d : Date) (fmt : DateTimeFormat) : PartValueMap :=
  fold_left
    (fun out p =>
       match type p with
       | p_year => set_part k_year (value p) out
       | p_month => set_part k_month (value p) out
       | p_day => set_part k_day (value p) out
       | p_weekday => set_part k_weekday (value p) out
       | _ => out
       end)
    (formatToParts fmt d) no_parts.

Definition sepMap (style : SeparatorStyle) : string :=
  match style with
  | space => " "
  | slash => "/"
  | dash => "-"
  | comma_space => ", "
  end.

(** The elements of an array paired with their indices, as [forEach]
    hands them to its callback. *)
Definition indexed {A} (l : list A) : list (Z * A) :=
  imap (fun idx x => (Z.of_nat idx, x)) l.

(** The callback of [order.forEach] in [buildSequence]: [len] is
    [order.length] and [s] the separator. *)
Definition pushPart (s : string) (len : Z) (seq : list SeqToken) (ip : Z * DatePartKey)
  : list SeqToken :=
  let '(idx, p) := ip in
  let seq := seq ++ [part p] in
  if idx <? len - 1 then seq ++ [sep s] else seq.

Definition buildSequence (f : Format) : completion (list SeqToken) :=
  if negb (is_custom f) then
    def ← preset_def (preset f); Normal (order def)
  else
    let s := sepMap (default space (separatorStyle f)) in
    let order : list DatePartKey := [] in
    let order := if truthy_bool (weekday f) then order ++ [k_weekday] else order in
    let order := if truthy_bool (month f) then order ++ [k_month] else order in
    let order := if truthy_bool (day f) then order ++ [k_day] else order in
    let order := if truthy_bool (year f) then order ++ [k_year] else order in
    if Z.of_nat (length order) <=? 1 then Normal (part <$> order)
    else Normal (fold_left (pushPart s (Z.of_nat (length order))) (indexed order) []).

(** The condition under which the day is replaced by its ordinal
    form, shared by [composePreview] and the tick of [Render]. *)
Definition ordinalDay (f : Format) : completion bool :=
  if is_custom f && truthy_bool (day f) &&
     match dayFormat f with Some df_ordinal => true | _ => false end
  then Normal true
  else if negb (is_custom f) then
    def ← preset_def (preset f); Normal (truthy_bool (dayOrdinal def))
  else Normal false.

Definition composePreview (P : Platform) (date : Date) (locale timezone : option string)
    (format : Format) : completion string :=
  fmt ← buildFormatter P locale timezone format;
  let raw := extractParts date fmt in
  ordinal ← ordinalDay format;
  let raw := if (ordinal : bool) then set_part k_day (getOrdinalSuffix (getDate P date)) raw else raw in
  seq ← buildSequence format;
  Normal
    (fst
       (fold_left
          (fun (st : string * bool) token =>
             let '(out, lastWasPart) := st in
             match token with
             | part key =>
                 let v := or_string (get_part key raw) "" in
                 let out :=
                   if lastWasPart && (Z.of_nat (String.length out) >? 0)
                   then out +:+ " " else out in
                 (out +:+ v, true)
             | sep s => (out +:+ s, false)
             end)
          seq ("", false))).

(** *** Render *)

(** [props.timezone.override === 'user-settings' ? cfg?.time_zone : props.timezone.override] *)
Definition renderTimezone (override : string) (cfg_time_zone : option string)
  : option string :=
  if String.eqb override "user-settings" then cfg_time_zone else Some override.

(** The value [tick] hands to [setParts] at the instant [now]. *)
Definition tick (P : Platform) (now : Date) (fmt : DateTimeFormat) (format : Format)
  : completion PartValueMap :=
  let extracted := extractParts now fmt in
  ordinal ← ordinalDay format;
  Normal (if (ordinal : bool) then set_part k_day (getOrdinalSuffix (getDate P now)) extracted
          else extracted).

(** The timer of a mounted widget.  [intervalRef] survives re-runs of
    the effect; [running] tells whether an effect is installed whose
    cleanup has not run yet. *)
Record Widget : Set := mkWidget {
  self : nat;
  intervalRef : option Z;
  running : bool;
}.

(** The body of [useEffect], after its first [tick()]. *)
Definition effect (w : Window) (x : Widget) : Window * Widget :=
  let w :=
    match intervalRef x with
    | Some h => if truthy_handle (Some h) then clearInterval h w else w
    | None => w
    end in
  let '(h, w) := setInterval (self x) 0 60000 w in
  (w, mkWidget (self x) (Some h) true).

(** The function the effect returns. *)
Definition cleanup (w : Window) (x : Widget) : Window * Widget :=
  let w :=
    match intervalRef x with
    | Some h => if truthy_handle (Some h) then clearInterval h w else w
    | None => w
    end in
  (w, mkWidget (self x) (intervalRef x) false).

(** What can happen to a widget and the window it lives in: React
    runs the effect (on mount and after every cleanup caused by a
    changed dependency), runs the cleanup (before a re-run and on
    unmount), the interval fires, and other code sets and clears
    timers of its own. *)
Inductive step : Window * Widget -> Window * Widget -> Prop :=
| step_effect w x :
    running x = false -> step (w, x) (effect w x)
| step_cleanup w x :
    running x = true -> step (w, x) (cleanup w x)
| step_fire w x h t :
    active w !! h = Some t -> owner t = self x -> kind t = repeating ->
    step (w, x) (w, x)
| step_foreign_set w x t :
    owner t <> self x -> step (w, x) (snd (setTimer t w), x)
| step_foreign_clear w x h t :
    active w !! h = Some t -> owner t <> self x -> step (w, x) (clearTimer h w, x).

(** A window before the widget is mounted: handles are positive and
    below the next one, and none belongs to the widget. *)
Definition initial (w : Window) (x : Widget) : Prop :=
  0 < nextHandle w /\
  (forall h t, active w !! h = Some t -> 0 < h < nextHandle w /\ owner t <> self x) /\
  intervalRef x = None /\ running x = false.

Definition reachable (s : Window * Widget) : Prop :=
  exists w0 x0, initial w0 x0 /\ rtc step (w0, x0) s.

End DateText.

(** ** The DigitalClock widget (flip and digital digits) *)
Module DigitalClock.

(** [Digit = number | string] *)
Inductive Digit : Set :=
| d_number (n : Z)
| d_string (s : string).

(** [String(d)] *)
Definition String_of (d : Digit) : string :=
  match d with
  | d_number n => Number_toString n
  | d_string s => s
  end.

(** [a === b] *)
Definition strict_eq (a b : Digit) : bool :=
  match a, b with
  | d_number n, d_number m => n =? m
  | d_string s, d_string t => String.eqb s t
  | _, _ => false
  end.

Inductive HourFormat : Set := hf12 | hf24.
Inductive YearFormat : Set := yf_2digit.
Inductive UnitFormat : Set := uf_2digit | uf_short | uf_long | uf_narrow.
Inductive AmPmFormat : Set := ampm_default | ampm_scaled.
Inductive AmPmPosition : Set := pos_top | pos_center | pos_bottom.

(** [DigitalClockProps["show"]] *)
Record Show : Set := mkShow {
  hourFormat : HourFormat;
  year : bool;
  yearFormat : option YearFormat;
  month : bool;
  monthFormat : option UnitFormat;
  day : bool;
  dayFormat : option UnitFormat;
  hour : bool;
  minute : bool;
  second : bool;
  hours_am_pm : bool;
  hoursAmPmFormat : option AmPmFormat;
  hoursAmPmPosition : option AmPmPosition;
}.

(** [opts?: { immediate?: boolean }] *)
Record UpdateOpts : Set := mkOpts { immediate : option bool }.

Definition is_immediate (opts : option UpdateOpts) : bool :=
  truthy_bool (opts ≫= immediate).

(** *** FlipDigit

    The two value refs, the text of the four elements the refs point
    to ([None] while a ref is null) and whether the card carries the
    class [ha-dc__flipped]. *)
Record FlipDigit : Set := mkFlip {
  currentRef : Digit;
  nextRef : Digit;
  nextAboveRef : option string;
  currentBelowRef : option string;
  frontRef : option string;
  backRef : option string;
  flipped : bool;
}.

(** [if (ref.current) ref.current.textContent = text] *)
Definition set_text (el : option string) (text : string) : option string :=
  match el with
  | Some _ => Some text
  | None => None
  end.

(** The markup of a freshly rendered digit. *)
Definition mount (initial : Digit) : FlipDigit :=
  let text := Some (String_of initial) in
  mkFlip initial initial text text text text false.

Definition updateDigit (next : Digit) (opts : option UpdateOpts) (st : FlipDigit)
  : FlipDigit :=
  if strict_eq next (currentRef st) then st
  else if is_immediate opts then
    {| currentRef := next;
       nextRef := next;
       nextAboveRef := set_text (nextAboveRef st) (String_of next);
       backRef := set_text (backRef st) (String_of next);
       currentBelowRef := set_text (currentBelowRef st) (String_of next);
       frontRef := set_text (frontRef st) (String_of next);
       flipped := flipped st |}
  else
    {| currentRef := currentRef st;
       nextRef := next;
       nextAboveRef := set_text (nextAboveRef st) (String_of next);
       backRef := set_text (backRef st) (String_of next);
       currentBelowRef := currentBelowRef st;
       frontRef := frontRef st;
       flipped := true |}.

Definition handleTransitionEnd (st : FlipDigit) : FlipDigit :=
  {| currentRef := nextRef st;
     nextRef := nextRef st;
     nextAboveRef := nextAboveRef st;
     backRef := backRef st;
     currentBelowRef := set_text (currentBelowRef st) (String_of (nextRef st));
     frontRef := set_text (frontRef st) (String_of (nextRef st));
     flipped := false |}.

(** The states a flip digit reaches from its mount with a string by
    calls of its updater with strings and by transitionend events.
    React rendering the digit again with another [initial] is not one
    of these steps; it is [Rendering.rerender]. *)
Inductive flipStates : FlipDigit -> Prop :=
| flip_mounted d :
    flipStates (mount (d_string d))
| flip_updated st d opts :
    flipStates st -> flipStates (updateDigit (d_string d) opts st)
| flip_settled st :
    flipStates st -> flipStates (handleTransitionEnd st).

(** *** The span of the digital mode and its updater *)
Record Span : Set := mkSpan { textContent : string }.

Definition spanUpdater (next : Digit) (opts : option UpdateOpts) (el : Span) : Span :=
  if is_immediate opts then mkSpan (String_of next)
  else if negb (String.eqb (textContent el) (String_of next))
       then mkSpan (String_of next)
       else el.

(** A registered [DigitUpdater], by the element it writes to. *)
Inductive Cell : Set :=
| flip_cell (st : FlipDigit)
| span_cell (el : Span).

Definition call_updater (c : Cell) (next : Digit) (opts : option UpdateOpts) : Cell :=
  match c with
  | flip_cell st => flip_cell (updateDigit next opts st)
  | span_cell el => span_cell (spanUpdater next opts el)
  end.

(** What a cell shows once no flip is pending. *)
Definition displayed (c : Cell) : option string :=
  match c with
  | flip_cell st => frontRef st
  | span_cell el => Some (textContent el)
  end.

(** *** Units *)
Inductive UnitKey : Set :=
  u_year | u_month | u_day | u_hour | u_minute | u_second | u_hours_am_pm.

Definition unit_name (k : UnitKey) : string :=
  match k with
  | u_year => "year" | u_month => "month" | u_day => "day" | u_hour => "hour"
  | u_minute => "minute" | u_second => "second" | u_hours_am_pm => "hours_am_pm"
  end.

Definition ORDERED_UNITS : list UnitKey :=
  [u_year; u_month; u_day; u_hour; u_minute; u_second; u_hours_am_pm].

Definition pad2 (v : string) : string :=
  if Z.of_nat (String.length v) =? 1 then "0" +:+ v else v.

Definition isWeekdayFormat (f : option UnitFormat) : bool :=
  match f with
  | Some uf_short | Some uf_long | Some uf_narrow => true
  | _ => false
  end.

Definition name_style (f : option UnitFormat) : option NameStyle :=
  match f with
  | Some uf_short => Some short
  | Some uf_long => Some long
  | Some uf_narrow => Some narrow
  | _ => None
  end.

Definition month_style (f : UnitFormat) : MonthStyle :=
  match f with
  | uf_2digit => month_2digit
  | uf_short => month_short
  | uf_long => month_long
  | uf_narrow => month_narrow
  end.

Definition buildDateFormatter (P : Platform) (locale timezone : option string)
    (show : Show) : completion DateTimeFormat :=
  let hourFormat := hourFormat show in
  let yearOpt :=
    if year show
    then Some (match default yf_2digit (yearFormat show) with yf_2digit => two_digit end)
    else None in
  let monthOpt :=
    if month show then Some (month_style (default uf_2digit (monthFormat show)))
    else None in
  let dayIsWeekday := day show && isWeekdayFormat (dayFormat show) in
  let dayOpt :=
    if day show then
      match dayFormat show with
      | Some uf_2digit => Some two_digit
      | _ => None
      end
    else None in
  let weekdayOpt :=
    if dayIsWeekday && isWeekdayFormat (dayFormat show)
    then name_style (dayFormat show) else None in
  newDateTimeFormat P locale
    {| timeZone := timezone;
       hourCycle := Some (match hourFormat with hf24 => h23 | hf12 => h12 end);
       Intl.year := yearOpt;
       Intl.month := monthOpt;
       Intl.day := dayOpt;
       weekday := weekdayOpt;
       Intl.hour := if hour show then Some two_digit else None;
       Intl.minute := if minute show then Some two_digit else None;
       Intl.second := if second show then Some two_digit else None |}.

Definition extractParts (d : Date) (fmt : DateTimeFormat) : gmap string string :=
  fold_left
    (fun (out : gmap string string) p =>
       let out :=
         match type p with
         | p_year | p_month | p_day | p_hour | p_minute | p_second =>
             <[type_name (type p) := value p]> out
         | _ => out
         end in
       let out :=
         match type p with p_weekday => <["day" := value p]> out | _ => out end in
       match type p with p_dayPeriod => <["hours_am_pm" := value p]> out | _ => out end)
    (formatToParts fmt d) ∅.

(** [show[k]] for the keys other than ["hours_am_pm"] *)
Definition show_unit (show : Show) (k : UnitKey) : bool :=
  match k with
  | u_year => year show
  | u_month => month show
  | u_day => day show
  | u_hour => hour show
  | u_minute => minute show
  | u_second => second show
  | u_hours_am_pm => hours_am_pm show
  end.

Definition enabledUnits (show : Show) : list UnitKey :=
  List.filter
    (fun k =>
       match k with
       | u_hours_am_pm =>
           hours_am_pm show && match hourFormat show with hf12 => true | hf24 => false end
       | _ => show_unit show k
       end)
    ORDERED_UNITS.

Definition is_2digit_or_undefined (f : option UnitFormat) : bool :=
  match f with
  | None | Some uf_2digit => true
  | _ => false
  end.

Definition is_2digit (f : option UnitFormat) : bool :=
  match f with
  | Some uf_2digit => true
  | _ => false
  end.

Definition is_time_unit (k : UnitKey) : bool :=
  match k with
  | u_hour | u_minute | u_second => true
  | _ => false
  end.

Definition has_length_1 (v : string) : bool := Z.of_nat (String.length v) =? 1.

Definition buildInitialSections (P : Platform) (now : Date) (enabled : list UnitKey)
    (show : Show) (fmt : DateTimeFormat) : list (UnitKey * list string) :=
  let parts := extractParts now fmt in
  (fun k =>
     let val :=
       match k with
       | u_hours_am_pm =>
           or_string (parts !! unit_name k) (if getHours P now <? 12 then "AM" else "PM")
       | _ => or_string (parts !! unit_name k) ""
       end in
     let val :=
       if match k with u_month => true | _ => false end && month show &&
          is_2digit_or_undefined (monthFormat show) && has_length_1 val
       then pad2 val else val in
     let val :=
       if match k with u_day => true | _ => false end && day show &&
          is_2digit (dayFormat show) && has_length_1 val
       then pad2 val else val in
     let val := if is_time_unit k && has_length_1 val then pad2 val else val in
     (k, split_chars val)) <$> enabled.

(** The registry of updaters and the first-run flag that [applyTick]
    reads and writes.  An updater is kept as the element it writes to,
    so every entry of this registry has an element of its own; the
    registry as an array of functions, two of which can write to one
    element, is [Rendering.TickRefs]. *)
Record TickRefs : Type := mkRefs {
  digitUpdatersRef : gmap string (list Cell);
  firstRunRef : bool;
}.

(** The digits [applyTick] computes for one unit. *)
Definition tickDigits (P : Platform) (current : Date) (show : Show)
    (parts : gmap string string) (k : UnitKey) : list string :=
  let val :=
    match k with
    | u_hours_am_pm =>
        or_string (parts !! unit_name k) (if getHours P current <? 12 then "AM" else "PM")
    | _ => or_string (parts !! unit_name k) ""
    end in
  let val :=
    if match k with u_month => true | _ => false end && month show &&
       is_2digit_or_undefined (monthFormat show) && has_length_1 val
    then pad2 val else val in
  let val :=
    if match k with u_day => true | _ => false end && day show &&
       is_2digit (dayFormat show) && has_length_1 val
    then pad2 val else val in
  let val := if is_time_unit k && has_length_1 val then pad2 val else val in
  split_chars val.

(** [clock] is the instant [new Date()] reads. *)
Definition applyTick (P : Platform) (clock : Date) (enabled : list UnitKey) (show : Show)
    (refs : TickRefs) (fmt : DateTimeFormat) : TickRefs :=
  let now := if firstRunRef refs then None else Some clock in
  let current := default clock now in
  let parts := extractParts current fmt in
  let opts := if firstRunRef refs then Some (mkOpts (Some true)) else None in
  let registry :=
    fold_left
      (fun (registry : gmap string (list Cell)) k =>
         let digits := tickDigits P current show parts k in
         match registry !! unit_name k with
         | None => registry
         | Some updaters =>
             <[unit_name k :=
                 fold_left
                   (fun (updaters : list Cell) (id : Z * string) =>
                      let '(idx, d) := id in
                      match updaters !! Z.to_nat idx with
                      | None => updaters
                      | Some updater =>
                          <[Z.to_nat idx := call_updater updater (d_string d) opts]> updaters
                      end)
                   (DateText.indexed digits) updaters]> registry
         end)
      enabled (digitUpdatersRef refs) in
  mkRefs registry (if firstRunRef refs then false else firstRunRef refs).

(** *** The timers of [Render]

    Every run of the effect has its own [timeoutId] and its own
    [intervalRef] object. *)
Record Closure : Set := mkClosure { timeoutId : Z; intervalRef : Z }.

Record Widget : Set := mkWidget {
  self : nat;
  runs : list Closure;
  running : bool;
}.

(** [1000 - (nowMs % 1000)] *)
Definition alignDelay (nowMs : Z) : Z := 1000 - Z.rem nowMs 1000.

(** The body of [useEffect] at mount time [nowMs]. *)
Definition effect (nowMs : Z) (w : Window) (x : Widget) : Window * Widget :=
  let '(timeoutId, w) := setTimeout (self x) (length (runs x)) (alignDelay nowMs) w in
  (w, mkWidget (self x) (runs x ++ [mkClosure timeoutId 0]) true).

(** The callback of the timeout of run [r]: [tick()] and the start of
    the repeating timer. *)
Definition onTimeout (r : nat) (w : Window) (x : Widget) : Window * Widget :=
  let '(h, w) := setInterval (self x) r 1000 w in
  (w, mkWidget (self x) (alter (fun c => mkClosure (timeoutId c) h) r (runs x)) (running x)).

(** The function returned by the latest run of the effect. *)
Definition cleanup (w : Window) (x : Widget) : Window * Widget :=
  match last (runs x) with
  | Some c =>
      let w := clearTimeout (timeoutId c) w in
      let w := if negb (intervalRef c =? 0) then clearInterval (intervalRef c) w else w in
      (w, mkWidget (self x) (runs x) false)
  | None => (w, mkWidget (self x) (runs x) false)
  end.

Inductive step : Window * Widget -> Window * Widget -> Prop :=
| step_effect nowMs w x :
    running x = false -> step (w, x) (effect nowMs w x)
| step_cleanup w x :
    running x = true -> step (w, x) (cleanup w x)
| step_timeout w x h t :
    active w !! h = Some t -> owner t = self x -> kind t = one_shot ->
    step (w, x) (onTimeout (run t) (clearTimer h w) x)
| step_fire w x h t :
    active w !! h = Some t -> owner t = self x -> kind t = repeating ->
    step (w, x) (w, x)
| step_foreign_set w x t :
    owner t <> self x -> step (w, x) (snd (setTimer t w), x)
| step_foreign_clear w x h t :
    active w !! h = Some t -> owner t <> self x -> step (w, x) (clearTimer h w, x).

Definition initial (w : Window) (x : Widget) : Prop :=
  0 < nextHandle w /\
  (forall h t, active w !! h = Some t -> 0 < h < nextHandle w /\ owner t <> self x) /\
  runs x = [] /\ running x = false.

Definition reachable (s : Window * Widget) : Prop :=
  exists w0 x0, initial w0 x0 /\ rtc step (w0, x0) s.

End DigitalClock.

(** ** src/components/AnalogClock/AnalogClock.tsx *)
Module AnalogClock.

(** The arithmetic of the Number type (IEEE 754 doubles), which the
    starting angles are computed with, is left to the platform. *)
Record NumberOps (number : Type) : Type := mkNumberOps {
  of_Z : Z -> number;
  half : number;
  parseInt : string -> Z -> number;
  add : number -> number -> number;
  mul : number -> number -> number;
  div : number -> number -> number;
  rem : number -> number -> number;
  neg : number -> number;
}.
Arguments of_Z {number}.
Arguments half {number}.
Arguments parseInt {number}.
Arguments add {number}.
Arguments mul {number}.
Arguments div {number}.
Arguments rem {number}.
Arguments neg {number}.

Record Hands (number : Type) : Type := mkHands {
  hourDelay : number;
  minuteDelay : number;
  secondDelay : number;
  hourRotationStart : number;
  minuteRotationStart : number;
  secondRotationStart : number;
}.
Arguments mkHands {number}.

Section Memo.
Context {number : Type} (N : NumberOps number) (P : Platform).

(** [parts.find((p) => p.type === t)?.value || "0"] *)
Definition find_value (t : PartType) (parts : list DateTimeFormatPart) : string :=
  or_string
    (value <$> List.find (fun p => String.eqb (type_name (type p)) (type_name t)) parts)
    "0".

(** The [try] block of the memoized computation; [now] is the
    instant [new Date()] reads and [timezone] the prop before its
    default is applied. *)
Definition computeHands (now : Date) (locale timezone : option string)
  : completion (Hands number) :=
  updatedLocale ← getLocale P locale;
  formatter ← newDateTimeFormat P updatedLocale
    {| Intl.hour := Some two_digit;
       Intl.minute := Some two_digit;
       Intl.second := Some two_digit;
       hourCycle := Some h12;
       timeZone := Some (default "user-settings" timezone);
       Intl.year := None; Intl.month := None; Intl.day := None; weekday := None |};
  let parts := formatToParts formatter now in
  let hourStr := find_value p_hour parts in
  let minuteStr := find_value p_minute parts in
  let secondStr := find_value p_second parts in
  let ms := of_Z N (getMilliseconds P now) in
  let hour := parseInt N hourStr 10 in
  let minute := parseInt N minuteStr 10 in
  let second := parseInt N secondStr 10 in
  let secondsWithMs := add N second (div N ms (of_Z N 1000)) in
  let hour12 := rem N hour (of_Z N 12) in
  let hourRotation :=
    add N (add N (mul N hour12 (of_Z N 30)) (mul N minute (half N)))
          (div N secondsWithMs (of_Z N 120)) in
  let minuteRotation :=
    add N (mul N minute (of_Z N 6)) (div N secondsWithMs (of_Z N 10)) in
  let secondRotation := mul N secondsWithMs (of_Z N 6) in
  Normal
    {| hourDelay :=
         neg N (add N (add N (mul N hour12 (of_Z N 3600)) (mul N minute (of_Z N 60)))
                      secondsWithMs);
       minuteDelay := neg N (add N (mul N minute (of_Z N 60)) secondsWithMs);
       secondDelay := neg N secondsWithMs;
       hourRotationStart := hourRotation;
       minuteRotationStart := minuteRotation;
       secondRotationStart := secondRotation |}.

(** The value of the [catch] block. *)
Definition zeroHands : Hands number :=
  mkHands (of_Z N 0) (of_Z N 0) (of_Z N 0) (of_Z N 0) (of_Z N 0) (of_Z N 0).

(** The callback of [useMemo]. *)
Definition initialHands (now : Date) (locale timezone : option string)
  : completion (Hands number) :=
  try_catch (computeHands now locale timezone) (fun _ => Normal zeroHands).

End Memo.

End AnalogClock.

(** ** A reference platform

    An English-speaking host whose own zone is UTC and that knows three
    zones without daylight saving.  It renders the requested fields in
    a fixed order with a space between them; when no field is requested
    it renders the numeric year, month and day, as ECMA-402 prescribes.
    Numbers are exact rationals, [None] standing for NaN. *)
Module Reference.

Definition tags : list (string * string) :=
  [("en", "en"); ("en-US", "en-US"); ("en-us", "en-US"); ("en-GB", "en-GB")].

Fixpoint assoc {A} (table : list (string * A)) (key : string) : option A :=
  match table with
  | [] => None
  | (k, v) :: rest => if String.eqb k key then Some v else assoc rest key
  end.

Fixpoint canonicalize (locales : list string) : completion (list string) :=
  match locales with
  | [] => Normal []
  | l :: rest =>
      match assoc tags l with
      | Some c => cs ← canonicalize rest; Normal (c :: cs)
      | None => Throw RangeError
      end
  end.

Definition zones : list (string * Z) :=
  [("UTC", 0); ("Asia/Tokyo", 9 * msPerHour); ("America/Phoenix", -7 * msPerHour)].

Definition weekdays : list string :=
  ["Sunday"; "Monday"; "Tuesday"; "Wednesday"; "Thursday"; "Friday"; "Saturday"].

Definition months : list string :=
  ["January"; "February"; "March"; "April"; "May"; "June"; "July"; "August";
   "September"; "October"; "November"; "December"].

Definition named (names : list string) (i : Z) (style : NameStyle) : string :=
  let name := default "" (names !! Z.to_nat i) in
  match style with
  | long => name
  | short => substring 0 3 name
  | narrow => substring 0 1 name
  end.

Definition two (n : Z) : string :=
  if n <? 10 then "0" +:+ Number_toString n else Number_toString n.

Definition styled (style : NumericStyle) (n : Z) : string :=
  match style with
  | numeric => Number_toString n
  | two_digit => two n
  end.

Definition uses_day_period (c : option HourCycle) : bool :=
  match c with
  | Some h23 | Some h24 => false
  | _ => true
  end.

Definition clock_hour (c : option HourCycle) (h : Z) : Z :=
  match c with
  | Some h23 => h
  | Some h24 => if h =? 0 then 24 else h
  | Some h11 => h mod 12
  | _ => if h mod 12 =? 0 then 12 else h mod 12
  end.

Definition requests_nothing (o : DateTimeFormatOptions) : bool :=
  negb (truthy_some (Intl.weekday o) || truthy_some (Intl.year o) ||
        truthy_some (Intl.month o) || truthy_some (Intl.day o) ||
        truthy_some (Intl.hour o) || truthy_some (Intl.minute o) ||
        truthy_some (Intl.second o)).

Definition fields (o : DateTimeFormatOptions) (t : Z) : list DateTimeFormatPart :=
  let o :=
    if requests_nothing o
    then spread o (DateText.opts None (Some month_numeric) (Some numeric) (Some numeric))
    else o in
  omap id
    [ mkPart p_weekday <$> (named weekdays (WeekDay t) <$> Intl.weekday o);
      mkPart p_month <$>
        ((fun m =>
            match m with
            | month_numeric => Number_toString (MonthFromTime t)
            | month_2digit => two (MonthFromTime t)
            | month_long => named months (MonthFromTime t - 1) long
            | month_short => named months (MonthFromTime t - 1) short
            | month_narrow => named months (MonthFromTime t - 1) narrow
            end) <$> Intl.month o);
      mkPart p_day <$> ((fun st => styled st (DateFromTime t)) <$> Intl.day o);
      mkPart p_year <$>
        ((fun st =>
            match st with
            | numeric => Number_toString (YearFromTime t)
            | two_digit => two (YearFromTime t mod 100)
            end) <$> Intl.year o);
      mkPart p_hour <$>
        ((fun st => styled st (clock_hour (hourCycle o) (HourFromTime t))) <$> Intl.hour o);
      mkPart p_minute <$> ((fun _ => two (MinFromTime t)) <$> Intl.minute o);
      mkPart p_second <$> ((fun _ => two (SecFromTime t)) <$> Intl.second o);
      mkPart p_dayPeriod <$>
        ((fun _ => if HourFromTime t <? 12 then "AM" else "PM") <$>
           (if uses_day_period (hourCycle o) then Intl.hour o else None)) ].

Fixpoint spaced (parts : list DateTimeFormatPart) : list DateTimeFormatPart :=
  match parts with
  | [] => []
  | [p] => [p]
  | p :: rest => p :: mkPart p_literal " " :: spaced rest
  end.

Definition refPlatform : Platform :=
  {| navigator_language := Some "en-US";
     getCanonicalLocales := canonicalize;
     LocalTZA := fun _ => 0;
     zoneOffset := fun id => (fun off (_ : Z) => off) <$> assoc zones id;
     localeParts := fun _ o t => spaced (fields o t) |}.

(** *** Exact numbers *)
Definition digit_of (c : ascii) : option Z :=
  let n := Z.of_N (N_of_ascii c) in
  if (48 <=? n) && (n <=? 57) then Some (n - 48) else None.

Fixpoint leading_digits (s : string) (acc : option Z) : option Z :=
  match s with
  | EmptyString => acc
  | String c rest =>
      match digit_of c with
      | Some d => leading_digits rest (Some (10 * default 0 acc + d))
      | None => acc
      end
  end.

Definition lift2 (f : Q -> Q -> Q) (a b : option Q) : option Q :=
  x ← a; y ← b; Some (Qred (f x y)).

Definition exact_div (a b : option Q) : option Q :=
  x ← a; y ← b; if Qeq_bool y 0 then None else Some (Qred (x / y)).

Definition exact_rem (a b : option Q) : option Q :=
  x ← a; y ← b;
  if Qeq_bool y 0 then None
  else
    let q := (x / y)%Q in
    let n := if Qle_bool 0 q then Qfloor q else Qceiling q in
    Some (Qred (x - y * inject_Z n)).

Definition exactNumbers : AnalogClock.NumberOps (option Q) :=
  {| AnalogClock.of_Z := fun n => Some (inject_Z n);
     AnalogClock.half := Some (1 # 2);
     AnalogClock.parseInt := fun s _ => inject_Z <$> leading_digits s None;
     AnalogClock.add := lift2 Qplus;
     AnalogClock.mul := lift2 Qmult;
     AnalogClock.div := exact_div;
     AnalogClock.rem := exact_rem;
     AnalogClock.neg := fun a => Qopp <$> a |}.

End Reference.
Export Reference.

(** ** What the specification says, in its own words *)
Module Spec.

(** The standard English ordinal rule: 11 to 13 always take "th",
    otherwise the last digit decides. *)
Definition englishOrdinalSuffix (day : Z) : string :=
  let r := day mod 100 in
  if (r =? 11) || (r =? 12) || (r =? 13) then "th"
  else
    let lastDigit := day mod 10 in
    if lastDigit =? 1 then "st"
    else if lastDigit =? 2 then "nd"
    else if lastDigit =? 3 then "rd"
    else "th".

(** One separator between each pair of adjacent elements, none at
    either end. *)
Fixpoint intersperse {A} (s : A) (l : list A) : list A :=
  match l with
  | [] => []
  | [x] => [x]
  | x :: rest => x :: s :: intersperse s rest
  end.

(** The parts a custom format enables, in display order. *)
Definition enabledParts (f : DateText.Format) : list DateText.DatePartKey :=
  List.filter
    (fun k =>
       truthy_bool
         match k with
         | DateText.k_weekday => DateText.weekday f
         | DateText.k_month => DateText.month f
         | DateText.k_day => DateText.day f
         | DateText.k_year => DateText.year f
         end)
    [DateText.k_weekday; DateText.k_month; DateText.k_day; DateText.k_year].

(** The separator a custom format chooses. *)
Definition chosenSeparator (f : DateText.Format) : string :=
  match DateText.separatorStyle f with
  | Some DateText.slash => "/"
  | Some DateText.dash => "-"
  | Some DateText.comma_space => ", "
  | Some DateText.space | None => " "
  end.

(** A configuration is valid when its preset is one of the table, the
    platform accepts its locale tag and knows its time zone. *)
Definition validConfiguration (P : Platform) (locale timezone : option string)
    (f : DateText.Format) : Prop :=
  is_Some (DateText.lookup_preset DateText.PRESETS (DateText.preset f)) /\
  locale_ok P locale = true /\
  is_Some (resolveZone P timezone).

(** The day unit is configured as ordinal. *)
Definition dayIsOrdinal (f : DateText.Format) : Prop :=
  (DateText.is_custom f = true /\ DateText.day f = Some true /\
   DateText.dayFormat f = Some DateText.df_ordinal) \/
  (DateText.is_custom f = false /\
   exists def, DateText.lookup_preset DateText.PRESETS (DateText.preset f) = Some def /\
               DateText.dayOrdinal def = Some true).

(** The units the digital clock shows with two digits: the month under
    the "2-digit" format or none, the day under the "2-digit" format,
    and the hour, the minute and the second. *)
Definition twoDigitUnit (show : DigitalClock.Show) (k : DigitalClock.UnitKey) : Prop :=
  (k = DigitalClock.u_month /\ DigitalClock.month show = true /\
   (DigitalClock.monthFormat show = None \/
    DigitalClock.monthFormat show = Some DigitalClock.uf_2digit)) \/
  (k = DigitalClock.u_day /\ DigitalClock.day show = true /\
   DigitalClock.dayFormat show = Some DigitalClock.uf_2digit) \/
  k = DigitalClock.u_hour \/ k = DigitalClock.u_minute \/ k = DigitalClock.u_second.

(** The repeating and the one-shot timers of an instance. *)
Definition intervals (who : nat) (w : Window) : gmap Z Timer :=
  filter (fun kv => kind (snd kv) = repeating) (owned who w).
Definition timeouts (who : nat) (w : Window) : gmap Z Timer :=
  filter (fun kv => kind (snd kv) = one_shot) (owned who w).

End Spec.
Export Spec.

(** ** Invariants of the timer table *)
Module Invariants.

(** Handles are positive and below the next one to be handed out. *)
Definition handles_ok (w : Window) : Prop :=
  0 < nextHandle w /\
  forall h t, active w !! h = Some t -> 0 < h < nextHandle w.

(** DateText: while an effect is installed the widget owns exactly the
    60-second interval that [intervalRef] names; otherwise it owns no
    timer. *)
Definition dateTextInv (s : Window * DateText.Widget) : Prop :=
  let '(w, x) := s in
  handles_ok w /\
  (forall h, DateText.intervalRef x = Some h -> 0 < h < nextHandle w) /\
  if DateText.running x
  then exists h,
         DateText.intervalRef x = Some h /\
         owned (DateText.self x) w =
         {[h := mkTimer repeating 60000 (DateText.self x) 0]}
  else owned (DateText.self x) w = ∅.

(** DigitalClock: while an effect is installed the widget owns either
    the alignment timeout of its latest run, whose [intervalRef] is
    still 0, or the 1-second interval that the [intervalRef] of the
    latest run names; otherwise it owns no timer. *)
Definition digitalClockInv (s : Window * DigitalClock.Widget) : Prop :=
  let '(w, x) := s in
  let r := pred (length (DigitalClock.runs x)) in
  handles_ok w /\
  if DigitalClock.running x
  then exists c,
         last (DigitalClock.runs x) = Some c /\
         ((DigitalClock.intervalRef c = 0 /\
           exists ms,
             owned (DigitalClock.self x) w =
             {[DigitalClock.timeoutId c := mkTimer one_shot ms (DigitalClock.self x) r]}) \/
          (0 < DigitalClock.intervalRef c /\
           owned (DigitalClock.self x) w =
           {[DigitalClock.intervalRef c := mkTimer repeating 1000 (DigitalClock.self x) r]}))
  else owned (DigitalClock.self x) w = ∅.

End Invariants.
Export Invariants.

(** ** Names for parts of the digital clock's tick *)
Module Tick.

(** The loop of [applyTick] over the digits of one unit: cell [idx]
    receives digit [idx]; digits without a cell are skipped. *)
Definition updateCells (opts : option DigitalClock.UpdateOpts) (digits : list string)
    (updaters : list DigitalClock.Cell) : list DigitalClock.Cell :=
  fold_left
    (fun (updaters : list DigitalClock.Cell) (id : Z * string) =>
       let '(idx, d) := id in
       match updaters !! Z.to_nat idx with
       | None => updaters
       | Some updater =>
           <[Z.to_nat idx :=
               DigitalClock.call_updater updater (DigitalClock.d_string d) opts]> updaters
       end)
    (DateText.indexed digits) updaters.

(** The body of [enabled.forEach] in [applyTick]. *)
Definition tickUnit (P : Platform) (current : Date) (show : DigitalClock.Show)
    (parts : gmap string string) (opts : option DigitalClock.UpdateOpts)
    (registry : gmap string (list DigitalClock.Cell)) (k : DigitalClock.UnitKey)
  : gmap string (list DigitalClock.Cell) :=
  match registry !! DigitalClock.unit_name k with
  | None => registry
  | Some updaters =>
      <[DigitalClock.unit_name k :=
          updateCells opts (DigitalClock.tickDigits P current show parts k) updaters]> registry
  end.

(** The options [applyTick] passes to every updater. *)
Definition tickOpts (firstRun : bool) : option DigitalClock.UpdateOpts :=
  if firstRun then Some (DigitalClock.mkOpts (Some true)) else None.

(** The key a part of the formatter is stored under by
    [DigitalClock.extractParts]. *)
Definition slot (t : PartType) : option string :=
  match t with
  | p_year => Some "year"
  | p_month => Some "month"
  | p_day | p_weekday => Some "day"
  | p_hour => Some "hour"
  | p_minute => Some "minute"
  | p_second => Some "second"
  | p_dayPeriod => Some "hours_am_pm"
  | p_literal => None
  end.

(** The part type a key of [PartValueMap] is read from. *)
Definition partType (k : DateText.DatePartKey) : PartType :=
  match k with
  | DateText.k_year => p_year
  | DateText.k_month => p_month
  | DateText.k_day => p_day
  | DateText.k_weekday => p_weekday
  end.

Definition PartType_eqb (a b : PartType) : bool :=
  String.eqb (type_name a) (type_name b).

End Tick.
Export Tick.

(** ** DateText: what [Render] shows and the fields of [config] *)
Module DateTextUI.

(** The children of the container: a spacer, a part or a separator. *)
Inductive Node : Set :=
| space_div
| part_div (token : DateText.DatePartKey) (display : string)
| sep_div (s : string).

Definition isPart (t : option DateText.SeqToken) : bool :=
  match t with Some (DateText.part _) => true | _ => false end.

(** [seq.map((token, i) => ...)] of [Render]; [toUpperCase] is
    [String.prototype.toUpperCase]. *)
Definition renderNodes (toUpperCase : string -> string) (uppercase : bool)
    (parts : DateText.PartValueMap) (seq : list DateText.SeqToken) : list Node :=
  concat
    (imap
       (fun (i : nat) token =>
          match token with
          | DateText.part key =>
              let raw := or_string (DateText.get_part key parts) "" in
              let display := if uppercase then toUpperCase raw else raw in
              let needsSpace := (Z.of_nat i >? 0) && isPart (seq !! pred i) in
              (if needsSpace then [space_div] else []) ++ [part_div key display]
          | DateText.sep s => [sep_div s]
          end)
       seq).

(** The text of the container, with [spacer] for the non-breaking
    space of a spacer. *)
Definition nodeText (spacer : string) (n : Node) : string :=
  match n with
  | space_div => spacer
  | part_div _ display => display
  | sep_div s => s
  end.

Definition textContent (spacer : string) (nodes : list Node) : string :=
  fold_right (fun n rest => nodeText spacer n +:+ rest) "" nodes.

(** [x === true] on an optional boolean. *)
Definition is_true (b : option bool) : bool :=
  match b with Some true => true | _ => false end.

(** The [visible] functions of the format fields: the switches and the
    separator style, and the format of each part. *)
Definition visible_switch (f : DateText.Format) : bool := DateText.is_custom f.
Definition visible_yearFormat (f : DateText.Format) : bool :=
  DateText.is_custom f && is_true (DateText.year f).
Definition visible_monthFormat (f : DateText.Format) : bool :=
  DateText.is_custom f && is_true (DateText.month f).
Definition visible_dayFormat (f : DateText.Format) : bool :=
  DateText.is_custom f && is_true (DateText.day f).
Definition visible_weekdayFormat (f : DateText.Format) : bool :=
  DateText.is_custom f && is_true (DateText.weekday f).

(** Two formats that show the same values in the visible fields. *)
Definition sameVisible (f g : DateText.Format) : Prop :=
  DateText.preset f = DateText.preset g /\
  (visible_switch f = true ->
   DateText.year f = DateText.year g /\ DateText.month f = DateText.month g /\
   DateText.day f = DateText.day g /\ DateText.weekday f = DateText.weekday g /\
   DateText.separatorStyle f = DateText.separatorStyle g) /\
  (visible_yearFormat f = true -> DateText.yearFormat f = DateText.yearFormat g) /\
  (visible_monthFormat f = true -> DateText.monthFormat f = DateText.monthFormat g) /\
  (visible_dayFormat f = true -> DateText.dayFormat f = DateText.dayFormat g) /\
  (visible_weekdayFormat f = true -> DateText.weekdayFormat f = DateText.weekdayFormat g).

(** The first token of a sequence puts something on the display. *)
Definition startsShown (parts : DateText.PartValueMap) (seq : list DateText.SeqToken) : Prop :=
  match seq with
  | [] => True
  | DateText.part key :: _ => truthy_string (DateText.get_part key parts) = true
  | DateText.sep s :: _ => s <> ""
  end.

(** *** The preset field *)
Record SelectOption : Set := mkOption { label : string; value : string }.

(** [array.map(f)] for an [f] that may throw. *)
Fixpoint mapM {A B} (f : A -> completion B) (l : list A) : completion (list B) :=
  match l with
  | [] => Normal []
  | x :: rest => y ← f x; ys ← mapM f rest; Normal (y :: ys)
  end.

(** The separator of a duplicate's suffix: a bullet (U+2022, here its
    UTF-8 bytes) between two spaces. *)
Definition bullet : string := " • ".

(** The preview of one preset in the select. *)
Definition presetPreview (P : Platform) (today : Date) (locale timezone : option string)
    (key : string) : completion string :=
  if String.eqb key "custom" then Normal "Custom (build below)"
  else DateText.composePreview P today locale timezone (DateText.preset_only key).

(** The options of the preset select: a preview of [today] per preset,
    with the key appended when two presets preview alike. *)
Definition presetOptions (P : Platform) (today : Date) (locale timezone : option string)
  : completion (list SelectOption) :=
  optionsBase ←
    mapM (fun key =>
            preview ← presetPreview P today locale timezone key;
            Normal (preview, key))
         (fst <$> DateText.PRESETS);
  let counts : gmap string (list string) :=
    fold_left
      (fun (counts : gmap string (list string)) (o : string * string) =>
         <[fst o := default [] (counts !! fst o) ++ [snd o]]> counts)
      optionsBase ∅ in
  Normal
    ((fun o : string * string =>
        let dup := Z.of_nat (length (default [] (counts !! fst o))) >? 1 in
        let dupSuffix := if dup then bullet +:+ snd o else "" in
        mkOption (fst o +:+ dupSuffix) (snd o)) <$> optionsBase).

(** How often a preview occurs among the previews. *)
Definition occurrences (preview : string) (previews : list string) : nat :=
  length (List.filter (String.eqb preview) previews).

(** [options.find(o => o.value === value) || options[0]] *)
Definition selectedOption (options : list SelectOption) (v : option string)
  : option SelectOption :=
  match List.find
          (fun o => match v with Some s => String.eqb (value o) s | None => false end)
          options with
  | Some o => Some o
  | None => head options
  end.

End DateTextUI.

(** ** DigitalClock: labels and layout of [Render] *)
Module DigitalClockUI.

Definition LABELS (k : DigitalClock.UnitKey) : string :=
  match k with
  | DigitalClock.u_year => "YEAR"
  | DigitalClock.u_month => "MONTH"
  | DigitalClock.u_day => "DAY"
  | DigitalClock.u_hour => "HOUR"
  | DigitalClock.u_minute => "MINUTE"
  | DigitalClock.u_second => "SECOND"
  | DigitalClock.u_hours_am_pm => "AM/PM"
  end.

(** The characters of the class [[0-9\.]]. *)
Definition isNumeralOrDot (c : ascii) : bool :=
  let n := Z.of_N (N_of_ascii c) in
  ((48 <=? n) && (n <=? 57)) || (n =? 46).

(** [s.replace(/[0-9\.]/g, "")] *)
Fixpoint stripNumerals (s : string) : string :=
  match s with
  | EmptyString => EmptyString
  | String c rest =>
      if isNumeralOrDot c then stripNumerals rest else String c (stripNumerals rest)
  end.

(** The text under a unit; [locales] is the table of [useLocales()]. *)
Definition unitLabel (locales : gmap string string) (key : DigitalClock.UnitKey) : string :=
  match key with
  | DigitalClock.u_hours_am_pm =>
      if truthy_string (locales !! "am") && truthy_string (locales !! "pm")
      then stripNumerals (default "" (locales !! "am") +:+ "/" +:+
                          default "" (locales !! "pm"))
      else or_string (locales !! DigitalClock.unit_name key) (LABELS key)
  | _ => or_string (locales !! DigitalClock.unit_name key) (LABELS key)
  end.

Inductive StyleMode : Set := sm_flip | sm_digital.

Definition isScaledAmPm (styleMode : StyleMode) (show : DigitalClock.Show)
    (key : option DigitalClock.UnitKey) : bool :=
  match key, styleMode, DigitalClock.hoursAmPmFormat show with
  | Some DigitalClock.u_hours_am_pm, sm_digital, Some DigitalClock.ampm_scaled => true
  | _, _, _ => false
  end.

(** The children of the container: a unit with its digits and the text
    of its label, if it has one, or a colon. *)
Inductive LayoutNode : Set :=
| unit_time (key : DigitalClock.UnitKey) (scaled : bool) (digits : list string)
    (unit_label : option string)
| colon.

(** The non-breaking space of the label under a scaled AM/PM. *)
Definition nbsp : string := String (ascii_of_nat 160) EmptyString.

Definition unitNode (styleMode : StyleMode) (show : DigitalClock.Show) (labelsShow : bool)
    (locales : gmap string string) (section : DigitalClock.UnitKey * list string)
  : LayoutNode :=
  let '(key, digits) := section in
  let isScaled := isScaledAmPm styleMode show (Some key) in
  unit_time key isScaled digits
    (if labelsShow && negb isScaled then Some (unitLabel locales key)
     else if labelsShow && isScaled then Some nbsp
     else None).

(** [initSections.map(([key, digits], idx) => ...)] of [Render];
    [separator] is [appearance.separator]. *)
Definition renderLayout (styleMode : StyleMode) (show : DigitalClock.Show)
    (labelsShow : bool) (separator : option bool) (locales : gmap string string)
    (initSections : list (DigitalClock.UnitKey * list string)) : list LayoutNode :=
  concat
    (imap
       (fun (idx : nat) section =>
          let nextKey := fst <$> (initSections !! S idx) in
          unitNode styleMode show labelsShow locales section ::
          (if (Z.of_nat idx <? Z.of_nat (length initSections) - 1) &&
              negb match separator with Some false => true | _ => false end &&
              negb (isScaledAmPm styleMode show nextKey)
           then [colon] else []))
       initSections).

End DigitalClockUI.

(** ** AnalogClock: the dial and the props of [Render] *)
Module AnalogClockUI.

(** [Array.from(new Array(60), (_, i) => i)] *)
Definition minuteMarkers : list Z := seqZ 0 60.
Definition fiveMinuteMarkers : list Z := List.filter (fun m => Z.rem m 5 =? 0) minuteMarkers.
Definition quarterMarkers : list Z := [0; 15; 30; 45].

Definition hourLabelsNumbers : list string :=
  ["3"; "4"; "5"; "6"; "7"; "8"; "9"; "10"; "11"; "12"; "1"; "2"].
Definition hourLabelsRoman : list string :=
  ["III"; "IV"; "V"; "VI"; "VII"; "VIII"; "IX"; "X"; "XI"; "XII"; "I"; "II"].

(** The marker index [drawHourLabel] places label [hourLabelIndex] at. *)
Definition labelMarker (hourLabelIndex : Z) : Z := hourLabelIndex * 5.

Inductive Ticks : Set := ticks_none | ticks_quarter | ticks_hour | ticks_minute.

(** The indices drawn as minute markers and as five-minute markers. *)
Definition drawnMinuteMarkers (ticks : Ticks) : list Z :=
  match ticks with
  | ticks_none | ticks_hour | ticks_quarter => []
  | ticks_minute => minuteMarkers
  end.
Definition drawnFiveMinuteMarkers (ticks : Ticks) : list Z :=
  (match ticks with ticks_hour | ticks_minute => fiveMinuteMarkers | _ => [] end) ++
  (match ticks with ticks_quarter => quarterMarkers | _ => [] end).

(** The [timezone] prop [Render] passes to [AnalogClockPrivate]. *)
Definition timezoneProp (override : string) (cfg_time_zone : option string) : option string :=
  if String.eqb override "user-settings" then cfg_time_zone else Some override.

(** The hour a marker of the dial stands for: marker 0 is at three
    o'clock and the markers run clockwise, five to the hour. *)
Definition hourAtMarker (m : Z) : Z :=
  let h := ((m + 15) mod 60) / 5 in
  if h =? 0 then 12 else h.

(** Roman numerals of the numbers 1 to 39. *)
Definition roman (n : Z) : string :=
  let tens := match n / 10 with 1 => "X" | 2 => "XX" | 3 => "XXX" | _ => "" end in
  let ones :=
    match n mod 10 with
    | 1 => "I" | 2 => "II" | 3 => "III" | 4 => "IV" | 5 => "V"
    | 6 => "VI" | 7 => "VII" | 8 => "VIII" | 9 => "IX" | _ => ""
    end in
  tens +:+ ones.

End AnalogClockUI.

(** ** Days of the month *)
Module Calendar.

(** The day of the month of a day of the 400-year cycle is between 1
    and 31. *)
Definition dayInMonth (doe : Z) : bool :=
  let d := snd (civil_from_days (doe - 719468)) in
  (1 <=? d) && (d <=? 31).

(** [dayInMonth] on the [n] days from [doe] on. *)
Fixpoint daysInMonth (doe : Z) (n : nat) : bool :=
  match n with
  | O => true
  | S n' => dayInMonth doe && daysInMonth (doe + 1) n'
  end.

End Calendar.
Export Calendar.

(** ** A runtime in another time zone *)
Module Runtime.

(** The platform [P] on a runtime whose own time zone has the offset
    [tza]; [Intl] and [navigator] are as in [P]. *)
Definition withLocalTZA (tza : Z -> Z) (P : Platform) : Platform :=
  {| navigator_language := navigator_language P;
     getCanonicalLocales := getCanonicalLocales P;
     LocalTZA := tza;
     zoneOffset := zoneOffset P;
     localeParts := localeParts P |}.

End Runtime.
Export Runtime.

(** ** DigitalClock: re-renders, and the registry of updaters as closures

    [DigitalClock.flipStates] closes the states of a flip digit under
    its updater and its transition handler, and [DigitalClock.TickRefs]
    gives every registered updater an element of its own.  [Render]
    also renders its digits again when a prop changes, and its registry
    is an array of functions that is appended to on every render and
    never cleared, so that two entries can write to one element.  This
    module has both. *)
Module Rendering.

(** React renders a mounted FlipDigit again with the prop [initial].
    [useRef(initial)] reads its argument on mount only, so the two
    value refs keep what they hold.  Each of the four elements has the
    one child [{initial}]; React writes its text when the child is not
    strictly equal to [previous], the child of the render before.  The
    class of the card is a constant of the markup and stays as the
    updater left it. *)
Definition rerender (previous initial : DigitalClock.Digit) (st : DigitalClock.FlipDigit)
  : DigitalClock.FlipDigit :=
  if DigitalClock.strict_eq initial previous then st
  else
    let text := DigitalClock.String_of initial in
    {| DigitalClock.currentRef := DigitalClock.currentRef st;
       DigitalClock.nextRef := DigitalClock.nextRef st;
       DigitalClock.nextAboveRef := DigitalClock.set_text (DigitalClock.nextAboveRef st) text;
       DigitalClock.currentBelowRef :=
         DigitalClock.set_text (DigitalClock.currentBelowRef st) text;
       DigitalClock.frontRef := DigitalClock.set_text (DigitalClock.frontRef st) text;
       DigitalClock.backRef := DigitalClock.set_text (DigitalClock.backRef st) text;
       DigitalClock.flipped := DigitalClock.flipped st |}.

(** [DigitUpdater]: a function of the next digit and the options; [D]
    is what it closes over and writes to. *)
Definition DigitUpdater (D : Type) : Type :=
  DigitalClock.Digit -> option DigitalClock.UpdateOpts -> D -> D.

(** [digitUpdatersRef] and [firstRunRef] *)
Record TickRefs (D : Type) : Type := mkRefs {
  digitUpdatersRef : gmap string (list (DigitUpdater D));
  firstRunRef : bool;
}.
Arguments mkRefs {D}.
Arguments digitUpdatersRef {D}.
Arguments firstRunRef {D}.

(** [applyTick], calling the registered functions; [clock] is the
    instant [new Date()] reads and [page] what the updaters write to. *)
Definition applyTick {D : Type} (P : Platform) (clock : Date)
    (enabled : list DigitalClock.UnitKey) (show : DigitalClock.Show)
    (refs : TickRefs D) (fmt : DateTimeFormat) (page : D) : D * TickRefs D :=
  let now := if firstRunRef refs then None else Some clock in
  let current := default clock now in
  let parts := DigitalClock.extractParts current fmt in
  let page :=
    fold_left
      (fun (page : D) k =>
         let digits := DigitalClock.tickDigits P current show parts k in
         match digitUpdatersRef refs !! DigitalClock.unit_name k with
         | None => page
         | Some updaters =>
             fold_left
               (fun (page : D) (id : Z * string) =>
                  let '(idx, d) := id in
                  match updaters !! Z.to_nat idx with
                  | None => page
                  | Some updater =>
                      updater (DigitalClock.d_string d)
                        (if firstRunRef refs
                         then Some (DigitalClock.mkOpts (Some true)) else None)
                        page
                  end)
               (DateText.indexed digits) page
         end)
      enabled page in
  (page, mkRefs (digitUpdatersRef refs) (if firstRunRef refs then false else firstRunRef refs)).

(** [(digitUpdatersRef.current[key] ||= []).push(fn)]: the
    [onRegister] handed to a FlipDigit, and what the [ref] callback of
    a span does with its updater. *)
Definition onRegister {D : Type} (key : string) (fn : DigitUpdater D)
    (registry : gmap string (list (DigitUpdater D))) : gmap string (list (DigitUpdater D)) :=
  <[key := default [] (registry !! key) ++ [fn]]> registry.

(** The elements updaters write to, by identity. *)
Definition Elements : Type := gmap nat DigitalClock.Cell.

(** The updater registered for the element [el]: the [updateDigit] of
    a FlipDigit closes over the refs of its instance and the updater
    of a span over the span, whichever render created the function. *)
Definition updaterOf (el : nat) : DigitUpdater Elements :=
  fun next opts page => alter (fun c => DigitalClock.call_updater c next opts) el page.

(** The registry that holds, under each key, the updaters of the
    listed elements. *)
Definition updatersOf (registry : gmap string (list nat))
  : gmap string (list (DigitUpdater Elements)) :=
  fmap (M := gmap string) (fun els : list nat => fmap (M := list) updaterOf els) registry.

(** The elements a tick calls: for each enabled unit the entries of
    the registry that have a digit. *)
Definition calledElements (P : Platform) (current : Date) (show : DigitalClock.Show)
    (parts : gmap string string) (registry : gmap string (list nat))
    (enabled : list DigitalClock.UnitKey) : list (nat * string) :=
  enabled ≫= fun k =>
    zip (default [] (registry !! DigitalClock.unit_name k))
        (DigitalClock.tickDigits P current show parts k).

(** The front of a flip digit shows its current value. *)
Definition showsCurrent (c : DigitalClock.Cell) : Prop :=
  match c with
  | DigitalClock.flip_cell st =>
      DigitalClock.frontRef st = Some (DigitalClock.String_of (DigitalClock.currentRef st))
  | DigitalClock.span_cell _ => True
  end.

(** The updater of a registry that keeps the state of every updater in
    the place of the function: the one at index [idx] of [key] writes
    to the cell at that place and to no other. *)
Definition ownUpdater (key : string) (idx : nat)
  : DigitUpdater (gmap string (list DigitalClock.Cell)) :=
  fun next opts registry =>
    alter (alter (fun c => DigitalClock.call_updater c next opts) idx) key registry.

Definition ownUpdaters (registry : gmap string (list DigitalClock.Cell))
  : gmap string (list (DigitUpdater (gmap string (list DigitalClock.Cell)))) :=
  map_imap (fun key cells => Some (ownUpdater key <$> seq 0 (length cells))) registry.

(** *** Updaters that record their calls *)
Record Call : Set := mkCall {
  call_unit : DigitalClock.UnitKey;
  call_index : nat;
  call_next : DigitalClock.Digit;
  call_opts : option DigitalClock.UpdateOpts;
}.

Definition recorder (k : DigitalClock.UnitKey) (idx : nat) : DigitUpdater (list Call) :=
  fun next opts log => log ++ [mkCall k idx next opts].

(** A registry with [n k] recording updaters under the key of unit [k]. *)
Definition recording (n : DigitalClock.UnitKey -> nat)
  : gmap string (list (DigitUpdater (list Call))) :=
  list_to_map
    ((fun k => (DigitalClock.unit_name k, recorder k <$> seq 0 (n k))) <$>
       DigitalClock.ORDERED_UNITS).

End Rendering.

(** * Theorems *)

(** ** Ordinal suffixes *)

Lemma getOrdinalSuffix_nonneg (day : Z) :
  0 <= day ->
  DateText.getOrdinalSuffix day = Number_toString day +:+ englishOrdinalSuffix day.
Proof.
  intros Hday. unfold DateText.getOrdinalSuffix, englishOrdinalSuffix.
  rewrite !Z.rem_mod_nonneg by lia.
  assert (Hr : 0 <= day mod 10 < 10) by (apply Z.mod_pos_bound; lia).
  destruct (day mod 100 >=? 11) eqn:H11; destruct (day mod 100 <=? 13) eqn:H13;
    destruct (day mod 100 =? 11) eqn:E11; destruct (day mod 100 =? 12) eqn:E12;
    destruct (day mod 100 =? 13) eqn:E13; simpl; try reflexivity; try lia.
  all: destruct (day mod 10) as [|[[|[]|]|[|[]|]|]|] eqn:E; simpl; try reflexivity; lia.
Qed.

(** C1. For every day from 1 to 31, [getOrdinalSuffix] returns the day
    followed by its English ordinal suffix: "th" when the day modulo 100
    is 11, 12 or 13, otherwise "st", "nd" or "rd" when the last digit is
    1, 2 or 3, and "th" in the remaining cases. *)
Theorem getOrdinalSuffix_english (day : Z) :
  1 <= day <= 31 ->
  DateText.getOrdinalSuffix day = Number_toString day +:+ englishOrdinalSuffix day.
Proof. intros H. apply getOrdinalSuffix_nonneg. lia. Qed.

Lemma getOrdinalSuffix_english_witness :
  1 <= 21 <= 31 /\ DateText.getOrdinalSuffix 21 = "21st".
Proof. split; [lia | exact (getOrdinalSuffix_english 21 ltac:(lia))]. Defined.

Example getOrdinalSuffix_samples :
  DateText.getOrdinalSuffix <$> [1; 2; 3; 4; 11; 12; 13; 20; 21; 22; 23; 24; 31] =
  ["1st"; "2nd"; "3rd"; "4th"; "11th"; "12th"; "13th"; "20th"; "21st"; "22nd"; "23rd";
   "24th"; "31st"].
Proof. reflexivity. Qed.

(** ** Locale resolution *)

Lemma try_catch_returns {A} (body : completion A) (fallback : A) :
  returns (try_catch body (fun _ => Normal fallback)).
Proof. destruct body as [a|e]; simpl; [exists a | exists fallback]; reflexivity. Qed.

Lemma getLocale_returns (P : Platform) (inputLocale : option string) :
  returns (getLocale P inputLocale).
Proof.
  unfold getLocale. cbv zeta.
  destruct (getCanonicalLocales P [languageTag P inputLocale]) as [canon|e];
    simpl; eexists; reflexivity.
Qed.

(** ** Units of the digital clock *)

Lemma sublist_filter_bool {A} (p : A -> bool) (l : list A) : sublist (List.filter p l) l.
Proof.
  induction l as [|a l IH]; simpl; [constructor|].
  destruct (p a); [apply sublist_skip | apply sublist_cons]; exact IH.
Qed.

(** C9. [enabledUnits] keeps the order year, month, day, hour, minute,
    second, hours_am_pm, and lists hours_am_pm exactly when
    [show.hours_am_pm] is set and the hour format is "12". *)
Theorem enabledUnits_ordered (show : DigitalClock.Show) :
  sublist (DigitalClock.enabledUnits show) DigitalClock.ORDERED_UNITS /\
  (DigitalClock.u_hours_am_pm ∈ DigitalClock.enabledUnits show <->
   DigitalClock.hours_am_pm show = true /\ DigitalClock.hourFormat show = DigitalClock.hf12).
Proof.
  split; [apply sublist_filter_bool|].
  unfold DigitalClock.enabledUnits. rewrite list_elem_of_In, filter_In.
  split.
  - intros [_ H]. apply andb_true_iff in H as [H1 H2].
    split; [exact H1|]. destruct (DigitalClock.hourFormat show); [reflexivity|discriminate].
  - intros [H1 H2]. split.
    + unfold DigitalClock.ORDERED_UNITS. simpl. tauto.
    + rewrite H1, H2. reflexivity.
Qed.

(** ** Digit updaters *)

Lemma strict_eq_refl (d : DigitalClock.Digit) : DigitalClock.strict_eq d d = true.
Proof. destruct d; simpl; [apply Z.eqb_refl | apply String.eqb_refl]. Qed.

Lemma strict_eq_true (a b : DigitalClock.Digit) :
  DigitalClock.strict_eq a b = true <-> a = b.
Proof.
  destruct a, b; simpl; split; intros H; try discriminate.
  - apply Z.eqb_eq in H. congruence.
  - inversion H. apply Z.eqb_refl.
  - apply String.eqb_eq in H. congruence.
  - inversion H. apply String.eqb_refl.
Qed.

Lemma flipStates_front (st : DigitalClock.FlipDigit) :
  DigitalClock.flipStates st ->
  exists d,
    DigitalClock.currentRef st = DigitalClock.d_string d /\
    DigitalClock.frontRef st = Some d /\
    DigitalClock.currentBelowRef st = Some d.
Proof.
  induction 1 as [d|st d opts Hst (c & Hc & Hf & Hb)|st Hst (c & Hc & Hf & Hb)].
  - exists d. repeat split.
  - unfold DigitalClock.updateDigit.
    destruct (DigitalClock.strict_eq (DigitalClock.d_string d) (DigitalClock.currentRef st)).
    + exists c. auto.
    + destruct (DigitalClock.is_immediate opts); simpl.
      * exists d. rewrite Hf, Hb. repeat split.
      * exists c. auto.
  - assert (Hn : exists n, DigitalClock.nextRef st = DigitalClock.d_string n).
    { clear c Hc Hf Hb. induction Hst as [d|st d opts Hst IH|st Hst IH].
      - exists d. reflexivity.
      - unfold DigitalClock.updateDigit.
        destruct (DigitalClock.strict_eq (DigitalClock.d_string d)
                    (DigitalClock.currentRef st)); [exact IH|].
        destruct (DigitalClock.is_immediate opts); exists d; reflexivity.
      - exact IH. }
    destruct Hn as [n Hn]. exists n. simpl. rewrite Hn, Hf, Hb. repeat split.
Qed.

(** C6, as amended. An update with the value the updater holds as
    current changes nothing.  The flip digit compares the next value
    with [currentRef]: with a value strictly equal to it the four
    texts, the class of the card and both value refs stay as they are,
    with and without [immediate].  In the states a flip digit reaches
    from its mount by calls of its updater and transitionend events the
    front face shows [currentRef], so there an update with the value on
    display is such a no-op.  The span of the digital mode compares
    with its own text and keeps it, with and without [immediate]. *)
Theorem update_unchanged_is_noop :
  (forall st opts, DigitalClock.updateDigit (DigitalClock.currentRef st) opts st = st) /\
  (forall st d opts,
     DigitalClock.flipStates st -> DigitalClock.frontRef st = Some d ->
     DigitalClock.updateDigit (DigitalClock.d_string d) opts st = st) /\
  (forall next opts,
     DigitalClock.spanUpdater next opts (DigitalClock.mkSpan (DigitalClock.String_of next)) =
     DigitalClock.mkSpan (DigitalClock.String_of next)) /\
  (forall c next opts,
     DigitalClock.displayed c = Some (DigitalClock.String_of next) ->
     match c with
     | DigitalClock.flip_cell st => DigitalClock.currentRef st = next
     | DigitalClock.span_cell _ => True
     end ->
     DigitalClock.call_updater c next opts = c).
Proof.
  assert (Hcur : forall st opts,
             DigitalClock.updateDigit (DigitalClock.currentRef st) opts st = st).
  { intros st opts. unfold DigitalClock.updateDigit. rewrite strict_eq_refl. reflexivity. }
  assert (Hspan : forall next opts,
             DigitalClock.spanUpdater next opts
               (DigitalClock.mkSpan (DigitalClock.String_of next)) =
             DigitalClock.mkSpan (DigitalClock.String_of next)).
  { intros next opts. unfold DigitalClock.spanUpdater. simpl.
    rewrite String.eqb_refl. simpl. destruct (DigitalClock.is_immediate opts); reflexivity. }
  split; [exact Hcur|]. split; [|split; [exact Hspan|]].
  - intros st d opts Hst Hfront.
    destruct (flipStates_front st Hst) as (c & Hc & Hf & _).
    assert (c = d) by congruence. subst c. rewrite <- Hc. apply Hcur.
  - intros [st|[text]] next opts Hshown Hsame; simpl in *.
    + subst next. rewrite Hcur. reflexivity.
    + inversion Hshown; subst. rewrite Hspan. reflexivity.
Qed.

Lemma update_unchanged_is_noop_witness :
  DigitalClock.updateDigit (DigitalClock.d_string "7") None
    (DigitalClock.handleTransitionEnd
       (DigitalClock.updateDigit (DigitalClock.d_string "7") None
          (DigitalClock.mount (DigitalClock.d_string "6")))) =
  DigitalClock.handleTransitionEnd
    (DigitalClock.updateDigit (DigitalClock.d_string "7") None
       (DigitalClock.mount (DigitalClock.d_string "6"))) /\
  DigitalClock.call_updater (DigitalClock.span_cell (DigitalClock.mkSpan "7"))
    (DigitalClock.d_string "7") (Some (DigitalClock.mkOpts (Some true))) =
  DigitalClock.span_cell (DigitalClock.mkSpan "7").
Proof.
  destruct update_unchanged_is_noop as (_ & Hflip & _ & Hcell).
  split.
  - apply Hflip; [|reflexivity].
    apply DigitalClock.flip_settled, DigitalClock.flip_updated, DigitalClock.flip_mounted.
  - apply Hcell; [reflexivity | exact I].
Defined.

(** After React has rendered a flip digit again with a changed
    [initial], an update with the value the digit shows is not a no-op.
    A digit mounted with "9" flips to "0"; a re-render then hands it
    "3": the front shows "3" while [currentRef] still holds "0", and
    the update with "3" starts a flip, sets the card's class and
    changes [nextRef]. *)
Lemma rerendered_digit_flips_on_shown_value :
  let st :=
    Rendering.rerender (DigitalClock.d_string "9") (DigitalClock.d_string "3")
      (DigitalClock.handleTransitionEnd
         (DigitalClock.updateDigit (DigitalClock.d_string "0") None
            (DigitalClock.mount (DigitalClock.d_string "9")))) in
  let st' := DigitalClock.updateDigit (DigitalClock.d_string "3") None st in
  DigitalClock.displayed (DigitalClock.flip_cell st) = Some "3" /\
  DigitalClock.currentRef st = DigitalClock.d_string "0" /\
  DigitalClock.flipped st = false /\
  st' <> st /\
  DigitalClock.flipped st' = true /\
  DigitalClock.nextRef st' = DigitalClock.d_string "3" /\
  DigitalClock.nextRef st = DigitalClock.d_string "0".
Proof.
  cbv zeta. repeat split; try (vm_compute; reflexivity).
  vm_compute. discriminate.
Qed.

(** A flip that is still pending is not disturbed either: repeating the
    value the card is flipping to leaves the digit as it is. *)
Lemma updateDigit_pending_noop (current next : DigitalClock.Digit) :
  let pending := DigitalClock.updateDigit next None (DigitalClock.mount current) in
  DigitalClock.updateDigit next None pending = pending.
Proof.
  simpl. unfold DigitalClock.updateDigit at 2. simpl.
  destruct (DigitalClock.strict_eq next current) eqn:E; simpl.
  - unfold DigitalClock.updateDigit. simpl. rewrite E. reflexivity.
  - unfold DigitalClock.updateDigit. simpl. rewrite E. reflexivity.
Qed.

(** ** The analog clock *)

(** C10. The memoized computation of the analog clock never throws,
    and whenever its [try] block throws, as it does for a time zone the
    platform does not know, all three delays and all three starting
    rotations are 0. *)
Theorem initialHands_total {number : Type} (N : AnalogClock.NumberOps number)
    (P : Platform) (now : Date) (locale timezone : option string) :
  returns (AnalogClock.initialHands N P now locale timezone) /\
  ((exists e, AnalogClock.computeHands N P now locale timezone = Throw e) ->
   AnalogClock.initialHands N P now locale timezone = Normal (AnalogClock.zeroHands N)) /\
  (zoneOffset P (default "user-settings" timezone) = None ->
   AnalogClock.initialHands N P now locale timezone = Normal (AnalogClock.zeroHands N)).
Proof.
  split; [apply try_catch_returns|]. split.
  - intros [e He]. unfold AnalogClock.initialHands. rewrite He. reflexivity.
  - intros Hzone. unfold AnalogClock.initialHands, AnalogClock.computeHands.
    destruct (getLocale_returns P locale) as [loc Hloc]. rewrite Hloc. simpl.
    unfold newDateTimeFormat. simpl. rewrite Hzone.
    destruct (locale_ok P loc); reflexivity.
Qed.

Lemma initialHands_total_witness :
  AnalogClock.initialHands exactNumbers refPlatform (mkDate 1762160707250)
    (Some "en-US") (Some "Mars/Olympus") =
  Normal (AnalogClock.mkHands (Some 0%Q) (Some 0%Q) (Some 0%Q) (Some 0%Q) (Some 0%Q) (Some 0%Q)).
Proof.
  exact (proj2 (proj2 (initialHands_total exactNumbers refPlatform (mkDate 1762160707250)
                         (Some "en-US") (Some "Mars/Olympus"))) eq_refl).
Defined.

(** ** The sequence of the date text *)

Lemma forEach_from (s : string) (l : list DateText.DatePartKey) :
  forall (n len : nat) (acc : list DateText.SeqToken),
    len = (n + length l)%nat ->
    fold_left (DateText.pushPart s (Z.of_nat len))
      (imap (fun i x => (Z.of_nat (n + i), x)) l) acc =
    acc ++ intersperse (DateText.sep s) (DateText.part <$> l).
Proof.
  induction l as [|x l IH]; intros n len acc Hlen.
  - simpl. rewrite app_nil_r. reflexivity.
  - rewrite imap_cons. cbn [fold_left].
    rewrite (imap_ext _ (fun i y => (Z.of_nat (S n + i), y))).
    2:{ intros i y _. simpl. f_equal. lia. }
    rewrite (IH (S n) len) by (simpl in Hlen; lia).
    unfold DateText.pushPart. rewrite Nat.add_0_r.
    destruct l as [|y l'].
    + simpl in *. replace (Z.of_nat n <? Z.of_nat len - 1) with false
        by (symmetry; apply Z.ltb_ge; lia).
      rewrite app_nil_r. reflexivity.
    + simpl in Hlen. replace (Z.of_nat n <? Z.of_nat len - 1) with true
        by (symmetry; apply Z.ltb_lt; lia).
      cbn [fmap list_fmap intersperse]. rewrite <- !app_assoc. reflexivity.
Qed.

Lemma forEach_intersperse (s : string) (l : list DateText.DatePartKey) :
  fold_left (DateText.pushPart s (Z.of_nat (length l))) (DateText.indexed l) [] =
  intersperse (DateText.sep s) (DateText.part <$> l).
Proof. unfold DateText.indexed. apply (forEach_from s l 0 (length l) []). reflexivity. Qed.

Lemma intersperse_short {A} (s : A) (l : list A) :
  (length l <= 1)%nat -> intersperse s l = l.
Proof. destruct l as [|x [|y l]]; simpl; intros H; try reflexivity; lia. Qed.

Lemma intersperse_length {A} (s : A) (l : list A) :
  length (intersperse s l) = (2 * length l - 1)%nat.
Proof.
  induction l as [|x [|y l] IH]; try reflexivity.
  change (intersperse s (x :: y :: l)) with (x :: s :: intersperse s (y :: l)).
  simpl length in *. lia.
Qed.

Lemma buildSequence_custom (f : DateText.Format) :
  DateText.is_custom f = true ->
  DateText.buildSequence f =
  Normal (intersperse (DateText.sep (chosenSeparator f)) (DateText.part <$> enabledParts f)).
Proof.
  intros Hc. unfold DateText.buildSequence. rewrite Hc. cbn [negb]. cbv zeta.
  assert (Hsep : DateText.sepMap (default DateText.space (DateText.separatorStyle f)) =
                 chosenSeparator f).
  { unfold chosenSeparator. destruct (DateText.separatorStyle f) as [[]|]; reflexivity. }
  rewrite Hsep.
  assert (Horder :
    (let order : list DateText.DatePartKey := [] in
     let order := if truthy_bool (DateText.weekday f)
                  then order ++ [DateText.k_weekday] else order in
     let order := if truthy_bool (DateText.month f)
                  then order ++ [DateText.k_month] else order in
     let order := if truthy_bool (DateText.day f)
                  then order ++ [DateText.k_day] else order in
     if truthy_bool (DateText.year f) then order ++ [DateText.k_year] else order) =
    enabledParts f).
  { unfold enabledParts. simpl.
    destruct (truthy_bool (DateText.weekday f)), (truthy_bool (DateText.month f)),
      (truthy_bool (DateText.day f)), (truthy_bool (DateText.year f)); reflexivity. }
  cbv zeta in Horder. rewrite !Horder.
  destruct (Z.of_nat (length (enabledParts f)) <=? 1) eqn:Hlen.
  - rewrite intersperse_short; [reflexivity|].
    rewrite length_fmap. apply Z.leb_le in Hlen. lia.
  - f_equal. apply forEach_intersperse.
Qed.

Lemma lookup_preset_In (table : list (string * DateText.PresetDef)) (key : string)
    (def : DateText.PresetDef) :
  DateText.lookup_preset table key = Some def -> In (key, def) table.
Proof.
  induction table as [|[k d] rest IH]; simpl; [discriminate|].
  destruct (String.eqb k key) eqn:E.
  - intros [= ->]. apply String.eqb_eq in E. subst. left. reflexivity.
  - intros H. right. apply IH, H.
Qed.

(** C7. [buildSequence] returns a sequence of part tokens (year,
    month, day, weekday) and separator strings: the order of the preset
    for a named preset, and for a custom format the enabled parts with
    the chosen separator once between adjacent parts and at neither
    end, so with no separator when at most one part is enabled. *)
Theorem buildSequence_tokens (f : DateText.Format) :
  (DateText.is_custom f = true ->
   DateText.buildSequence f =
   Normal (intersperse (DateText.sep (chosenSeparator f)) (DateText.part <$> enabledParts f)) /\
   ((length (enabledParts f) <= 1)%nat ->
    DateText.buildSequence f = Normal (DateText.part <$> enabledParts f))) /\
  (forall def,
     DateText.is_custom f = false ->
     DateText.lookup_preset DateText.PRESETS (DateText.preset f) = Some def ->
     DateText.buildSequence f = Normal (DateText.order def)) /\
  (forall seq,
     DateText.buildSequence f = Normal seq ->
     Forall (fun token =>
               (exists k, token = DateText.part k /\
                          k ∈ [DateText.k_year; DateText.k_month; DateText.k_day;
                               DateText.k_weekday]) \/
               (exists separator, token = DateText.sep separator)) seq).
Proof.
  split; [|split].
  - intros Hc. split; [apply buildSequence_custom, Hc|].
    intros Hlen. rewrite buildSequence_custom by exact Hc.
    rewrite intersperse_short; [reflexivity|]. rewrite length_fmap. exact Hlen.
  - intros def Hc Hdef. unfold DateText.buildSequence, DateText.preset_def.
    rewrite Hc, Hdef. reflexivity.
  - intros seq _. apply Forall_forall. intros [k|separator] _.
    + left. exists k. split; [reflexivity|]. destruct k; set_solver.
    + right. exists separator. reflexivity.
Qed.

Lemma buildSequence_tokens_witness :
  DateText.buildSequence
    (DateText.mkFormat "custom" (Some true) None (Some true) None (Some true) None
       (Some false) None (Some DateText.dash)) =
  Normal [DateText.part DateText.k_month; DateText.sep "-"; DateText.part DateText.k_day;
          DateText.sep "-"; DateText.part DateText.k_year] /\
  DateText.buildSequence (DateText.preset_only "full_long") =
  Normal [DateText.part DateText.k_weekday; DateText.sep ", "; DateText.part DateText.k_month;
          DateText.part DateText.k_day; DateText.sep ", "; DateText.part DateText.k_year].
Proof.
  split.
  - exact (proj1 (proj1 (buildSequence_tokens
      (DateText.mkFormat "custom" (Some true) None (Some true) None (Some true) None
         (Some false) None (Some DateText.dash))) eq_refl)).
  - exact (proj1 (proj2 (buildSequence_tokens (DateText.preset_only "full_long")))
             _ eq_refl eq_refl).
Defined.

(** ** Two-digit padding *)

Lemma pad2_single (c : ascii) :
  DigitalClock.pad2 (String c EmptyString) = String "0" (String c EmptyString).
Proof. reflexivity. Qed.

Lemma pad2_other (v : string) :
  String.length v <> 1%nat -> DigitalClock.pad2 v = v.
Proof.
  intros H. unfold DigitalClock.pad2.
  destruct (Z.of_nat (String.length v) =? 1) eqn:E; [|reflexivity].
  apply Z.eqb_eq in E. lia.
Qed.

Lemma tickDigits_padded (P : Platform) (current : Date) (show : DigitalClock.Show)
    (parts : gmap string string) (k : DigitalClock.UnitKey) (c : ascii) :
  twoDigitUnit show k ->
  parts !! DigitalClock.unit_name k = Some (String c EmptyString) ->
  DigitalClock.tickDigits P current show parts k = ["0"; String c EmptyString].
Proof.
  intros Hk Hparts. unfold DigitalClock.tickDigits. rewrite Hparts.
  destruct Hk as [(Ek & Hm & Hf)|[(Ek & Hd & Hf)|[Ek|[Ek|Ek]]]]; subst k; cbn.
  - rewrite Hm. destruct Hf as [Hf|Hf]; rewrite Hf; reflexivity.
  - rewrite Hd, Hf. cbn.
    destruct (DigitalClock.month show && DigitalClock.is_2digit_or_undefined
                (DigitalClock.monthFormat show)); reflexivity.
  - reflexivity.
  - reflexivity.
  - reflexivity.
Qed.

Lemma buildInitialSections_tickDigits (P : Platform) (now : Date)
    (enabled : list DigitalClock.UnitKey) (show : DigitalClock.Show) (fmt : DateTimeFormat) :
  DigitalClock.buildInitialSections P now enabled show fmt =
  (fun k => (k, DigitalClock.tickDigits P now show (DigitalClock.extractParts now fmt) k))
    <$> enabled.
Proof. reflexivity. Qed.

Lemma indexed_snoc {A} (l : list A) (x : A) :
  DateText.indexed (l ++ [x]) = DateText.indexed l ++ [(Z.of_nat (length l), x)].
Proof.
  unfold DateText.indexed. rewrite imap_app. simpl. rewrite Nat.add_0_r. reflexivity.
Qed.

(** *** What [applyTick] hands to the updaters *)

Lemma recording_lookup (n : DigitalClock.UnitKey -> nat) (k : DigitalClock.UnitKey) :
  Rendering.recording n !! DigitalClock.unit_name k =
  Some (Rendering.recorder k <$> seq 0 (n k)).
Proof. destruct k; reflexivity. Qed.

Lemma recorders_lookup (k : DigitalClock.UnitKey) (m i : nat) :
  (Rendering.recorder k <$> seq 0 m) !! i =
  if decide (i < m)%nat then Some (Rendering.recorder k i) else None.
Proof.
  rewrite list_lookup_fmap. destruct (decide (i < m)%nat) as [Hlt|Hge].
  - rewrite lookup_seq_lt by exact Hlt. reflexivity.
  - rewrite lookup_seq_ge by lia. reflexivity.
Qed.

Lemma recorded_digits (k : DigitalClock.UnitKey) (m : nat)
    (opts : option DigitalClock.UpdateOpts) (digits : list string)
    (log : list Rendering.Call) :
  fold_left
    (fun (page : list Rendering.Call) (id : Z * string) =>
       let '(idx, d) := id in
       match (Rendering.recorder k <$> seq 0 m) !! Z.to_nat idx with
       | None => page
       | Some updater => updater (DigitalClock.d_string d) opts page
       end)
    (DateText.indexed digits) log =
  log ++ imap (fun i d => Rendering.mkCall k i (DigitalClock.d_string d) opts)
           (take m digits).
Proof.
  induction digits as [|d digits IH] using rev_ind.
  - rewrite take_nil. simpl. rewrite app_nil_r. reflexivity.
  - rewrite indexed_snoc, fold_left_app, IH. cbn [fold_left].
    rewrite Nat2Z.id, recorders_lookup.
    destruct (decide (length digits < m)%nat) as [Hlt|Hge].
    + rewrite take_app_ge by lia. rewrite (take_ge digits) by lia.
      destruct (m - length digits)%nat as [|j] eqn:E; [lia|]. cbn [take].
      rewrite take_nil, imap_app. cbn [imap]. rewrite Nat.add_0_r.
      unfold Rendering.recorder. rewrite <- app_assoc. reflexivity.
    + rewrite take_app_le by lia. reflexivity.
Qed.

Lemma recorded_tick (P : Platform) (clock : Date) (enabled : list DigitalClock.UnitKey)
    (show : DigitalClock.Show) (n : DigitalClock.UnitKey -> nat) (firstRun : bool)
    (fmt : DateTimeFormat) (log : list Rendering.Call) :
  fst (Rendering.applyTick P clock enabled show
         (Rendering.mkRefs (Rendering.recording n) firstRun) fmt log) =
  log ++
  (enabled ≫= fun k =>
     imap (fun i d => Rendering.mkCall k i (DigitalClock.d_string d) (tickOpts firstRun))
       (take (n k)
          (DigitalClock.tickDigits P clock show (DigitalClock.extractParts clock fmt) k))).
Proof.
  unfold Rendering.applyTick. cbn [fst Rendering.firstRunRef Rendering.digitUpdatersRef].
  replace (default clock (if firstRun then None else Some clock)) with clock
    by (destruct firstRun; reflexivity).
  fold (tickOpts firstRun).
  revert log. induction enabled as [|k enabled IH]; intros log.
  - simpl. rewrite app_nil_r. reflexivity.
  - cbn [fold_left]. rewrite recording_lookup, recorded_digits, IH.
    rewrite <- app_assoc. reflexivity.
Qed.

Lemma recorded_calls (P : Platform) (clock : Date) (enabled : list DigitalClock.UnitKey)
    (show : DigitalClock.Show) (n : DigitalClock.UnitKey -> nat) (firstRun : bool)
    (fmt : DateTimeFormat) (k : DigitalClock.UnitKey) (call : Rendering.Call) :
  call ∈ fst (Rendering.applyTick P clock enabled show
                (Rendering.mkRefs (Rendering.recording n) firstRun) fmt []) /\
  Rendering.call_unit call = k <->
  k ∈ enabled /\
  exists i d,
    (i < n k)%nat /\
    DigitalClock.tickDigits P clock show (DigitalClock.extractParts clock fmt) k !! i = Some d /\
    call = Rendering.mkCall k i (DigitalClock.d_string d) (tickOpts firstRun).
Proof.
  rewrite recorded_tick, app_nil_l, list_elem_of_bind. split.
  - intros [(k' & Hcall & Hk') Hunit].
    apply elem_of_lookup_imap in Hcall as (i & d & -> & Hd). simpl in Hunit. subst k'.
    apply lookup_take_Some in Hd as [Hd Hi].
    split; [exact Hk'|]. exists i, d. auto.
  - intros (Hk & i & d & Hi & Hd & ->). split; [|reflexivity].
    exists k. split; [|exact Hk].
    apply elem_of_lookup_imap. exists i, d. split; [reflexivity|].
    apply lookup_take_Some. auto.
Qed.

Lemma tickDigits_day_as_formatted (P : Platform) (current : Date) (show : DigitalClock.Show)
    (parts : gmap string string) :
  DigitalClock.day show = false \/ DigitalClock.dayFormat show <> Some DigitalClock.uf_2digit ->
  DigitalClock.tickDigits P current show parts DigitalClock.u_day =
  split_chars (or_string (parts !! "day") "").
Proof.
  intros Hday. unfold DigitalClock.tickDigits. cbn.
  replace (DigitalClock.day show && DigitalClock.is_2digit (DigitalClock.dayFormat show))
    with false; [reflexivity|].
  destruct Hday as [->|Hf]; [reflexivity|].
  destruct (DigitalClock.dayFormat show) as [[]|]; try congruence;
    rewrite andb_false_r; reflexivity.
Qed.

(** C3, as amended. In [buildInitialSections] and in [applyTick], a
    one-character month string under the "2-digit" month format or
    under no month format, a one-character day string under the
    "2-digit" day format, and every one-character hour, minute or
    second string becomes the two characters "0" and that character:
    [buildInitialSections] renders the two as the digits of the unit
    and [applyTick] hands them to the first two updaters of the unit,
    and calls no other updater of it.  A day string under any other
    day format, in particular under none, is left as formatted: its
    characters are rendered, and handed to the updaters, as they are. *)
Theorem two_digit_units_padded (P : Platform) (now : Date)
    (enabled : list DigitalClock.UnitKey) (show : DigitalClock.Show) (fmt : DateTimeFormat) :
  let parts := DigitalClock.extractParts now fmt in
  let calls n firstRun :=
    fst (Rendering.applyTick P now enabled show
           (Rendering.mkRefs (Rendering.recording n) firstRun) fmt []) in
  (forall k c,
     twoDigitUnit show k ->
     k ∈ enabled ->
     parts !! DigitalClock.unit_name k = Some (String c EmptyString) ->
     DigitalClock.pad2 (String c EmptyString) = String "0" (String c EmptyString) /\
     (k, ["0"; String c EmptyString]) ∈
       DigitalClock.buildInitialSections P now enabled show fmt /\
     DigitalClock.tickDigits P now show parts k = ["0"; String c EmptyString] /\
     forall n firstRun call,
       (2 <= n k)%nat ->
       (call ∈ calls n firstRun /\ Rendering.call_unit call = k <->
        call = Rendering.mkCall k 0 (DigitalClock.d_string "0") (tickOpts firstRun) \/
        call = Rendering.mkCall k 1 (DigitalClock.d_string (String c EmptyString))
                 (tickOpts firstRun))) /\
  (DigitalClock.u_day ∈ enabled ->
   DigitalClock.day show = false \/
   DigitalClock.dayFormat show <> Some DigitalClock.uf_2digit ->
   let val := or_string (parts !! "day") "" in
   (DigitalClock.u_day, split_chars val) ∈
     DigitalClock.buildInitialSections P now enabled show fmt /\
   forall n firstRun call,
     call ∈ calls n firstRun /\ Rendering.call_unit call = DigitalClock.u_day <->
     exists i d,
       (i < n DigitalClock.u_day)%nat /\ split_chars val !! i = Some d /\
       call = Rendering.mkCall DigitalClock.u_day i (DigitalClock.d_string d)
                (tickOpts firstRun)).
Proof.
  intros parts calls.
  assert (Hsection : forall k, k ∈ enabled ->
            (k, DigitalClock.tickDigits P now show parts k) ∈
              DigitalClock.buildInitialSections P now enabled show fmt).
  { intros k Hin. rewrite buildInitialSections_tickDigits.
    apply (list_elem_of_fmap_2
             (fun k => (k, DigitalClock.tickDigits P now show
                             (DigitalClock.extractParts now fmt) k))).
    exact Hin. }
  split.
  - intros k c Hk Hin Hparts. split; [apply pad2_single|].
    pose proof (tickDigits_padded P now show _ k c Hk Hparts) as Hd.
    split; [rewrite <- Hd; apply Hsection, Hin|]. split; [exact Hd|].
    intros n firstRun call Hn. unfold calls. rewrite recorded_calls. fold parts. rewrite Hd.
    split.
    + intros (_ & i & d & Hi & Hlook & ->).
      destruct i as [|[|i]]; simpl in Hlook; [left|right|discriminate];
        injection Hlook as <-; reflexivity.
    + intros [->| ->]; (split; [exact Hin|]).
      * exists 0%nat, "0". split; [lia|]. split; reflexivity.
      * exists 1%nat, (String c EmptyString). split; [lia|]. split; reflexivity.
  - intros Hin Hday val.
    pose proof (tickDigits_day_as_formatted P now show parts Hday) as Hd. fold val in Hd.
    split; [rewrite <- Hd; apply Hsection, Hin|].
    intros n firstRun call. unfold calls. rewrite recorded_calls. fold parts. rewrite Hd.
    split; [intros [_ H]; exact H | intros H; split; [exact Hin | exact H]].
Qed.

Lemma two_digit_units_padded_witness :
  let now := mkDate 1762160707250 in
  let minutes := DigitalClock.mkShow DigitalClock.hf24 false None false None false None
                   false true false false None None in
  let five := Intl.mkFormat (fun _ => [mkPart p_minute "5"]) in
  let days := DigitalClock.mkShow DigitalClock.hf24 false None false None true None
                false false false false None None in
  let third := Intl.mkFormat (fun _ => [mkPart p_day "3"]) in
  ((DigitalClock.u_minute, ["0"; "5"]) ∈
     DigitalClock.buildInitialSections refPlatform now (DigitalClock.enabledUnits minutes)
       minutes five /\
   Rendering.mkCall DigitalClock.u_minute 1 (DigitalClock.d_string "5") (tickOpts true) ∈
     fst (Rendering.applyTick refPlatform now (DigitalClock.enabledUnits minutes) minutes
            (Rendering.mkRefs (Rendering.recording (fun _ => 2%nat)) true) five [])) /\
  (DigitalClock.u_day, ["3"]) ∈
    DigitalClock.buildInitialSections refPlatform now (DigitalClock.enabledUnits days)
      days third /\
  Rendering.mkCall DigitalClock.u_day 0 (DigitalClock.d_string "3") (tickOpts false) ∈
    fst (Rendering.applyTick refPlatform now (DigitalClock.enabledUnits days) days
           (Rendering.mkRefs (Rendering.recording (fun _ => 2%nat)) false) third []).
Proof.
  intros now minutes five days third. split.
  - destruct (proj1 (two_digit_units_padded refPlatform now
                       (DigitalClock.enabledUnits minutes) minutes five)
                DigitalClock.u_minute "5"%char) as (_ & Hsection & _ & Hcalls).
    + right. right. right. left. reflexivity.
    + vm_compute. apply list_elem_of_here.
    + reflexivity.
    + split; [exact Hsection|].
      refine (proj1 (proj2 (Hcalls (fun _ => 2%nat) true _ _) _)); [simpl; lia|].
      right. reflexivity.
  - destruct (proj2 (two_digit_units_padded refPlatform now
                       (DigitalClock.enabledUnits days) days third))
      as (Hsection & Hcalls).
    + vm_compute. apply list_elem_of_here.
    + right. discriminate.
    + split; [exact Hsection|].
      refine (proj1 (proj2 (Hcalls (fun _ => 2%nat) false _) _)).
      exists 0%nat, "3". split; [simpl; lia|]. split; reflexivity.
Defined.

(** A day whose format is left undefined is not padded: alone on the
    clock it is formatted with the numeric default and shown as it is. *)
Lemma day_default_format_not_padded :
  let show := DigitalClock.mkShow DigitalClock.hf12 false None false None true None
                false false false false None None in
  let now := mkDate 1762160707250 in
  exists fmt,
    DigitalClock.buildDateFormatter refPlatform (Some "en-US") (Some "UTC") show = Normal fmt /\
    DigitalClock.dayFormat show = None /\
    DigitalClock.extractParts now fmt !! "day" = Some "3" /\
    DigitalClock.buildInitialSections refPlatform now (DigitalClock.enabledUnits show) show fmt =
      [(DigitalClock.u_day, ["3"])] /\
    DigitalClock.tickDigits refPlatform now show (DigitalClock.extractParts now fmt)
      DigitalClock.u_day = ["3"].
Proof.
  intros show now. eexists. split; [reflexivity|].
  split; [reflexivity|]. split; [vm_compute; reflexivity|].
  split; vm_compute; reflexivity.
Qed.

Example applyTick_first_run_pads :
  let show := DigitalClock.mkShow DigitalClock.hf24 false None false None false None
                false true false false None None in
  let fmt := Intl.mkFormat (fun _ => [mkPart p_minute "5"]) in
  let refs :=
    DigitalClock.mkRefs
      {[ "minute" := [DigitalClock.span_cell (DigitalClock.mkSpan "4");
                      DigitalClock.span_cell (DigitalClock.mkSpan "9")] ]} true in
  let refs' := DigitalClock.applyTick refPlatform (mkDate 1762160707250)
                 (DigitalClock.enabledUnits show) show refs fmt in
  DigitalClock.digitUpdatersRef refs' !! "minute" =
    Some [DigitalClock.span_cell (DigitalClock.mkSpan "0");
          DigitalClock.span_cell (DigitalClock.mkSpan "5")] /\
  DigitalClock.firstRunRef refs' = false.
Proof. vm_compute. split; reflexivity. Qed.

(** ** The composer of the date text *)

Lemma presets_without_timeZone :
  Forall (fun kd => timeZone (DateText.options (snd kd)) = None) DateText.PRESETS.
Proof. repeat constructor. Qed.

Lemma preset_timeZone (key : string) (def : DateText.PresetDef) (timezone : option string) :
  DateText.lookup_preset DateText.PRESETS key = Some def ->
  timeZone (spread (timeZone_only timezone) (DateText.options def)) = timezone.
Proof.
  intros H. apply lookup_preset_In, list_elem_of_In in H.
  pose proof (proj1 (Forall_forall _ _) presets_without_timeZone _ H) as Hz.
  simpl in Hz. simpl. rewrite Hz. reflexivity.
Qed.

Lemma newDateTimeFormat_valid (P : Platform) (locale : option string)
    (o : DateTimeFormatOptions) :
  locale_ok P locale = true -> is_Some (resolveZone P (timeZone o)) ->
  returns (newDateTimeFormat P locale o).
Proof.
  intros Hl [off Hoff]. unfold newDateTimeFormat. rewrite Hl, Hoff.
  eexists. reflexivity.
Qed.

Lemma buildFormatter_valid (P : Platform) (locale timezone : option string)
    (f : DateText.Format) :
  validConfiguration P locale timezone f ->
  returns (DateText.buildFormatter P locale timezone f).
Proof.
  intros ([def Hdef] & Hl & Hz). unfold DateText.buildFormatter.
  destruct (DateText.is_custom f); cbn [negb].
  - apply newDateTimeFormat_valid; [exact Hl | exact Hz].
  - unfold DateText.preset_def. rewrite Hdef. cbn.
    apply newDateTimeFormat_valid; [exact Hl|].
    rewrite (preset_timeZone _ _ _ Hdef). exact Hz.
Qed.

Lemma ordinalDay_valid (f : DateText.Format) :
  is_Some (DateText.lookup_preset DateText.PRESETS (DateText.preset f)) ->
  returns (DateText.ordinalDay f).
Proof.
  intros [def Hdef]. unfold DateText.ordinalDay, DateText.preset_def. rewrite Hdef.
  destruct (DateText.is_custom f); cbn;
    repeat match goal with |- context [if ?b then _ else _] => destruct b end;
    eexists; reflexivity.
Qed.

Lemma buildSequence_valid (f : DateText.Format) :
  is_Some (DateText.lookup_preset DateText.PRESETS (DateText.preset f)) ->
  returns (DateText.buildSequence f).
Proof.
  intros [def Hdef]. destruct (DateText.is_custom f) eqn:Hc.
  - rewrite buildSequence_custom by exact Hc. eexists. reflexivity.
  - unfold DateText.buildSequence, DateText.preset_def. rewrite Hc, Hdef.
    eexists. reflexivity.
Qed.

Lemma composePreview_valid (P : Platform) (date : Date) (locale timezone : option string)
    (f : DateText.Format) :
  validConfiguration P locale timezone f ->
  returns (DateText.composePreview P date locale timezone f).
Proof.
  intros Hv. unfold DateText.composePreview.
  destruct (buildFormatter_valid P locale timezone f Hv) as [fmt ->].
  destruct (ordinalDay_valid f (proj1 Hv)) as [ordinal ->].
  destruct (buildSequence_valid f (proj1 Hv)) as [seq ->].
  eexists. reflexivity.
Qed.

Lemma preset_key_lookup (key : string) :
  key ∈ fst <$> DateText.PRESETS ->
  is_Some (DateText.lookup_preset DateText.PRESETS key).
Proof.
  generalize DateText.PRESETS. intros table. induction table as [|[k d] rest IH].
  - intros H. inversion H.
  - intros H. simpl. destruct (String.eqb k key) eqn:E; [eexists; reflexivity|].
    apply IH. simpl in H. apply elem_of_cons in H as [H|H]; [|exact H].
    subst. rewrite String.eqb_refl in E. discriminate.
Qed.

Lemma newDateTimeFormat_withLocalTZA (P : Platform) (tza : Z -> Z) (locale : option string)
    (o : DateTimeFormatOptions) :
  is_Some (timeZone o) ->
  newDateTimeFormat (withLocalTZA tza P) locale o = newDateTimeFormat P locale o.
Proof.
  intros [tz Htz]. unfold newDateTimeFormat, resolveZone, locale_ok. rewrite Htz.
  reflexivity.
Qed.

Lemma buildFormatter_withLocalTZA (P : Platform) (tza : Z -> Z) (locale : option string)
    (tz : string) (f : DateText.Format) :
  DateText.buildFormatter (withLocalTZA tza P) locale (Some tz) f =
  DateText.buildFormatter P locale (Some tz) f.
Proof.
  unfold DateText.buildFormatter. destruct (DateText.is_custom f); cbn [negb].
  - apply newDateTimeFormat_withLocalTZA. eexists. reflexivity.
  - unfold DateText.preset_def.
    destruct (DateText.lookup_preset DateText.PRESETS (DateText.preset f)) as [def|] eqn:Hdef;
      [|reflexivity].
    cbn. apply newDateTimeFormat_withLocalTZA.
    rewrite (preset_timeZone _ _ _ Hdef). eexists. reflexivity.
Qed.

(** C4. [composePreview] returns a string for every valid
    configuration, and for a format whose day is not ordinal and a
    given time zone its result is the same on every runtime, whatever
    the runtime's own time zone.  With an ordinal day it is not a
    function of the instant, the locale, the time zone and the format:
    the same four arguments give "November 31st" on a runtime in UTC
    and "November 1st" on a runtime in Tokyo, because the day is read
    through the runtime's own zone. *)
Theorem composePreview_reads_runtime_zone :
  (forall P date locale timezone f,
     validConfiguration P locale timezone f ->
     exists out, DateText.composePreview P date locale timezone f = Normal out) /\
  (forall P tza date locale tz f,
     DateText.ordinalDay f <> Normal true ->
     DateText.composePreview (withLocalTZA tza P) date locale (Some tz) f =
     DateText.composePreview P date locale (Some tz) f) /\
  (let date := mkDate 1761953400000 in
   let ordinal := DateText.preset_only "month_day_ordinal" in
   let utc := withLocalTZA (fun _ => 0) refPlatform in
   let tokyo := withLocalTZA (fun _ => 9 * msPerHour) refPlatform in
   validConfiguration utc (Some "en-US") (Some "Asia/Tokyo") ordinal /\
   validConfiguration tokyo (Some "en-US") (Some "Asia/Tokyo") ordinal /\
   DateText.composePreview utc date (Some "en-US") (Some "Asia/Tokyo") ordinal =
     Normal "November 31st" /\
   DateText.composePreview tokyo date (Some "en-US") (Some "Asia/Tokyo") ordinal =
     Normal "November 1st").
Proof.
  split; [|split].
  - intros P date locale timezone f Hv. apply composePreview_valid, Hv.
  - intros P tza date locale tz f Hord. unfold DateText.composePreview.
    rewrite buildFormatter_withLocalTZA.
    destruct (DateText.buildFormatter P locale (Some tz) f) as [fmt|e]; [|reflexivity].
    cbn. destruct (DateText.ordinalDay f) as [[|]|e]; [congruence | reflexivity | reflexivity].
  - cbv zeta. split; [|split; [|split]].
    + split; [eexists; reflexivity|]. split; [reflexivity | eexists; reflexivity].
    + split; [eexists; reflexivity|]. split; [reflexivity | eexists; reflexivity].
    + vm_compute. reflexivity.
    + vm_compute. reflexivity.
Qed.

Lemma composePreview_reads_runtime_zone_witness :
  (exists out,
     DateText.composePreview refPlatform (mkDate 1762160707000) (Some "en-US") (Some "UTC")
       (DateText.preset_only "full_long") = Normal out) /\
  DateText.composePreview (withLocalTZA (fun _ => 9 * msPerHour) refPlatform)
    (mkDate 1761953400000) (Some "en-US") (Some "Asia/Tokyo")
    (DateText.preset_only "month_day_year") =
  DateText.composePreview refPlatform (mkDate 1761953400000) (Some "en-US")
    (Some "Asia/Tokyo") (DateText.preset_only "month_day_year").
Proof.
  split.
  - apply (proj1 composePreview_reads_runtime_zone).
    split; [eexists; reflexivity|]. split; [reflexivity | eexists; reflexivity].
  - apply (proj1 (proj2 composePreview_reads_runtime_zone)). vm_compute. discriminate.
Defined.

(** ** The locale helper and what else can throw *)

Lemma getLocale_result (P : Platform) (inputLocale loc : option string) :
  getLocale P inputLocale = Normal loc ->
  loc = None \/
  exists canon, getCanonicalLocales P [languageTag P inputLocale] = Normal canon /\
                loc = head canon.
Proof.
  unfold getLocale. cbv zeta.
  destruct (getCanonicalLocales P [languageTag P inputLocale]) as [canon|e]; cbn.
  - intros [= <-]. right. exists canon. split; reflexivity.
  - intros [= <-]. left. reflexivity.
Qed.

Lemma newDateTimeFormat_unknown_zone (P : Platform) (locale : option string)
    (o : DateTimeFormatOptions) (tz : string) :
  timeZone o = Some tz -> zoneOffset P tz = None ->
  newDateTimeFormat P locale o = Throw RangeError.
Proof.
  intros Htz Hzone. unfold newDateTimeFormat, resolveZone. rewrite Htz, Hzone.
  destruct (locale_ok P locale); reflexivity.
Qed.

Lemma buildFormatter_unknown_zone (P : Platform) (locale : option string) (tz : string)
    (f : DateText.Format) :
  zoneOffset P tz = None ->
  exists e, DateText.buildFormatter P locale (Some tz) f = Throw e.
Proof.
  intros Hzone. unfold DateText.buildFormatter. destruct (DateText.is_custom f); cbn [negb].
  - exists RangeError. apply (newDateTimeFormat_unknown_zone _ _ _ tz); [reflexivity | exact Hzone].
  - unfold DateText.preset_def.
    destruct (DateText.lookup_preset DateText.PRESETS (DateText.preset f)) as [def|] eqn:Hdef.
    + exists RangeError. cbn.
      apply (newDateTimeFormat_unknown_zone _ _ _ tz); [|exact Hzone].
      apply (preset_timeZone _ _ _ Hdef).
    + exists TypeError. reflexivity.
Qed.

Lemma buildDateFormatter_returns (P : Platform) (locale timezone : option string)
    (show : DigitalClock.Show) :
  locale_ok P locale = true -> is_Some (resolveZone P timezone) ->
  returns (DigitalClock.buildDateFormatter P locale timezone show).
Proof.
  intros Hl Hz. unfold DigitalClock.buildDateFormatter. cbv zeta.
  apply newDateTimeFormat_valid; [exact Hl | exact Hz].
Qed.

Lemma getLocale_accepted (P : Platform) (inputLocale loc : option string) :
  (forall l canon, getCanonicalLocales P [l] = Normal canon ->
                   locale_ok P (head canon) = true) ->
  getLocale P inputLocale = Normal loc -> locale_ok P loc = true.
Proof.
  intros Hcanon Hloc.
  destruct (getLocale_result P inputLocale loc Hloc) as [->|(canon & Hc & ->)];
    [reflexivity | exact (Hcanon _ _ Hc)].
Qed.

(** C5, as amended. [getLocale] never throws, whatever string (or
    undefined) it is given: it returns the first canonical tag when
    canonicalization of the chosen language tag succeeds, and
    undefined, which the formatter constructor always accepts and
    reads as the platform's default locale, when canonicalization
    throws.  With the locale [getLocale] returns, a preset of the table
    and a time zone the platform knows, building the formatter and
    composing the preview do not throw either (on a platform whose
    formatter accepts the tags its canonicalizer returns).  A time zone
    the platform does not know makes the formatter constructor throw
    in [buildFormatter], [composePreview] and [buildDateFormatter],
    whatever the locale. *)
Theorem getLocale_never_throws (P : Platform) (inputLocale : option string) :
  returns (getLocale P inputLocale) /\
  (forall canon,
     getCanonicalLocales P [languageTag P inputLocale] = Normal canon ->
     getLocale P inputLocale = Normal (head canon)) /\
  (forall e,
     getCanonicalLocales P [languageTag P inputLocale] = Throw e ->
     getLocale P inputLocale = Normal None /\ locale_ok P None = true) /\
  ((forall l canon, getCanonicalLocales P [l] = Normal canon ->
                    locale_ok P (head canon) = true) ->
   forall loc timezone,
     getLocale P inputLocale = Normal loc -> is_Some (resolveZone P timezone) ->
     (forall date f,
        is_Some (DateText.lookup_preset DateText.PRESETS (DateText.preset f)) ->
        returns (DateText.buildFormatter P loc timezone f) /\
        returns (DateText.composePreview P date loc timezone f)) /\
     (forall show, returns (DigitalClock.buildDateFormatter P loc timezone show))) /\
  (forall locale tz,
     zoneOffset P tz = None ->
     (forall date f,
        (exists e, DateText.buildFormatter P locale (Some tz) f = Throw e) /\
        (exists e, DateText.composePreview P date locale (Some tz) f = Throw e)) /\
     (forall show,
        DigitalClock.buildDateFormatter P locale (Some tz) show = Throw RangeError)).
Proof.
  split; [apply getLocale_returns|].
  split; [|split; [|split]].
  - intros x Hx; unfold getLocale; cbv zeta; rewrite Hx; simpl; auto.
  - intros x Hx; unfold getLocale; cbv zeta; rewrite Hx; simpl; auto.
  - intros Hcanon loc timezone Hloc Hz.
    pose proof (getLocale_accepted P inputLocale loc Hcanon Hloc) as Hok.
    split.
    + intros date f Hf.
      assert (Hv : validConfiguration P loc timezone f) by (split; [exact Hf | split; assumption]).
      split; [apply buildFormatter_valid, Hv | apply composePreview_valid, Hv].
    + intros show. apply buildDateFormatter_returns; assumption.
  - intros locale tz Hzone. split.
    + intros date f.
      destruct (buildFormatter_unknown_zone P locale tz f Hzone) as [e He].
      split; [exists e; exact He|].
      exists e. unfold DateText.composePreview. rewrite He. reflexivity.
    + intros show. unfold DigitalClock.buildDateFormatter. cbv zeta.
      apply (newDateTimeFormat_unknown_zone _ _ _ tz); [reflexivity | exact Hzone].
Qed.

Lemma refPlatform_accepts_canonical (l : string) (canon : list string) :
  getCanonicalLocales refPlatform [l] = Normal canon ->
  locale_ok refPlatform (head canon) = true.
Proof.
  intros H.
  change (getCanonicalLocales refPlatform [l]) with (canonicalize [l]) in H.
  cbn [canonicalize] in H.
  destruct (assoc tags l) as [c|] eqn:E; [|discriminate].
  cbn in H. injection H as <-.
  unfold tags in E. cbn [assoc] in E.
  repeat match type of E with
    | context [String.eqb ?k l] => destruct (String.eqb k l)
    end; try discriminate; injection E as <-; reflexivity.
Qed.

Lemma getLocale_never_throws_witness :
  returns (getLocale refPlatform (Some "not a locale")) /\
  getLocale refPlatform (Some "en-us") = Normal (Some "en-US") /\
  getLocale refPlatform (Some "not a locale") = Normal None /\
  returns (DateText.composePreview refPlatform (mkDate 1762160707250) None (Some "UTC")
             (DateText.preset_only "iso")) /\
  DigitalClock.buildDateFormatter refPlatform (Some "en-US") (Some "Mars/Olympus")
    (DigitalClock.mkShow DigitalClock.hf24 false None false None false None
       true true true false None None) = Throw RangeError.
Proof.
  destruct (getLocale_never_throws refPlatform (Some "not a locale"))
    as (Hr & _ & Hthrow & Hvalid & Hzone).
  destruct (getLocale_never_throws refPlatform (Some "en-us")) as (_ & Hok & _).
  split; [exact Hr|]. split; [exact (Hok ["en-US"] eq_refl)|].
  split; [exact (proj1 (Hthrow RangeError eq_refl))|]. split.
  - refine (proj2 (proj1 (Hvalid refPlatform_accepts_canonical None (Some "UTC")
                            (proj1 (Hthrow RangeError eq_refl)) _) _ _ _)).
    + eexists. reflexivity.
    + eexists. reflexivity.
  - exact (proj2 (Hzone (Some "en-US") "Mars/Olympus" eq_refl) _).
Defined.

(** Locale canonicalization is not the only operation that can throw:
    with a locale that canonicalizes, a time zone the platform does not
    know makes the formatter constructor throw, in the date text, in
    its preview and in the digital clock, and none of them catches
    it. *)
Lemma unknown_zone_throws :
  getLocale refPlatform (Some "en-US") = Normal (Some "en-US") /\
  DateText.buildFormatter refPlatform (Some "en-US") (Some "Mars/Olympus")
    (DateText.preset_only "iso") = Throw RangeError /\
  DateText.composePreview refPlatform (mkDate 1762160707250) (Some "en-US")
    (Some "Mars/Olympus") (DateText.preset_only "iso") = Throw RangeError /\
  DigitalClock.buildDateFormatter refPlatform (Some "en-US") (Some "Mars/Olympus")
    (DigitalClock.mkShow DigitalClock.hf24 false None false None false None
       true true true false None None) = Throw RangeError.
Proof. repeat split; vm_compute; reflexivity. Qed.

Example composePreview_presets :
  (fun key =>
     DateText.composePreview refPlatform (mkDate 1762160707000) (Some "en-US") (Some "UTC")
       (DateText.preset_only key)) <$> (fst <$> DateText.PRESETS) =
  Normal <$>
    ["Monday"; "Mon"; "3"; "3rd"; "November"; "Nov"; "November 3rd"; "Monday, November 3rd";
     "November 3 2025"; "November 3rd 2025"; "Mon Nov 3"; "Mon Nov 3 2025"; "03/11/2025";
     "2025/11/03"; "11/03/2025"; "2025-11-03"; "2025.11.03"; "03.11.2025";
     "Monday, November 3, 2025"; "Monday 3rd"; "Monday November 3rd 2025"; "Mon 2025-11-03";
     ""].
Proof. vm_compute. reflexivity. Qed.

(** ** The ordinal day *)

Lemma ordinalDay_true (f : DateText.Format) :
  dayIsOrdinal f -> DateText.ordinalDay f = Normal true.
Proof.
  intros [(Hc & Hd & Hf)|(Hc & def & Hdef & Ho)]; unfold DateText.ordinalDay.
  - rewrite Hc, Hd, Hf. reflexivity.
  - unfold DateText.preset_def. rewrite Hc, Hdef. cbn. rewrite Ho. reflexivity.
Qed.

(** Under an ordinal configuration the day token of the tick is the
    ordinal form of [now.getDate()], the day of the month in the zone of
    the runtime, whatever time zone the formatter was built for. *)
Lemma tick_ordinal_day (P : Platform) (now : Date) (fmt : DateTimeFormat) (f : DateText.Format) :
  dayIsOrdinal f ->
  exists parts,
    DateText.tick P now fmt f = Normal parts /\
    DateText.pv_day parts = Some (DateText.getOrdinalSuffix (DateFromTime (LocalTime P (getTime now)))).
Proof.
  intros Ho. unfold DateText.tick. rewrite (ordinalDay_true f Ho). cbn.
  eexists. split; reflexivity.
Qed.

(** C2. At 23:30 UTC on 31 October 2025, on a runtime whose own zone is
    UTC and with Asia/Tokyo configured, the instant reads 1 November in
    the configured zone; the formatter renders the month of that zone,
    while the ordinal day is taken from the runtime's zone: the composer
    and the tick produce "31st", and the preview reads "November 31st". *)
Theorem ordinal_day_reads_runtime_zone :
  let date := mkDate 1761953400000 in
  let ordinal := DateText.preset_only "month_day_ordinal" in
  let custom :=
    DateText.mkFormat "custom" None None (Some true) (Some DateText.mf_long) (Some true)
      (Some DateText.df_ordinal) None None None in
  dayOfMonthIn refPlatform (Some "Asia/Tokyo") (getTime date) = Some 1 /\
  getDate refPlatform date = 31 /\
  DateText.composePreview refPlatform date (Some "en-US") (Some "Asia/Tokyo")
    (DateText.preset_only "month_day_year") = Normal "November 1 2025" /\
  DateText.composePreview refPlatform date (Some "en-US") (Some "Asia/Tokyo") ordinal =
    Normal "November 31st" /\
  DateText.composePreview refPlatform date (Some "en-US") (Some "Asia/Tokyo") custom =
    Normal "November 31st" /\
  (fmt ← DateText.buildFormatter refPlatform (Some "en-US") (Some "Asia/Tokyo") ordinal;
   DateText.tick refPlatform date fmt ordinal) =
    Normal (DateText.mkParts None (Some "November") (Some "31st") None).
Proof. vm_compute. repeat split; reflexivity. Qed.

Lemma composePreview_day_ordinal (P : Platform) (date : Date) (locale timezone : option string) :
  locale_ok P locale = true -> is_Some (resolveZone P timezone) ->
  DateText.composePreview P date locale timezone (DateText.preset_only "day_ordinal") =
  Normal (DateText.getOrdinalSuffix (getDate P date)).
Proof.
  intros Hl Hz. unfold DateText.composePreview.
  destruct (buildFormatter_valid P locale timezone (DateText.preset_only "day_ordinal"))
    as [fmt ->].
  { split; [eexists; reflexivity | split; assumption]. }
  generalize (DateText.getOrdinalSuffix (getDate P date)). intros ordinal.
  cbn. unfold or_string. cbn. destruct ordinal; reflexivity.
Qed.

(** ** Timers *)

Section Ownership.
Variable who : nat.

Lemma owned_setTimer_own (t : Timer) (w : Window) :
  owner t = who ->
  owned who (snd (setTimer t w)) = <[nextHandle w := t]> (owned who w).
Proof. intros H. unfold owned. simpl. apply map_filter_insert_True. exact H. Qed.

Lemma owned_setTimer_foreign (t : Timer) (w : Window) :
  owner t <> who -> handles_ok w ->
  owned who (snd (setTimer t w)) = owned who w.
Proof.
  intros H [_ Hok]. unfold owned. simpl.
  rewrite map_filter_insert_False by exact H.
  rewrite delete_id; [reflexivity|].
  destruct (active w !! nextHandle w) as [t'|] eqn:E; [|reflexivity].
  apply Hok in E. lia.
Qed.

Lemma owned_clearTimer (h : Z) (w : Window) :
  owned who (clearTimer h w) = delete h (owned who w).
Proof. unfold owned. simpl. apply map_filter_delete. Qed.

Lemma owned_clearTimer_foreign (h : Z) (t : Timer) (w : Window) :
  active w !! h = Some t -> owner t <> who ->
  owned who (clearTimer h w) = owned who w.
Proof.
  intros Hh Ho. rewrite owned_clearTimer. apply delete_id.
  unfold owned. apply map_lookup_filter_None. right. intros t' Ht'.
  simpl. congruence.
Qed.

Lemma owned_lookup (h : Z) (t : Timer) (w : Window) :
  owned who w !! h = Some t <-> active w !! h = Some t /\ owner t = who.
Proof. unfold owned. rewrite map_lookup_filter_Some. reflexivity. Qed.

Lemma owned_initial (w : Window) :
  (forall h t, active w !! h = Some t -> owner t <> who) -> owned who w = ∅.
Proof.
  intros H. apply map_empty. intros h.
  destruct (owned who w !! h) as [t|] eqn:E; [|reflexivity].
  apply owned_lookup in E as [E1 E2]. apply H in E1. contradiction.
Qed.

End Ownership.

Lemma handles_ok_setTimer (t : Timer) (w : Window) :
  handles_ok w -> handles_ok (snd (setTimer t w)).
Proof.
  intros [Hpos Hok]. split; simpl; [lia|].
  intros h t' Hh. destruct (decide (h = nextHandle w)) as [->|Hne].
  - lia.
  - rewrite lookup_insert_ne in Hh by congruence. apply Hok in Hh. lia.
Qed.

Lemma handles_ok_clearTimer (h : Z) (w : Window) :
  handles_ok w -> handles_ok (clearTimer h w).
Proof.
  intros [Hpos Hok]. split; simpl; [exact Hpos|].
  intros h' t Hh. apply lookup_delete_Some in Hh as [_ Hh]. exact (Hok _ _ Hh).
Qed.

Lemma size_at_most_one (m : gmap Z Timer) :
  m = ∅ \/ (exists h t, m = {[h := t]}) -> (size m <= 1)%nat.
Proof.
  intros [->|(h & t & ->)].
  - rewrite map_size_empty. lia.
  - rewrite map_size_singleton. lia.
Qed.

Lemma size_filter_le (p : Z * Timer -> Prop) `{!forall kv, Decision (p kv)} (m : gmap Z Timer) :
  (size (filter p m) <= size m)%nat.
Proof. apply map_subseteq_size, map_filter_subseteq. Qed.

(** *** DateText *)

Lemma dateText_initial (w : Window) (x : DateText.Widget) :
  DateText.initial w x -> dateTextInv (w, x).
Proof.
  intros (Hpos & Hall & Href & Hrun). unfold dateTextInv.
  split; [|split].
  - split; [exact Hpos|]. intros h t Ht. apply (Hall h t Ht).
  - intros h Hh. congruence.
  - rewrite Hrun. apply owned_initial. intros h t Ht. apply (Hall h t Ht).
Qed.

Lemma dateText_clear_stale (w : Window) (x : DateText.Widget) :
  handles_ok w -> owned (DateText.self x) w = ∅ ->
  let w' :=
    match DateText.intervalRef x with
    | Some h => if truthy_handle (Some h) then clearInterval h w else w
    | None => w
    end in
  handles_ok w' /\ owned (DateText.self x) w' = ∅ /\ nextHandle w' = nextHandle w.
Proof.
  intros Hok Hown. destruct (DateText.intervalRef x) as [h|]; simpl; [|auto].
  destruct (negb (h =? 0)); [|auto].
  split; [apply handles_ok_clearTimer, Hok|]. split; [|reflexivity].
  unfold clearInterval. rewrite owned_clearTimer, Hown. apply delete_empty.
Qed.

Lemma dateText_step (s s' : Window * DateText.Widget) :
  DateText.step s s' -> dateTextInv s -> dateTextInv s'.
Proof.
  intros Hstep. destruct Hstep as [w x Hrun|w x Hrun|w x h t Hh Ho Hk|w x t Ho|w x h t Hh Ho];
    unfold dateTextInv; intros (Hok & Href & Hown).
  - (* the effect runs *)
    rewrite Hrun in Hown. unfold DateText.effect.
    destruct (dateText_clear_stale w x Hok Hown) as (Hok' & Hown' & Hnext).
    cbv zeta in Hok', Hown', Hnext.
    set (w1 := match DateText.intervalRef x with
               | Some h => if truthy_handle (Some h) then clearInterval h w else w
               | None => w
               end) in *.
    simpl. split; [|split].
    + apply (handles_ok_setTimer (mkTimer repeating 60000 (DateText.self x) 0) w1 Hok').
    + intros h [= <-]. destruct Hok' as [Hpos _]. lia.
    + exists (nextHandle w1). split; [reflexivity|].
      pose proof (owned_setTimer_own (DateText.self x)
                    (mkTimer repeating 60000 (DateText.self x) 0) w1 eq_refl) as Hset.
      simpl in Hset. rewrite Hset, Hown'. apply insert_empty.
  - (* the cleanup runs *)
    rewrite Hrun in Hown. destruct Hown as (h & Hh & Hown).
    unfold DateText.cleanup. rewrite Hh. simpl.
    assert (Hpos : 0 < h < nextHandle w) by (apply Href, Hh).
    replace (h =? 0) with false by (symmetry; apply Z.eqb_neq; lia). simpl.
    split; [apply handles_ok_clearTimer, Hok|]. split.
    + intros h' [= <-]. exact Hpos.
    + unfold clearInterval. rewrite owned_clearTimer, Hown. apply delete_singleton_eq.
  - (* the interval fires *)
    auto.
  - (* other code sets a timer *)
    split; [apply handles_ok_setTimer, Hok|]. split.
    + intros h Hh. apply Href in Hh. simpl. lia.
    + rewrite (owned_setTimer_foreign (DateText.self x) t w Ho Hok). exact Hown.
  - (* other code clears one of its timers *)
    split; [apply handles_ok_clearTimer, Hok|]. split.
    + exact Href.
    + rewrite (owned_clearTimer_foreign (DateText.self x) h t w Hh Ho). exact Hown.
Qed.

Lemma dateText_reachable (s : Window * DateText.Widget) :
  DateText.reachable s -> dateTextInv s.
Proof.
  intros (w0 & x0 & Hinit & Hsteps).
  refine (rtc_ind_r (fun s => dateTextInv s) (w0, x0) _ _ s Hsteps).
  - apply dateText_initial, Hinit.
  - intros y z _ Hstep Hy. exact (dateText_step y z Hstep Hy).
Qed.

(** *** DigitalClock *)

Lemma last_alter_last {A} (f : A -> A) (l : list A) :
  last (alter f (pred (length l)) l) = f <$> last l.
Proof.
  rewrite !last_lookup, length_alter, list_lookup_alter.
  case_decide; [reflexivity | congruence].
Qed.

Lemma digitalClock_initial (w : Window) (x : DigitalClock.Widget) :
  DigitalClock.initial w x -> digitalClockInv (w, x).
Proof.
  intros (Hpos & Hall & Hruns & Hrun). unfold digitalClockInv. cbv zeta.
  split.
  - split; [exact Hpos|]. intros h t Ht. apply (Hall h t Ht).
  - rewrite Hrun. apply owned_initial. intros h t Ht. apply (Hall h t Ht).
Qed.

Lemma digitalClock_step (s s' : Window * DigitalClock.Widget) :
  DigitalClock.step s s' -> digitalClockInv s -> digitalClockInv s'.
Proof.
  intros Hstep.
  destruct Hstep as [nowMs w x Hrun|w x Hrun|w x h t Hh Ho Hk|w x h t Hh Ho Hk|w x t Ho
                    |w x h t Hh Ho];
    unfold digitalClockInv; cbv zeta; intros (Hok & Hown).
  - (* the effect runs *)
    rewrite Hrun in Hown. unfold DigitalClock.effect. simpl.
    split; [apply handles_ok_setTimer, Hok|].
    exists (DigitalClock.mkClosure (nextHandle w) 0). split; [apply last_snoc|].
    left. split; [reflexivity|]. exists (DigitalClock.alignDelay nowMs). simpl.
    pose proof (owned_setTimer_own (DigitalClock.self x)
                  (mkTimer one_shot (DigitalClock.alignDelay nowMs) (DigitalClock.self x)
                     (length (DigitalClock.runs x))) w eq_refl) as Hset.
    simpl in Hset. rewrite Hset, Hown.
    rewrite length_app. simpl. rewrite Nat.add_1_r. simpl. apply insert_empty.
  - (* the cleanup runs *)
    rewrite Hrun in Hown. destruct Hown as (c & Hlast & Hcase).
    unfold DigitalClock.cleanup. rewrite Hlast.
    destruct Hcase as [(Hzero & ms & Hown)|(Hpos & Hown)].
    + rewrite Hzero. simpl.
      split; [apply handles_ok_clearTimer, Hok|].
      unfold clearTimeout. rewrite owned_clearTimer, Hown. apply delete_singleton_eq.
    + replace (DigitalClock.intervalRef c =? 0) with false
        by (symmetry; apply Z.eqb_neq; lia).
      simpl. split; [apply handles_ok_clearTimer, handles_ok_clearTimer, Hok|].
      unfold clearInterval, clearTimeout. rewrite !owned_clearTimer, Hown.
      rewrite delete_delete, delete_singleton_eq. apply delete_empty.
  - (* the alignment timeout fires *)
    assert (Hmine : owned (DigitalClock.self x) w !! h = Some t)
      by (apply owned_lookup; auto).
    destruct (DigitalClock.running x) eqn:Hrun.
    2:{ rewrite Hown in Hmine. rewrite lookup_empty in Hmine. discriminate. }
    destruct Hown as (c & Hlast & [(Hzero & ms & Hown)|(Hpos & Hown)]).
    2:{ rewrite Hown in Hmine. apply lookup_singleton_Some in Hmine as [_ <-].
        simpl in Hk. discriminate. }
    rewrite Hown in Hmine. apply lookup_singleton_Some in Hmine as [<- <-].
    cbn [run]. unfold DigitalClock.onTimeout.
    set (w1 := clearTimer (DigitalClock.timeoutId c) w).
    set (T := mkTimer repeating 1000 (DigitalClock.self x)
                (pred (length (DigitalClock.runs x)))).
    assert (Hok1 : handles_ok w1) by (apply handles_ok_clearTimer, Hok).
    pose proof (handles_ok_setTimer T w1 Hok1) as Hok2.
    pose proof (owned_setTimer_own (DigitalClock.self x) T w1 eq_refl) as Hset.
    unfold w1 in Hset. rewrite owned_clearTimer, Hown, delete_singleton_eq in Hset.
    rewrite insert_empty in Hset.
    simpl. split; [exact Hok2|].
    rewrite Hrun, length_alter, last_alter_last, Hlast. simpl.
    eexists. split; [reflexivity|]. right. simpl.
    split; [destruct Hok; lia|]. exact Hset.
  - (* the interval fires *)
    auto.
  - (* other code sets a timer *)
    split; [apply handles_ok_setTimer, Hok|].
    rewrite (owned_setTimer_foreign (DigitalClock.self x) t w Ho Hok). exact Hown.
  - (* other code clears one of its timers *)
    split; [apply handles_ok_clearTimer, Hok|].
    rewrite (owned_clearTimer_foreign (DigitalClock.self x) h t w Hh Ho). exact Hown.
Qed.

Lemma digitalClock_reachable (s : Window * DigitalClock.Widget) :
  DigitalClock.reachable s -> digitalClockInv s.
Proof.
  intros (w0 & x0 & Hinit & Hsteps).
  refine (rtc_ind_r (fun s => digitalClockInv s) (w0, x0) _ _ s Hsteps).
  - apply digitalClock_initial, Hinit.
  - intros y z _ Hstep Hy. exact (digitalClock_step y z Hstep Hy).
Qed.

Lemma dateText_reachable_step (s s' : Window * DateText.Widget) :
  DateText.reachable s -> DateText.step s s' -> DateText.reachable s'.
Proof.
  intros (w0 & x0 & Hinit & Hsteps) Hstep. exists w0, x0.
  split; [exact Hinit|]. eapply rtc_r; eauto.
Qed.

Lemma digitalClock_reachable_step (s s' : Window * DigitalClock.Widget) :
  DigitalClock.reachable s -> DigitalClock.step s s' -> DigitalClock.reachable s'.
Proof.
  intros (w0 & x0 & Hinit & Hsteps) Hstep. exists w0, x0.
  split; [exact Hinit|]. eapply rtc_r; eauto.
Qed.

Lemma dateText_timers (w : Window) (x : DateText.Widget) :
  DateText.reachable (w, x) ->
  (size (owned (DateText.self x) w) <= 1)%nat /\
  (forall h t, owned (DateText.self x) w !! h = Some t ->
               kind t = repeating /\ delay t = 60000) /\
  (DateText.running x = false -> owned (DateText.self x) w = ∅).
Proof.
  intros Hr. apply dateText_reachable in Hr. destruct Hr as (_ & _ & Hown).
  destruct (DateText.running x).
  - destruct Hown as (h & _ & Hown). rewrite Hown. split; [|split].
    + rewrite map_size_singleton. lia.
    + intros h' t Ht. apply lookup_singleton_Some in Ht as [_ <-]. split; reflexivity.
    + discriminate.
  - rewrite Hown. split; [|split].
    + rewrite map_size_empty. lia.
    + intros h t Ht. rewrite lookup_empty in Ht. discriminate.
    + reflexivity.
Qed.

Lemma digitalClock_timers (w : Window) (x : DigitalClock.Widget) :
  DigitalClock.reachable (w, x) ->
  (size (owned (DigitalClock.self x) w) <= 1)%nat /\
  (forall h t, intervals (DigitalClock.self x) w !! h = Some t -> delay t = 1000) /\
  (DigitalClock.running x = false -> owned (DigitalClock.self x) w = ∅).
Proof.
  intros Hr. apply digitalClock_reachable in Hr. destruct Hr as (_ & Hown).
  cbv zeta in Hown. unfold intervals.
  destruct (DigitalClock.running x).
  - destruct Hown as (c & _ & [(_ & ms & Hown)|(_ & Hown)]); rewrite Hown;
      (split; [rewrite map_size_singleton; lia|]); (split; [|discriminate]);
      intros h t Ht; apply map_lookup_filter_Some in Ht as [Ht Hk];
      apply lookup_singleton_Some in Ht as [_ <-]; simpl in *; congruence.
  - rewrite Hown. split; [rewrite map_size_empty; lia|]. split; [|reflexivity].
    intros h t Ht. rewrite map_filter_empty, lookup_empty in Ht. discriminate.
Qed.

(** C8. In every state reached by mounting, re-running the effect,
    firing timers and unmounting: while an effect of a DateText widget
    is installed the widget owns exactly one timer, the 60-second
    interval that [intervalRef] names, which the effect sets; while an
    effect of a DigitalClock widget is installed the widget owns
    exactly one timer, the alignment timeout that the effect sets or,
    once that has fired, the 1-second interval that its callback sets;
    so there is never more than one interval, and once the cleanup of
    the effect has run the widget owns no active timer. *)
Theorem widgets_own_one_timer :
  (forall w x,
     DateText.reachable (w, x) ->
     (size (owned (DateText.self x) w) <= 1)%nat /\
     (forall h t, owned (DateText.self x) w !! h = Some t ->
                  kind t = repeating /\ delay t = 60000) /\
     (DateText.running x = false -> owned (DateText.self x) w = ∅) /\
     (DateText.running x = true ->
      owned (DateText.self x) (fst (DateText.cleanup w x)) = ∅) /\
     (DateText.running x = true ->
      exists h,
        DateText.intervalRef x = Some h /\
        owned (DateText.self x) w =
        {[h := mkTimer repeating 60000 (DateText.self x) 0]}) /\
     (DateText.running x = false ->
      owned (DateText.self x) (fst (DateText.effect w x)) =
      {[nextHandle w := mkTimer repeating 60000 (DateText.self x) 0]})) /\
  (forall w x,
     DigitalClock.reachable (w, x) ->
     (size (intervals (DigitalClock.self x) w) <= 1)%nat /\
     (size (timeouts (DigitalClock.self x) w) <= 1)%nat /\
     (forall h t, intervals (DigitalClock.self x) w !! h = Some t -> delay t = 1000) /\
     (DigitalClock.running x = false -> owned (DigitalClock.self x) w = ∅) /\
     (DigitalClock.running x = true ->
      owned (DigitalClock.self x) (fst (DigitalClock.cleanup w x)) = ∅) /\
     (DigitalClock.running x = true ->
      exists c,
        last (DigitalClock.runs x) = Some c /\
        ((DigitalClock.intervalRef c = 0 /\
          exists ms,
            owned (DigitalClock.self x) w =
            {[DigitalClock.timeoutId c :=
                mkTimer one_shot ms (DigitalClock.self x)
                  (pred (length (DigitalClock.runs x)))]}) \/
         (0 < DigitalClock.intervalRef c /\
          owned (DigitalClock.self x) w =
          {[DigitalClock.intervalRef c :=
              mkTimer repeating 1000 (DigitalClock.self x)
                (pred (length (DigitalClock.runs x)))]}))) /\
     (DigitalClock.running x = false ->
      forall nowMs,
        owned (DigitalClock.self x) (fst (DigitalClock.effect nowMs w x)) =
        {[nextHandle w :=
            mkTimer one_shot (DigitalClock.alignDelay nowMs) (DigitalClock.self x)
              (length (DigitalClock.runs x))]}) /\
     (forall h t,
        active w !! h = Some t -> owner t = DigitalClock.self x -> kind t = one_shot ->
        owned (DigitalClock.self x)
          (fst (DigitalClock.onTimeout (run t) (clearTimer h w) x)) =
        {[nextHandle w := mkTimer repeating 1000 (DigitalClock.self x) (run t)]})).
Proof.
  split; intros w x Hr.
  - destruct (dateText_timers w x Hr) as (Hsize & Hkind & Hidle).
    pose proof (dateText_reachable _ Hr) as (Hok & Href & Hown).
    split; [exact Hsize|]. split; [exact Hkind|]. split; [exact Hidle|].
    split; [|split].
    + intros Hrun.
      pose proof (dateText_reachable_step _ _ Hr (DateText.step_cleanup w x Hrun)) as Hr'.
      destruct (DateText.cleanup w x) as [w' x'] eqn:E.
      assert (Hx' : DateText.self x' = DateText.self x /\ DateText.running x' = false).
      { unfold DateText.cleanup in E. inversion E. split; reflexivity. }
      destruct Hx' as [Hself Hrun']. rewrite <- Hself.
      apply (dateText_timers w' x' Hr'). exact Hrun'.
    + intros Hrun. rewrite Hrun in Hown. exact Hown.
    + intros Hrun.
      pose proof (dateText_reachable_step _ _ Hr (DateText.step_effect w x Hrun)) as Hr'.
      pose proof (dateText_reachable _ Hr') as Hinv.
      pose proof (dateText_clear_stale w x Hok (Hidle Hrun)) as Hstale.
      cbv zeta in Hstale.
      unfold DateText.effect in *. unfold setInterval, setTimer in *.
      cbn [fst snd] in *.
      destruct Hstale as (Hok' & Hown' & Hnext).
      cbn [fst].
      match goal with
      | |- owned _ (mkWindow _ (<[?h := ?t]> (active ?w1))) = _ =>
          pose proof (owned_setTimer_own (DateText.self x) t w1 eq_refl) as Hset
      end.
      unfold setTimer in Hset. cbn [snd] in Hset. rewrite Hnext in Hset.
      rewrite Hnext. rewrite Hset, Hown'. apply insert_empty.
  - destruct (digitalClock_timers w x Hr) as (Hsize & Hdelay & Hidle).
    pose proof (digitalClock_reachable _ Hr) as (Hok & Hown). cbv zeta in Hown.
    split; [etransitivity; [apply size_filter_le | exact Hsize]|].
    split; [etransitivity; [apply size_filter_le | exact Hsize]|].
    split; [exact Hdelay|]. split; [exact Hidle|].
    split; [|split; [|split]].
    + intros Hrun.
      pose proof (digitalClock_reachable_step _ _ Hr (DigitalClock.step_cleanup w x Hrun))
        as Hr'.
      destruct (DigitalClock.cleanup w x) as [w' x'] eqn:E.
      assert (Hx' : DigitalClock.self x' = DigitalClock.self x /\
                    DigitalClock.running x' = false).
      { unfold DigitalClock.cleanup in E.
        destruct (last (DigitalClock.runs x)); inversion E; split; reflexivity. }
      destruct Hx' as [Hself Hrun']. rewrite <- Hself.
      apply (digitalClock_timers w' x' Hr'). exact Hrun'.
    + intros Hrun. rewrite Hrun in Hown. exact Hown.
    + intros Hrun nowMs. unfold DigitalClock.effect, setTimeout. cbn [fst snd].
      pose proof (owned_setTimer_own (DigitalClock.self x)
                    (mkTimer one_shot (DigitalClock.alignDelay nowMs) (DigitalClock.self x)
                       (length (DigitalClock.runs x))) w eq_refl) as Hset.
      unfold setTimer in *. cbn [fst snd] in *.
      rewrite Hset, (Hidle Hrun). apply insert_empty.
    + intros h t Hh Ho Hk.
      assert (Hmine : owned (DigitalClock.self x) w !! h = Some t)
        by (apply owned_lookup; auto).
      destruct (DigitalClock.running x) eqn:Hrun.
      2:{ rewrite Hown in Hmine. rewrite lookup_empty in Hmine. discriminate. }
      destruct Hown as (c & Hlast & [(Hzero & ms & Hown)|(Hpos & Hown)]).
      2:{ rewrite Hown in Hmine. apply lookup_singleton_Some in Hmine as [_ <-].
          simpl in Hk. discriminate. }
      rewrite Hown in Hmine. apply lookup_singleton_Some in Hmine as [<- <-].
      cbn [run]. unfold DigitalClock.onTimeout, setInterval.
      set (w1 := clearTimer (DigitalClock.timeoutId c) w).
      set (T := mkTimer repeating 1000 (DigitalClock.self x)
                  (pred (length (DigitalClock.runs x)))).
      pose proof (owned_setTimer_own (DigitalClock.self x) T w1 eq_refl) as Hset.
      unfold w1 in Hset. rewrite owned_clearTimer, Hown, delete_singleton_eq in Hset.
      rewrite insert_empty in Hset. unfold setTimer in *. cbn [fst snd] in *.
      exact Hset.
Qed.

Lemma widgets_own_one_timer_witness :
  let w0 := mkWindow 1 ∅ in
  let s := DateText.effect w0 (DateText.mkWidget 7 None false) in
  let s := DateText.cleanup (fst s) (snd s) in
  let s := DateText.effect (fst s) (snd s) in
  let d := DigitalClock.effect 1762160707250 w0 (DigitalClock.mkWidget 7 [] false) in
  let d := DigitalClock.onTimeout 0 (clearTimer 1 (fst d)) (snd d) in
  owned 7 (fst s) = {[2 := mkTimer repeating 60000 7 0]} /\
  owned 7 (fst (DateText.cleanup (fst s) (snd s))) = ∅ /\
  owned 7 (fst d) = {[2 := mkTimer repeating 1000 7 0]} /\
  (size (intervals 7 (fst d)) <= 1)%nat /\
  owned 7 (fst (DigitalClock.cleanup (fst d) (snd d))) = ∅.
Proof.
  intros w0 s1 s2 s3 d1 d2.
  assert (Hinit : forall h t, active w0 !! h = Some t -> 0 < h < nextHandle w0 /\ owner t <> 7%nat).
  { intros h t H. unfold w0 in H. simpl in H. rewrite lookup_empty in H. discriminate. }
  assert (Hs2 : DateText.reachable (fst s2, snd s2)).
  { exists w0, (DateText.mkWidget 7 None false). split.
    - split; [simpl; lia|]. split; [exact Hinit|]. split; reflexivity.
    - eapply rtc_l; [apply DateText.step_effect; reflexivity|].
      eapply rtc_l; [apply (DateText.step_cleanup (fst s1) (snd s1)); reflexivity|].
      apply rtc_refl. }
  assert (Hs : DateText.reachable (fst s3, snd s3)).
  { destruct Hs2 as (w & x & Hi & Hsteps). exists w, x. split; [exact Hi|].
    eapply rtc_r; [exact Hsteps|].
    apply (DateText.step_effect (fst s2) (snd s2)); reflexivity. }
  assert (Hd1 : DigitalClock.reachable (fst d1, snd d1)).
  { exists w0, (DigitalClock.mkWidget 7 [] false). split.
    - split; [simpl; lia|]. split; [exact Hinit|]. split; reflexivity.
    - eapply rtc_l; [apply (DigitalClock.step_effect 1762160707250); reflexivity|].
      apply rtc_refl. }
  assert (Hd : DigitalClock.reachable (fst d2, snd d2)).
  { destruct Hd1 as (w & x & Hi & Hsteps). exists w, x. split; [exact Hi|].
    eapply rtc_r; [exact Hsteps|].
    apply (DigitalClock.step_timeout (fst d1) (snd d1) 1 (mkTimer one_shot 750 7 0));
      reflexivity. }
  destruct widgets_own_one_timer as [HT HD].
  destruct (HT _ _ Hs2) as (_ & _ & _ & _ & _ & Hset).
  destruct (HT _ _ Hs) as (_ & _ & _ & Hclean & _ & _).
  destruct (HD _ _ Hd1) as (_ & _ & _ & _ & _ & _ & _ & Hfire).
  destruct (HD _ _ Hd) as (Hsize & _ & _ & _ & Hclean' & _ & _ & _).
  split; [exact (Hset eq_refl)|]. split; [exact (Hclean eq_refl)|].
  split; [exact (Hfire 1 (mkTimer one_shot 750 7 0) eq_refl eq_refl eq_refl)|].
  split; [exact Hsize | exact (Hclean' eq_refl)].
Defined.

(** * Further properties of the widgets *)

(** ** Strings *)

Lemma string_app_cons (c : ascii) (a b : string) : String c a +:+ b = String c (a +:+ b).
Proof. reflexivity. Qed.

Lemma string_app_nil_r (s : string) : s +:+ "" = s.
Proof.
  induction s as [|c s IH]; [reflexivity|]. rewrite string_app_cons, IH. reflexivity.
Qed.

Lemma string_app_assoc (a b c : string) : (a +:+ b) +:+ c = a +:+ (b +:+ c).
Proof.
  induction a as [|x a IH]; [reflexivity|]. rewrite !string_app_cons, IH. reflexivity.
Qed.

Lemma string_app_length (a b : string) :
  String.length (a +:+ b) = (String.length a + String.length b)%nat.
Proof.
  induction a as [|x a IH]; [reflexivity|]. rewrite string_app_cons. simpl.
  rewrite IH. reflexivity.
Qed.

Lemma split_chars_single (s : string) :
  Forall (fun d => String.length d = 1%nat) (split_chars s).
Proof. induction s as [|c s IH]; simpl; constructor; [reflexivity | exact IH]. Qed.

Lemma split_chars_length (s : string) : length (split_chars s) = String.length s.
Proof. induction s as [|c s IH]; simpl; [reflexivity | f_equal; exact IH]. Qed.

(** ** pad2 *)

Lemma pad2_length_ne (v : string) : String.length (DigitalClock.pad2 v) <> 1%nat.
Proof.
  unfold DigitalClock.pad2.
  destruct (Z.of_nat (String.length v) =? 1) eqn:E.
  - rewrite string_app_length. simpl. apply Z.eqb_eq in E. lia.
  - apply Z.eqb_neq in E. lia.
Qed.

(** [pad2] never returns a one-character string, leaves every string
    that is not one character long as it is, and padding twice is
    padding once. *)
Theorem pad2_never_single (v : string) :
  String.length (DigitalClock.pad2 v) <> 1%nat /\
  (String.length v <> 1%nat -> DigitalClock.pad2 v = v) /\
  DigitalClock.pad2 (DigitalClock.pad2 v) = DigitalClock.pad2 v.
Proof.
  split; [apply pad2_length_ne|]. split; [apply pad2_other|].
  apply pad2_other, pad2_length_ne.
Qed.

Lemma pad2_never_single_witness :
  DigitalClock.pad2 "2025" = "2025" /\ DigitalClock.pad2 (DigitalClock.pad2 "7") = "07".
Proof.
  split.
  - apply (proj1 (proj2 (pad2_never_single "2025"))). simpl. lia.
  - exact (proj2 (proj2 (pad2_never_single "7"))).
Defined.

(** ** The tick of the digital clock *)

Lemma unit_name_inj (a b : DigitalClock.UnitKey) :
  DigitalClock.unit_name a = DigitalClock.unit_name b -> a = b.
Proof. destruct a, b; simpl; intros H; try reflexivity; discriminate. Qed.

Lemma applyTick_unfold (P : Platform) (clock : Date) (enabled : list DigitalClock.UnitKey)
    (show : DigitalClock.Show) (refs : DigitalClock.TickRefs) (fmt : DateTimeFormat) :
  DigitalClock.applyTick P clock enabled show refs fmt =
  DigitalClock.mkRefs
    (fold_left
       (tickUnit P clock show (DigitalClock.extractParts clock fmt)
          (tickOpts (DigitalClock.firstRunRef refs)))
       enabled (DigitalClock.digitUpdatersRef refs))
    false.
Proof.
  unfold DigitalClock.applyTick, tickOpts.
  destruct (DigitalClock.firstRunRef refs); reflexivity.
Qed.

Lemma tickUnit_alter (P : Platform) (current : Date) (show : DigitalClock.Show)
    (parts : gmap string string) (opts : option DigitalClock.UpdateOpts)
    (registry : gmap string (list DigitalClock.Cell)) (k : DigitalClock.UnitKey) :
  tickUnit P current show parts opts registry k =
  alter (updateCells opts (DigitalClock.tickDigits P current show parts k))
    (DigitalClock.unit_name k) registry.
Proof.
  unfold tickUnit.
  destruct (registry !! DigitalClock.unit_name k) as [cells|] eqn:E.
  - apply map_eq. intros key. rewrite lookup_alter, lookup_insert.
    case_decide; [rewrite E|]; reflexivity.
  - symmetry. apply alter_id'. exact E.
Qed.

Lemma updateCells_snoc (opts : option DigitalClock.UpdateOpts) (digits : list string)
    (d : string) (cells : list DigitalClock.Cell) :
  updateCells opts (digits ++ [d]) cells =
  let cells' := updateCells opts digits cells in
  match cells' !! length digits with
  | None => cells'
  | Some c =>
      <[length digits := DigitalClock.call_updater c (DigitalClock.d_string d) opts]> cells'
  end.
Proof.
  unfold updateCells. rewrite indexed_snoc, fold_left_app. simpl.
  rewrite Nat2Z.id. reflexivity.
Qed.

Lemma updateCells_length (opts : option DigitalClock.UpdateOpts) (digits : list string)
    (cells : list DigitalClock.Cell) :
  length (updateCells opts digits cells) = length cells.
Proof.
  induction digits as [|d digits IH] using rev_ind; [reflexivity|].
  rewrite updateCells_snoc. cbv zeta.
  destruct (updateCells opts digits cells !! length digits); [|exact IH].
  rewrite length_insert. exact IH.
Qed.

(** Cell [i] receives digit [i], once; cells beyond the digits are
    left alone. *)
Lemma set_text_twice (el : option string) (a b : string) :
  DigitalClock.set_text (DigitalClock.set_text el a) b = DigitalClock.set_text el b.
Proof. destruct el; reflexivity. Qed.

Lemma updateDigit_again (st : DigitalClock.FlipDigit) (d : DigitalClock.Digit)
    (opts : option DigitalClock.UpdateOpts) :
  DigitalClock.updateDigit d None (DigitalClock.updateDigit d opts st) =
  DigitalClock.updateDigit d opts st.
Proof.
  destruct (DigitalClock.strict_eq d (DigitalClock.currentRef st)) eqn:E.
  - assert (H : DigitalClock.updateDigit d opts st = st)
      by (unfold DigitalClock.updateDigit; rewrite E; reflexivity).
    rewrite H. unfold DigitalClock.updateDigit. rewrite E. reflexivity.
  - destruct (DigitalClock.is_immediate opts) eqn:Ei.
    + assert (H : DigitalClock.currentRef (DigitalClock.updateDigit d opts st) = d)
        by (unfold DigitalClock.updateDigit; rewrite E, Ei; reflexivity).
      unfold DigitalClock.updateDigit at 1. rewrite H, strict_eq_refl. reflexivity.
    + assert (H : DigitalClock.updateDigit d opts st =
                  DigitalClock.mkFlip (DigitalClock.currentRef st) d
                    (DigitalClock.set_text (DigitalClock.nextAboveRef st)
                       (DigitalClock.String_of d))
                    (DigitalClock.currentBelowRef st) (DigitalClock.frontRef st)
                    (DigitalClock.set_text (DigitalClock.backRef st)
                       (DigitalClock.String_of d)) true)
        by (unfold DigitalClock.updateDigit; rewrite E, Ei; reflexivity).
      rewrite H. unfold DigitalClock.updateDigit. simpl. rewrite E. simpl.
      rewrite !set_text_twice. reflexivity.
Qed.

Lemma spanUpdater_again (el : DigitalClock.Span) (d : DigitalClock.Digit)
    (opts : option DigitalClock.UpdateOpts) :
  DigitalClock.spanUpdater d None (DigitalClock.spanUpdater d opts el) =
  DigitalClock.spanUpdater d opts el.
Proof.
  assert (Hset : DigitalClock.spanUpdater d None (DigitalClock.mkSpan (DigitalClock.String_of d))
                 = DigitalClock.mkSpan (DigitalClock.String_of d)).
  { unfold DigitalClock.spanUpdater. simpl. rewrite String.eqb_refl. reflexivity. }
  destruct (DigitalClock.is_immediate opts) eqn:Ei.
  { replace (DigitalClock.spanUpdater d opts el)
      with (DigitalClock.mkSpan (DigitalClock.String_of d))
      by (unfold DigitalClock.spanUpdater; rewrite Ei; reflexivity).
    exact Hset. }
  destruct (String.eqb (DigitalClock.textContent el) (DigitalClock.String_of d)) eqn:E.
  - replace (DigitalClock.spanUpdater d opts el) with el
      by (unfold DigitalClock.spanUpdater; rewrite Ei, E; reflexivity).
    unfold DigitalClock.spanUpdater. simpl. rewrite E. reflexivity.
  - replace (DigitalClock.spanUpdater d opts el)
      with (DigitalClock.mkSpan (DigitalClock.String_of d))
      by (unfold DigitalClock.spanUpdater; rewrite Ei, E; reflexivity).
    exact Hset.
Qed.

(** Repeating an update without [immediate] changes nothing more. *)
Lemma call_updater_again (c : DigitalClock.Cell) (d : DigitalClock.Digit)
    (opts : option DigitalClock.UpdateOpts) :
  DigitalClock.call_updater (DigitalClock.call_updater c d opts) d None =
  DigitalClock.call_updater c d opts.
Proof.
  destruct c as [st|el]; simpl; f_equal;
    [apply updateDigit_again | apply spanUpdater_again].
Qed.

Section TickFold.
Variables (P : Platform) (clock : Date) (show : DigitalClock.Show)
          (parts : gmap string string).

Local Abbreviation digitsOf k := (DigitalClock.tickDigits P clock show parts k).
Local Abbreviation step opts := (tickUnit P clock show parts opts).

Lemma tick_pass_shape (opts : option DigitalClock.UpdateOpts)
    (enabled : list DigitalClock.UnitKey) (registry : gmap string (list DigitalClock.Cell))
    (key : string) :
  length <$> (fold_left (step opts) enabled registry !! key) = length <$> (registry !! key) /\
  ((forall k, k ∈ enabled -> DigitalClock.unit_name k <> key) ->
   fold_left (step opts) enabled registry !! key = registry !! key).
Proof.
  revert registry. induction enabled as [|k enabled IH]; intros registry; [split; reflexivity|].
  simpl. destruct (IH (step opts registry k)) as [IHlen IHsame].
  assert (Hstep : length <$> (step opts registry k !! key) = length <$> (registry !! key)).
  { rewrite tickUnit_alter, lookup_alter. case_decide; [|reflexivity].
    subst key. destruct (registry !! DigitalClock.unit_name k); [|reflexivity].
    simpl. rewrite updateCells_length. reflexivity. }
  split; [rewrite IHlen; exact Hstep|].
  intros Hnot. rewrite IHsame by (intros k' Hk'; apply Hnot; right; exact Hk').
  rewrite tickUnit_alter, lookup_alter_ne; [reflexivity|].
  apply Hnot. left.
Qed.

End TickFold.

(** A tick keeps the registry of updaters in shape: the same keys with
    the same number of cells, the cells of units that are not enabled
    untouched, and the first-run flag cleared. *)
Theorem applyTick_keeps_registry (P : Platform) (clock : Date)
    (enabled : list DigitalClock.UnitKey) (show : DigitalClock.Show)
    (refs : DigitalClock.TickRefs) (fmt : DateTimeFormat) (key : string) :
  let refs' := DigitalClock.applyTick P clock enabled show refs fmt in
  DigitalClock.firstRunRef refs' = false /\
  length <$> (DigitalClock.digitUpdatersRef refs' !! key) =
    length <$> (DigitalClock.digitUpdatersRef refs !! key) /\
  ((forall k, k ∈ enabled -> DigitalClock.unit_name k <> key) ->
   DigitalClock.digitUpdatersRef refs' !! key = DigitalClock.digitUpdatersRef refs !! key).
Proof.
  cbv zeta. rewrite applyTick_unfold. simpl. split; [reflexivity|].
  apply tick_pass_shape.
Qed.

Lemma applyTick_keeps_registry_witness :
  let show := DigitalClock.mkShow DigitalClock.hf24 false None false None false None
                false true false false None None in
  let fmt := Intl.mkFormat (fun _ => [mkPart p_minute "5"]) in
  let refs :=
    DigitalClock.mkRefs
      {[ "second" := [DigitalClock.span_cell (DigitalClock.mkSpan "4")] ]} true in
  DigitalClock.digitUpdatersRef
    (DigitalClock.applyTick refPlatform (mkDate 1762160707250)
       (DigitalClock.enabledUnits show) show refs fmt) !! "second" =
  Some [DigitalClock.span_cell (DigitalClock.mkSpan "4")].
Proof.
  intros show fmt refs.
  refine (proj2 (proj2 (applyTick_keeps_registry refPlatform (mkDate 1762160707250)
                          (DigitalClock.enabledUnits show) show refs fmt "second")) _).
  intros k Hk. vm_compute in Hk. apply list_elem_of_singleton in Hk. subst k. discriminate.
Defined.

(** ** Ticks over a registry of closures *)

Lemma zip_snoc {A B} (l : list A) (k : list B) (y : B) :
  zip l (k ++ [y]) =
  zip l k ++ match l !! length k with Some x => [(x, y)] | None => [] end.
Proof.
  revert k. induction l as [|x l IH]; intros k; [reflexivity|].
  destruct k as [|z k]; simpl.
  - destruct l; reflexivity.
  - rewrite IH. reflexivity.
Qed.

Section Calls.
Variable opts : option DigitalClock.UpdateOpts.

(** One call of the updater of an element. *)
Local Abbreviation call := (fun (page : Rendering.Elements) (ed : nat * string) =>
  Rendering.updaterOf ed.1 (DigitalClock.d_string ed.2) opts page).

Lemma called_digits (els : list nat) (digits : list string) (page : Rendering.Elements) :
  fold_left
    (fun (page : Rendering.Elements) (id : Z * string) =>
       let '(idx, d) := id in
       match (Rendering.updaterOf <$> els) !! Z.to_nat idx with
       | None => page
       | Some updater => updater (DigitalClock.d_string d) opts page
       end)
    (DateText.indexed digits) page =
  fold_left call (zip els digits) page.
Proof.
  induction digits as [|d digits IH] using rev_ind.
  - destruct els; reflexivity.
  - rewrite indexed_snoc, zip_snoc, !fold_left_app, IH. cbn [fold_left].
    rewrite Nat2Z.id, list_lookup_fmap.
    destruct (els !! length digits); reflexivity.
Qed.

Lemma calls_lookup_other (calls : list (nat * string)) (page : Rendering.Elements) (e : nat) :
  e ∉ calls.*1 -> fold_left call calls page !! e = page !! e.
Proof.
  revert page. induction calls as [|[e' d'] calls IH]; intros page Hnot; [reflexivity|].
  cbn [fold_left]. rewrite fmap_cons in Hnot. apply not_elem_of_cons in Hnot as [Hne Hnot].
  rewrite IH by exact Hnot. unfold Rendering.updaterOf. cbn [fst snd] in *.
  apply lookup_alter_ne. congruence.
Qed.

Lemma calls_lookup_called (calls : list (nat * string)) (page : Rendering.Elements)
    (e : nat) (d : string) :
  NoDup calls.*1 -> (e, d) ∈ calls ->
  fold_left call calls page !! e =
  (fun c => DigitalClock.call_updater c (DigitalClock.d_string d) opts) <$> page !! e.
Proof.
  revert page. induction calls as [|[e' d'] calls IH]; intros page Hdup Hin.
  - inversion Hin.
  - rewrite fmap_cons in Hdup. apply NoDup_cons in Hdup as [Hnot Hdup]. simpl in Hnot.
    cbn [fold_left]. apply elem_of_cons in Hin as [Heq|Hin].
    + injection Heq as <- <-. rewrite calls_lookup_other by exact Hnot.
      unfold Rendering.updaterOf. cbn [fst snd]. apply lookup_alter_eq.
    + rewrite IH by assumption. f_equal. unfold Rendering.updaterOf. cbn [fst snd].
      apply lookup_alter_ne.
      intros <-. apply Hnot. apply (list_elem_of_fmap_2 fst) in Hin. exact Hin.
Qed.

End Calls.

Lemma applyTick_elements (P : Platform) (clock : Date) (enabled : list DigitalClock.UnitKey)
    (show : DigitalClock.Show) (registry : gmap string (list nat)) (firstRun : bool)
    (fmt : DateTimeFormat) (page : Rendering.Elements) :
  Rendering.applyTick P clock enabled show
    (Rendering.mkRefs (Rendering.updatersOf registry) firstRun) fmt page =
  (fold_left
     (fun page (ed : nat * string) =>
        Rendering.updaterOf ed.1 (DigitalClock.d_string ed.2) (tickOpts firstRun) page)
     (Rendering.calledElements P clock show (DigitalClock.extractParts clock fmt)
        registry enabled)
     page,
   Rendering.mkRefs (Rendering.updatersOf registry) false).
Proof.
  unfold Rendering.applyTick.
  cbn [Rendering.firstRunRef Rendering.digitUpdatersRef].
  replace (default clock (if firstRun then None else Some clock)) with clock
    by (destruct firstRun; reflexivity).
  replace (if firstRun then false else firstRun) with false by (destruct firstRun; reflexivity).
  fold (tickOpts firstRun). f_equal.
  unfold Rendering.calledElements.
  revert page. induction enabled as [|k enabled IH]; intros page; [reflexivity|].
  cbn [fold_left]. change ((k :: enabled) ≫= ?f) with (f k ++ (enabled ≫= f)).
  rewrite fold_left_app, <- IH. f_equal.
  unfold Rendering.updatersOf. rewrite lookup_fmap.
  destruct (registry !! DigitalClock.unit_name k) as [els|]; cbn.
  - apply called_digits.
  - reflexivity.
Qed.

(** A second tick at the same instant changes nothing on the page,
    provided no element is written through two of the updaters the tick
    calls.  It can change something otherwise: after one render with a
    one-digit day and a second one with two digits the registry holds
    the updater of the first element at the indices 0 and 1, and a
    first tick followed by a second leaves that element flipping back
    to the digit of index 0, while the second element is never
    written. *)
Theorem applyTick_idempotent_distinct (P : Platform) (clock : Date)
    (enabled : list DigitalClock.UnitKey) (show : DigitalClock.Show)
    (fmt : DateTimeFormat) :
  (forall registry firstRun page,
     NoDup (Rendering.calledElements P clock show (DigitalClock.extractParts clock fmt)
              registry enabled).*1 ->
     let first :=
       Rendering.applyTick P clock enabled show
         (Rendering.mkRefs (Rendering.updatersOf registry) firstRun) fmt page in
     Rendering.firstRunRef (snd first) = false /\
     fst (Rendering.applyTick P clock enabled show (snd first) fmt (fst first)) = fst first) /\
  (let days := DigitalClock.mkShow DigitalClock.hf24 false None false None true
                 (Some DigitalClock.uf_2digit) false false false false None None in
   let fourth := Intl.mkFormat (fun _ => [mkPart p_day "04"]) in
   let registry :=
     Rendering.onRegister "day" (Rendering.updaterOf 1)
       (Rendering.onRegister "day" (Rendering.updaterOf 0)
          (Rendering.onRegister "day" (Rendering.updaterOf 0) ∅)) in
   let page : Rendering.Elements :=
     {[ 0%nat := DigitalClock.flip_cell
                   (Rendering.rerender (DigitalClock.d_string "3") (DigitalClock.d_string "0")
                      (DigitalClock.mount (DigitalClock.d_string "3")));
        1%nat := DigitalClock.flip_cell (DigitalClock.mount (DigitalClock.d_string "3")) ]} in
   let first :=
     Rendering.applyTick P clock (DigitalClock.enabledUnits days) days
       (Rendering.mkRefs registry true) fourth page in
   let second :=
     Rendering.applyTick P clock (DigitalClock.enabledUnits days) days (snd first) fourth
       (fst first) in
   fst first !! 0%nat =
     Some (DigitalClock.flip_cell (DigitalClock.mount (DigitalClock.d_string "4"))) /\
   fst second !! 0%nat =
     Some (DigitalClock.flip_cell
             (DigitalClock.updateDigit (DigitalClock.d_string "0") None
                (DigitalClock.mount (DigitalClock.d_string "4")))) /\
   fst second !! 1%nat =
     Some (DigitalClock.flip_cell (DigitalClock.mount (DigitalClock.d_string "3")))).
Proof.
  split.
  - intros registry firstRun page Hdup. cbv zeta.
    rewrite applyTick_elements. cbn [fst snd Rendering.firstRunRef].
    split; [reflexivity|]. rewrite applyTick_elements. cbn [fst].
    set (calls := Rendering.calledElements P clock show
                    (DigitalClock.extractParts clock fmt) registry enabled) in *.
    apply map_eq. intros e.
    destruct (decide (e ∈ calls.*1)) as [Hin|Hnot].
    + apply list_elem_of_fmap in Hin as ([e' d] & -> & Hin). cbn [fst].
      pose proof (calls_lookup_called (tickOpts firstRun) calls page e' d Hdup Hin) as H1.
      etransitivity; [apply (calls_lookup_called (tickOpts false) calls _ e' d Hdup Hin)|].
      etransitivity; [|symmetry; exact H1]. rewrite H1.
      destruct (page !! e') as [c|]; [|reflexivity].
      cbn. f_equal. apply call_updater_again.
    + rewrite !calls_lookup_other by exact Hnot. reflexivity.
  - cbv zeta. repeat split; vm_compute; reflexivity.
Qed.

Lemma applyTick_idempotent_distinct_witness :
  let show := DigitalClock.mkShow DigitalClock.hf24 false None false None false None
                false true false false None None in
  let fmt := Intl.mkFormat (fun _ => [mkPart p_minute "5"]) in
  let registry : gmap string (list nat) := {[ "minute" := [7%nat; 8%nat] ]} in
  let page : Rendering.Elements :=
    {[ 7%nat := DigitalClock.flip_cell (DigitalClock.mount (DigitalClock.d_string "4"));
       8%nat := DigitalClock.span_cell (DigitalClock.mkSpan "9") ]} in
  let first :=
    Rendering.applyTick refPlatform (mkDate 1762160707250) (DigitalClock.enabledUnits show)
      show (Rendering.mkRefs (Rendering.updatersOf registry) false) fmt page in
  fst (Rendering.applyTick refPlatform (mkDate 1762160707250) (DigitalClock.enabledUnits show)
         show (snd first) fmt (fst first)) = fst first.
Proof.
  intros show fmt registry page.
  refine (proj2 (proj1 (applyTick_idempotent_distinct refPlatform (mkDate 1762160707250)
                          (DigitalClock.enabledUnits show) show fmt) registry false page _)).
  vm_compute. repeat constructor; intros H; apply list_elem_of_In in H; simpl in H;
    intuition discriminate.
Defined.

Lemma shown_after_immediate (c : DigitalClock.Cell) (d : string) :
  Rendering.showsCurrent c ->
  DigitalClock.displayed
    (DigitalClock.call_updater c (DigitalClock.d_string d) (tickOpts true)) = Some d.
Proof.
  destruct c as [st|el]; simpl; [|reflexivity].
  intros Hfront. unfold DigitalClock.updateDigit.
  destruct (DigitalClock.strict_eq (DigitalClock.d_string d) (DigitalClock.currentRef st))
    eqn:E.
  - apply strict_eq_true in E. rewrite Hfront, <- E. reflexivity.
  - simpl. rewrite Hfront. reflexivity.
Qed.

(** The first tick brings the page in line with the clock: every
    element it calls that is a span, or a flip digit whose front face
    shows its current value, displays the digit it was handed, provided
    no element is written through two of the updaters the tick calls. *)
Theorem applyTick_first_run_syncs_distinct (P : Platform) (clock : Date)
    (enabled : list DigitalClock.UnitKey) (show : DigitalClock.Show)
    (registry : gmap string (list nat)) (fmt : DateTimeFormat) (page : Rendering.Elements)
    (e : nat) (d : string) (c : DigitalClock.Cell) :
  NoDup (Rendering.calledElements P clock show (DigitalClock.extractParts clock fmt)
           registry enabled).*1 ->
  (e, d) ∈ Rendering.calledElements P clock show (DigitalClock.extractParts clock fmt)
             registry enabled ->
  page !! e = Some c ->
  Rendering.showsCurrent c ->
  exists c',
    fst (Rendering.applyTick P clock enabled show
           (Rendering.mkRefs (Rendering.updatersOf registry) true) fmt page) !! e = Some c' /\
    DigitalClock.displayed c' = Some d.
Proof.
  intros Hdup Hin Hpage Hshows. rewrite applyTick_elements. cbn [fst].
  eexists. split.
  - etransitivity; [apply (calls_lookup_called (tickOpts true) _ page e d Hdup Hin)|].
    rewrite Hpage. reflexivity.
  - apply shown_after_immediate, Hshows.
Qed.

Lemma applyTick_first_run_syncs_distinct_witness :
  let show := DigitalClock.mkShow DigitalClock.hf24 false None false None false None
                false true false false None None in
  let fmt := Intl.mkFormat (fun _ => [mkPart p_minute "5"]) in
  let registry : gmap string (list nat) := {[ "minute" := [7%nat; 8%nat] ]} in
  let page : Rendering.Elements :=
    {[ 7%nat := DigitalClock.flip_cell (DigitalClock.mount (DigitalClock.d_string "4"));
       8%nat := DigitalClock.span_cell (DigitalClock.mkSpan "9") ]} in
  exists c',
    fst (Rendering.applyTick refPlatform (mkDate 1762160707250)
           (DigitalClock.enabledUnits show) show
           (Rendering.mkRefs (Rendering.updatersOf registry) true) fmt page) !! 7%nat =
      Some c' /\
    DigitalClock.displayed c' = Some "0".
Proof.
  intros show fmt registry page.
  eapply (applyTick_first_run_syncs_distinct refPlatform (mkDate 1762160707250)
            (DigitalClock.enabledUnits show) show registry fmt page 7 "0").
  - vm_compute. repeat constructor; intros H; apply list_elem_of_In in H; simpl in H;
      intuition discriminate.
  - vm_compute. apply list_elem_of_here.
  - reflexivity.
  - reflexivity.
Defined.


(** ** The registry with one cell per updater *)

Lemma alter_cell (opts : option DigitalClock.UpdateOpts) (d : string)
    (cells : list DigitalClock.Cell) (n : nat) :
  alter (fun c => DigitalClock.call_updater c (DigitalClock.d_string d) opts) n cells =
  match cells !! n with
  | None => cells
  | Some c => <[n := DigitalClock.call_updater c (DigitalClock.d_string d) opts]> cells
  end.
Proof.
  apply list_eq. intros i. destruct (cells !! n) as [c|] eqn:E.
  - destruct (decide (n = i)) as [->|Hne].
    + rewrite list_lookup_alter_eq, list_lookup_insert_eq by (eapply lookup_lt_Some; eauto).
      rewrite E. reflexivity.
    + rewrite list_lookup_alter_ne, list_lookup_insert_ne by exact Hne. reflexivity.
  - destruct (decide (n = i)) as [->|Hne].
    + rewrite list_lookup_alter_eq, E. reflexivity.
    + rewrite list_lookup_alter_ne by exact Hne. reflexivity.
Qed.

Lemma own_digits (opts : option DigitalClock.UpdateOpts) (key : string) (m : nat)
    (digits : list string) (cells : list DigitalClock.Cell)
    (registry : gmap string (list DigitalClock.Cell)) :
  registry !! key = Some cells -> length cells = m ->
  fold_left
    (fun (page : gmap string (list DigitalClock.Cell)) (id : Z * string) =>
       let '(idx, d) := id in
       match (Rendering.ownUpdater key <$> seq 0 m) !! Z.to_nat idx with
       | None => page
       | Some updater => updater (DigitalClock.d_string d) opts page
       end)
    (DateText.indexed digits) registry =
  <[key := updateCells opts digits cells]> registry.
Proof.
  intros Hreg Hlen. induction digits as [|d digits IH] using rev_ind.
  - simpl. symmetry. apply insert_id. exact Hreg.
  - rewrite indexed_snoc, fold_left_app, IH. cbn [fold_left].
    rewrite Nat2Z.id, list_lookup_fmap, updateCells_snoc. cbv zeta.
    destruct (decide (length digits < m)%nat) as [Hlt|Hge].
    + rewrite lookup_seq_lt by exact Hlt. cbn. unfold Rendering.ownUpdater.
      apply map_eq. intros key'. destruct (decide (key = key')) as [<-|Hne].
      * rewrite lookup_alter_eq, !lookup_insert_eq. cbn. f_equal. apply alter_cell.
      * rewrite lookup_alter_ne, !lookup_insert_ne by exact Hne. reflexivity.
    + rewrite lookup_seq_ge by lia. cbn.
      rewrite (lookup_ge_None_2 (updateCells opts digits cells)); [reflexivity|].
      rewrite updateCells_length. lia.
Qed.

Section OwnCells.
Variables (P : Platform) (clock : Date) (show : DigitalClock.Show) (fmt : DateTimeFormat)
          (registry : gmap string (list DigitalClock.Cell)) (firstRun : bool).

Lemma own_pass (enabled : list DigitalClock.UnitKey)
    (page : gmap string (list DigitalClock.Cell)) :
  (forall key, length <$> (page !! key) = length <$> (registry !! key)) ->
  fst (Rendering.applyTick P clock enabled show
         (Rendering.mkRefs (Rendering.ownUpdaters registry) firstRun) fmt page) =
  fold_left
    (tickUnit P clock show (DigitalClock.extractParts clock fmt) (tickOpts firstRun))
    enabled page.
Proof.
  unfold Rendering.applyTick. cbn [fst Rendering.firstRunRef Rendering.digitUpdatersRef].
  replace (default clock (if firstRun then None else Some clock)) with clock
    by (destruct firstRun; reflexivity).
  fold (tickOpts firstRun).
  revert page. induction enabled as [|k enabled IH]; intros page Hshape; [reflexivity|].
  cbn [fold_left].
  set (key := DigitalClock.unit_name k).
  assert (Hstep :
    match Rendering.ownUpdaters registry !! key with
    | None => page
    | Some updaters =>
        fold_left
          (fun (page : gmap string (list DigitalClock.Cell)) (id : Z * string) =>
             let '(idx, d) := id in
             match updaters !! Z.to_nat idx with
             | None => page
             | Some updater => updater (DigitalClock.d_string d) (tickOpts firstRun) page
             end)
          (DateText.indexed
             (DigitalClock.tickDigits P clock show (DigitalClock.extractParts clock fmt) k))
          page
    end =
    tickUnit P clock show (DigitalClock.extractParts clock fmt) (tickOpts firstRun) page k).
  { unfold Rendering.ownUpdaters, tickUnit. fold key. rewrite map_lookup_imap.
    pose proof (Hshape key) as Hkey.
    destruct (registry !! key) as [cells0|], (page !! key) as [cells|] eqn:Hpage;
      try discriminate; cbn; [|reflexivity].
    apply (own_digits _ key _ _ cells); [exact Hpage|].
    cbn in Hkey. congruence. }
  rewrite Hstep. apply IH. intros key'.
  rewrite tickUnit_alter, lookup_alter. case_decide; [|apply Hshape].
  subst key'. rewrite <- Hshape.
  destruct (page !! DigitalClock.unit_name k); [|reflexivity].
  cbn. rewrite updateCells_length. reflexivity.
Qed.

End OwnCells.

(** [DigitalClock.applyTick], which keeps the state of every updater
    in the registry, is [Rendering.applyTick] on a registry in which
    the updater at each index of each key writes to a cell of its own. *)
Lemma applyTick_own_cells (P : Platform) (clock : Date)
    (enabled : list DigitalClock.UnitKey) (show : DigitalClock.Show)
    (refs : DigitalClock.TickRefs) (fmt : DateTimeFormat) :
  let own := Rendering.ownUpdaters (DigitalClock.digitUpdatersRef refs) in
  let refs' := DigitalClock.applyTick P clock enabled show refs fmt in
  Rendering.applyTick P clock enabled show
    (Rendering.mkRefs own (DigitalClock.firstRunRef refs)) fmt
    (DigitalClock.digitUpdatersRef refs) =
  (DigitalClock.digitUpdatersRef refs',
   Rendering.mkRefs own (DigitalClock.firstRunRef refs')).
Proof.
  cbv zeta. rewrite applyTick_unfold. cbn [DigitalClock.digitUpdatersRef DigitalClock.firstRunRef].
  rewrite <- (own_pass P clock show fmt (DigitalClock.digitUpdatersRef refs)
                (DigitalClock.firstRunRef refs) enabled) by reflexivity.
  unfold Rendering.applyTick. cbn [fst Rendering.firstRunRef Rendering.digitUpdatersRef].
  destruct (DigitalClock.firstRunRef refs); reflexivity.
Qed.

(** ** The sections of the digital clock *)

Lemma tickDigits_single (P : Platform) (now : Date) (show : DigitalClock.Show)
    (parts : gmap string string) (k : DigitalClock.UnitKey) :
  Forall (fun d => String.length d = 1%nat) (DigitalClock.tickDigits P now show parts k).
Proof. unfold DigitalClock.tickDigits. apply split_chars_single. Qed.

Lemma tickDigits_time_unit (P : Platform) (now : Date) (show : DigitalClock.Show)
    (parts : gmap string string) (k : DigitalClock.UnitKey) :
  DigitalClock.is_time_unit k = true ->
  length (DigitalClock.tickDigits P now show parts k) <> 1%nat.
Proof.
  intros Hk. unfold DigitalClock.tickDigits. rewrite split_chars_length, Hk.
  match goal with
  | |- String.length (if true && DigitalClock.has_length_1 ?v then _ else _) <> _ =>
      generalize v; intros val
  end.
  cbn [andb]. unfold DigitalClock.has_length_1.
  destruct (Z.of_nat (String.length val) =? 1) eqn:E.
  - apply (pad2_length_ne val).
  - apply Z.eqb_neq in E. lia.
Qed.

(** [buildInitialSections] renders one section per enabled unit, in
    the order given, whose digits are single characters and are the
    digits the tick computes for the same instant; an hour, a minute or
    a second never has exactly one digit. *)
Theorem buildInitialSections_shape (P : Platform) (now : Date)
    (enabled : list DigitalClock.UnitKey) (show : DigitalClock.Show) (fmt : DateTimeFormat) :
  let sections := DigitalClock.buildInitialSections P now enabled show fmt in
  fst <$> sections = enabled /\
  Forall (fun section =>
            snd section =
              DigitalClock.tickDigits P now show (DigitalClock.extractParts now fmt)
                (fst section) /\
            Forall (fun d => String.length d = 1%nat) (snd section) /\
            (DigitalClock.is_time_unit (fst section) = true ->
             length (snd section) <> 1%nat)) sections.
Proof.
  cbv zeta. rewrite buildInitialSections_tickDigits. split.
  - rewrite <- list_fmap_compose. apply list_fmap_id.
  - apply Forall_fmap. apply Forall_forall. intros k _. simpl.
    split; [reflexivity|]. split; [apply tickDigits_single|].
    apply tickDigits_time_unit.
Qed.

(** When the formatter yields no day period (or an empty one), the
    AM/PM section reads AM before noon and PM from noon on by the hour
    of the runtime's own time zone. *)
Theorem am_pm_fallback_reads_runtime_hour (P : Platform) (now : Date)
    (show : DigitalClock.Show) (parts : gmap string string) :
  truthy_string (parts !! "hours_am_pm") = false ->
  DigitalClock.tickDigits P now show parts DigitalClock.u_hours_am_pm =
  if HourFromTime (LocalTime P (getTime now)) <? 12 then ["A"; "M"] else ["P"; "M"].
Proof.
  intros Hnone. unfold DigitalClock.tickDigits, or_string. simpl. rewrite Hnone.
  unfold getHours. destruct (HourFromTime (LocalTime P (getTime now)) <? 12); reflexivity.
Qed.

Lemma am_pm_fallback_reads_runtime_hour_witness :
  let show := DigitalClock.mkShow DigitalClock.hf12 false None false None false None
                false true false true None None in
  let now := mkDate 1761953400000 in
  exists fmt,
    DigitalClock.buildDateFormatter refPlatform (Some "en-US") (Some "Asia/Tokyo") show =
      Normal fmt /\
    DigitalClock.tickDigits refPlatform now show (DigitalClock.extractParts now fmt)
      DigitalClock.u_hours_am_pm = ["P"; "M"] /\
    HourFromTime (getTime now + 9 * msPerHour) = 8.
Proof.
  intros show now. eexists. split; [reflexivity|]. split; [|reflexivity].
  rewrite am_pm_fallback_reads_runtime_hour by (vm_compute; reflexivity).
  reflexivity.
Defined.

(** ** What the widgets keep of the formatter's parts *)

Lemma last_snoc_filter {A} (p : A -> bool) (l : list A) (x : A) :
  last (List.filter p (l ++ [x])) = if p x then Some x else last (List.filter p l).
Proof.
  rewrite List.filter_app. simpl. destruct (p x).
  - apply last_snoc.
  - rewrite app_nil_r. reflexivity.
Qed.

Lemma fold_left_pointwise {A B} (f g : A -> B -> A) (l : list B) (a : A) :
  (forall x y, f x y = g x y) -> fold_left f l a = fold_left g l a.
Proof.
  intros H. revert a. induction l as [|y l IH]; intros a; [reflexivity|].
  simpl. rewrite H. apply IH.
Qed.

Lemma digital_extractParts_slots (d : Date) (fmt : DateTimeFormat) :
  DigitalClock.extractParts d fmt =
  fold_left
    (fun (out : gmap string string) p =>
       match slot (type p) with
       | Some key => <[key := value p]> out
       | None => out
       end)
    (formatToParts fmt d) ∅.
Proof.
  unfold DigitalClock.extractParts. apply fold_left_pointwise.
  intros out [t v]. destruct t; reflexivity.
Qed.

(** The digital clock keeps, under each key, the value of the last
    part stored there: year, month, hour, minute and second under their
    own names, the day of the month and the weekday both under "day",
    the day period under "hours_am_pm"; literals are dropped and no
    other key is ever written. *)
Theorem digital_extractParts_lookup (d : Date) (fmt : DateTimeFormat) (key : string) :
  DigitalClock.extractParts d fmt !! key =
  value <$> last (List.filter (fun p => bool_decide (slot (type p) = Some key))
                    (formatToParts fmt d)).
Proof.
  rewrite digital_extractParts_slots. generalize (formatToParts fmt d). intros parts.
  induction parts as [|p parts IH] using rev_ind; [apply lookup_empty|].
  rewrite fold_left_app, last_snoc_filter. cbn [fold_left].
  destruct (slot (type p)) as [k|].
  - destruct (decide (k = key)) as [->|Hne].
    + rewrite bool_decide_eq_true_2 by reflexivity. apply lookup_insert_eq.
    + rewrite bool_decide_eq_false_2 by congruence.
      rewrite lookup_insert_ne by exact Hne. exact IH.
  - rewrite bool_decide_eq_false_2 by discriminate. exact IH.
Qed.

(** The date text keeps, for each of year, month, day and weekday, the
    value of the last part of that type, and nothing when the formatter
    yields no such part. *)
Theorem dateText_extractParts_lookup (d : Date) (fmt : DateTimeFormat)
    (k : DateText.DatePartKey) :
  DateText.get_part k (DateText.extractParts d fmt) =
  value <$> last (List.filter (fun p => PartType_eqb (type p) (partType k))
                    (formatToParts fmt d)).
Proof.
  unfold DateText.extractParts. generalize (formatToParts fmt d). intros parts.
  induction parts as [|p parts IH] using rev_ind; [destruct k; reflexivity|].
  rewrite fold_left_app, last_snoc_filter. cbn [fold_left].
  destruct p as [t v]. cbn [type value].
  set (out := fold_left _ parts DateText.no_parts) in *.
  destruct t, k; simpl; try exact IH; reflexivity.
Qed.

(** ** The faces of a flip digit *)

Lemma flipStates_faces (st : DigitalClock.FlipDigit) :
  DigitalClock.flipStates st ->
  exists c n,
    DigitalClock.currentRef st = DigitalClock.d_string c /\
    DigitalClock.nextRef st = DigitalClock.d_string n /\
    DigitalClock.frontRef st = Some c /\ DigitalClock.currentBelowRef st = Some c /\
    DigitalClock.nextAboveRef st = Some n /\ DigitalClock.backRef st = Some n /\
    (DigitalClock.flipped st = false -> n = c).
Proof.
  induction 1 as [d|st d opts Hst (c & n & Hc & Hn & Hf & Hb & Ha & Hk & Hflip)
                 |st Hst (c & n & Hc & Hn & Hf & Hb & Ha & Hk & Hflip)].
  - exists d, d. repeat split.
  - unfold DigitalClock.updateDigit. rewrite Hc. simpl.
    destruct (String.eqb d c) eqn:E.
    + exists c, n. repeat split; assumption.
    + destruct (DigitalClock.is_immediate opts); simpl.
      * exists d, d. rewrite Hf, Hb, Ha, Hk. repeat split.
      * exists c, d. rewrite Ha, Hk. repeat split; try assumption. discriminate.
  - exists n, n. simpl. rewrite Hn, Hf, Hb. repeat split; assumption.
Qed.

Lemma transitionEnd_settles (st : DigitalClock.FlipDigit) :
  DigitalClock.flipStates st ->
  DigitalClock.handleTransitionEnd st = DigitalClock.mount (DigitalClock.nextRef st).
Proof.
  intros Hst. destruct (flipStates_faces st Hst) as (c & n & Hc & Hn & Hf & Hb & Ha & Hk & Hflip).
  unfold DigitalClock.handleTransitionEnd, DigitalClock.mount.
  rewrite Hn, Hf, Hb, Ha, Hk. reflexivity.
Qed.

(** In every state a flip digit reaches, the front face and the lower
    half show the current value and the upper half and the back face
    show the value it is flipping to; while the card is not flipped all
    four show the same value; and when the transition ends all four
    show the value last flipped to, with the card back in place. *)
Theorem flip_digit_faces (st : DigitalClock.FlipDigit) :
  DigitalClock.flipStates st ->
  DigitalClock.frontRef st = Some (DigitalClock.String_of (DigitalClock.currentRef st)) /\
  DigitalClock.currentBelowRef st = Some (DigitalClock.String_of (DigitalClock.currentRef st)) /\
  DigitalClock.nextAboveRef st = Some (DigitalClock.String_of (DigitalClock.nextRef st)) /\
  DigitalClock.backRef st = Some (DigitalClock.String_of (DigitalClock.nextRef st)) /\
  (DigitalClock.flipped st = false -> DigitalClock.nextRef st = DigitalClock.currentRef st) /\
  DigitalClock.handleTransitionEnd st = DigitalClock.mount (DigitalClock.nextRef st).
Proof.
  intros Hst. destruct (flipStates_faces st Hst) as (c & n & Hc & Hn & Hf & Hb & Ha & Hk & Hflip).
  rewrite Hc, Hn. simpl. repeat split; try assumption.
  - intros Hu. rewrite (Hflip Hu). reflexivity.
  - unfold DigitalClock.handleTransitionEnd, DigitalClock.mount.
    rewrite Hn, Hf, Hb, Ha, Hk. reflexivity.
Qed.

Lemma flip_digit_faces_witness :
  DigitalClock.handleTransitionEnd
    (DigitalClock.updateDigit (DigitalClock.d_string "7") None
       (DigitalClock.mount (DigitalClock.d_string "6"))) =
  DigitalClock.mount (DigitalClock.d_string "7").
Proof.
  refine (proj2 (proj2 (proj2 (proj2 (proj2 (flip_digit_faces _ _)))))).
  apply DigitalClock.flip_updated, DigitalClock.flip_mounted.
Defined.

Lemma updateDigit_current (st : DigitalClock.FlipDigit)
    (opts : option DigitalClock.UpdateOpts) :
  DigitalClock.updateDigit (DigitalClock.currentRef st) opts st = st.
Proof. unfold DigitalClock.updateDigit. rewrite strict_eq_refl. reflexivity. Qed.

(** A request for a new value starts a flip towards it, whatever flip
    was pending; a request for the value the front face still shows is
    dropped, so a pending flip towards another value is not cancelled
    and ends on that other value. *)
Theorem flip_request_during_flip (st : DigitalClock.FlipDigit) (c n d : string) :
  DigitalClock.flipStates st ->
  DigitalClock.currentRef st = DigitalClock.d_string c ->
  DigitalClock.nextRef st = DigitalClock.d_string n ->
  (d <> c ->
   DigitalClock.handleTransitionEnd
     (DigitalClock.updateDigit (DigitalClock.d_string d) None st) =
   DigitalClock.mount (DigitalClock.d_string d)) /\
  DigitalClock.handleTransitionEnd
    (DigitalClock.updateDigit (DigitalClock.d_string c) None st) =
  DigitalClock.mount (DigitalClock.d_string n).
Proof.
  intros Hst Hc Hn. split.
  - intros Hne.
    assert (Hst' : DigitalClock.flipStates
                     (DigitalClock.updateDigit (DigitalClock.d_string d) None st))
      by (apply DigitalClock.flip_updated, Hst).
    rewrite (transitionEnd_settles _ Hst').
    f_equal. unfold DigitalClock.updateDigit. rewrite Hc. simpl.
    replace (String.eqb d c) with false by (symmetry; apply String.eqb_neq; exact Hne).
    reflexivity.
  - rewrite <- Hc, updateDigit_current.
    rewrite (transitionEnd_settles _ Hst), Hn.
    reflexivity.
Qed.

Lemma flip_request_during_flip_witness :
  let pending := DigitalClock.updateDigit (DigitalClock.d_string "2") None
                   (DigitalClock.mount (DigitalClock.d_string "1")) in
  DigitalClock.handleTransitionEnd
    (DigitalClock.updateDigit (DigitalClock.d_string "3") None pending) =
  DigitalClock.mount (DigitalClock.d_string "3") /\
  DigitalClock.handleTransitionEnd
    (DigitalClock.updateDigit (DigitalClock.d_string "1") None pending) =
  DigitalClock.mount (DigitalClock.d_string "2").
Proof.
  intros pending.
  destruct (flip_request_during_flip pending "1" "2" "3") as [Hnew Hsame].
  - apply DigitalClock.flip_updated, DigitalClock.flip_mounted.
  - reflexivity.
  - reflexivity.
  - split; [apply Hnew; discriminate | exact Hsame].
Defined.

(** ** A flip digit that React renders again *)



(** ** DateText: hidden fields, the display and the preset field *)

Lemma is_true_truthy (b : option bool) : DateTextUI.is_true b = truthy_bool b.
Proof. destruct b as [[]|]; reflexivity. Qed.

Lemma sameVisible_parts (f g : DateText.Format) :
  DateTextUI.sameVisible f g ->
  (forall P locale timezone,
     DateText.buildFormatter P locale timezone f = DateText.buildFormatter P locale timezone g) /\
  DateText.ordinalDay f = DateText.ordinalDay g /\
  DateText.buildSequence f = DateText.buildSequence g.
Proof.
  destruct f as [pf yf yff mf mff df dff wf wff sf], g as [pg yg ygf mg mgf dg dgf wg wgf sg].
  unfold DateTextUI.sameVisible, DateTextUI.visible_switch, DateTextUI.visible_yearFormat,
    DateTextUI.visible_monthFormat, DateTextUI.visible_dayFormat,
    DateTextUI.visible_weekdayFormat, DateText.is_custom.
  rewrite !is_true_truthy. cbn [DateText.preset DateText.year DateText.month DateText.day
    DateText.weekday DateText.separatorStyle DateText.yearFormat DateText.monthFormat
    DateText.dayFormat DateText.weekdayFormat].
  intros (Hp & Hs & Hy & Hm & Hd & Hw). subst pg.
  unfold DateText.buildFormatter, DateText.ordinalDay, DateText.buildSequence,
    DateText.is_custom.
  cbn [DateText.preset DateText.year DateText.month DateText.day
    DateText.weekday DateText.separatorStyle DateText.yearFormat DateText.monthFormat
    DateText.dayFormat DateText.weekdayFormat].
  destruct (String.eqb pf "custom"); cbn [negb andb] in *.
  - destruct (Hs eq_refl) as (-> & -> & -> & -> & ->).
    destruct (truthy_bool yg) eqn:Ey; [rewrite (Hy eq_refl)|];
      (destruct (truthy_bool mg) eqn:Em; [rewrite (Hm eq_refl)|]);
      (destruct (truthy_bool dg) eqn:Ed; [rewrite (Hd eq_refl)|]);
      (destruct (truthy_bool wg) eqn:Ew; [rewrite (Hw eq_refl)|]);
      cbn [andb]; repeat split; try reflexivity; intros;
      repeat match goal with
        | |- context [match ?x with Some _ => _ | None => _ end] => destruct x
        end; reflexivity.
  - repeat split; reflexivity.
Qed.

(** The fields that the form hides have no effect: two formats with
    the same preset and the same values in the visible fields (the
    switches and the separator only for the custom preset, the format
    of a part only while its switch is on) have the same sequence, the
    same tick and the same preview. *)
Theorem hidden_fields_have_no_effect (P : Platform) (date : Date)
    (locale timezone : option string) (f g : DateText.Format) :
  DateTextUI.sameVisible f g ->
  DateText.buildSequence f = DateText.buildSequence g /\
  (forall fmt, DateText.tick P date fmt f = DateText.tick P date fmt g) /\
  DateText.composePreview P date locale timezone f =
  DateText.composePreview P date locale timezone g.
Proof.
  intros H. destruct (sameVisible_parts f g H) as (Hfmt & Hord & Hseq).
  split; [exact Hseq|]. split.
  - intros fmt. unfold DateText.tick. rewrite Hord. reflexivity.
  - unfold DateText.composePreview. rewrite Hfmt, Hord, Hseq. reflexivity.
Qed.

Lemma hidden_fields_have_no_effect_witness :
  DateText.composePreview refPlatform (mkDate 1762160707000) (Some "en-US") (Some "UTC")
    (DateText.mkFormat "iso" (Some true) (Some two_digit) None None (Some true)
       (Some DateText.df_ordinal) None None (Some DateText.slash)) =
  DateText.composePreview refPlatform (mkDate 1762160707000) (Some "en-US") (Some "UTC")
    (DateText.preset_only "iso").
Proof.
  apply hidden_fields_have_no_effect. repeat split; discriminate.
Defined.

Lemma textContent_app (spacer : string) (a b : list DateTextUI.Node) :
  DateTextUI.textContent spacer (a ++ b) =
  DateTextUI.textContent spacer a +:+ DateTextUI.textContent spacer b.
Proof.
  induction a as [|n a IH]; [reflexivity|].
  simpl. rewrite IH, string_app_assoc. reflexivity.
Qed.

Lemma renderNodes_snoc (up : string -> string) (uppercase : bool)
    (parts : DateText.PartValueMap) (seq : list DateText.SeqToken) (t : DateText.SeqToken) :
  DateTextUI.renderNodes up uppercase parts (seq ++ [t]) =
  DateTextUI.renderNodes up uppercase parts seq ++
  match t with
  | DateText.part key =>
      (if DateTextUI.isPart (last seq) then [DateTextUI.space_div] else []) ++
      [DateTextUI.part_div key
         (if uppercase then up (or_string (DateText.get_part key parts) "")
          else or_string (DateText.get_part key parts) "")]
  | DateText.sep s => [DateTextUI.sep_div s]
  end.
Proof.
  unfold DateTextUI.renderNodes. rewrite imap_app, concat_app. f_equal.
  - f_equal. apply imap_ext. intros i x Hx. destruct x as [key|s]; [|reflexivity].
    rewrite lookup_app_l; [reflexivity|]. apply lookup_lt_Some in Hx. lia.
  - simpl. rewrite app_nil_r, Nat.add_0_r. destruct t as [key|s]; [|reflexivity].
    f_equal. destruct seq as [|t0 seq0]; [reflexivity|].
    replace (Z.of_nat (length (t0 :: seq0)) >? 0) with true
      by (symmetry; apply Z.gtb_lt; simpl; lia).
    cbn [andb]. rewrite lookup_app_l by (simpl; lia).
    rewrite <- last_lookup. reflexivity.
Qed.

Lemma string_app_nonempty (a b : string) : a <> "" -> a +:+ b <> "".
Proof. destruct a; [contradiction | intros _; discriminate]. Qed.

Lemma string_nonempty_length (a : string) :
  a <> "" -> (Z.of_nat (String.length a) >? 0) = true.
Proof. destruct a; [contradiction | intros _; apply Z.gtb_lt; simpl; lia]. Qed.

Lemma or_string_truthy (a : option string) (b : string) :
  truthy_string a = true -> or_string a b <> "".
Proof.
  unfold or_string. intros H. rewrite H. destruct a as [s|]; [|discriminate].
  simpl in *. intros ->. discriminate.
Qed.

Lemma startsShown_prefix (parts : DateText.PartValueMap) (seq : list DateText.SeqToken)
    (t : DateText.SeqToken) :
  DateTextUI.startsShown parts (seq ++ [t]) -> DateTextUI.startsShown parts seq.
Proof. destruct seq; [intros _; exact I | exact id]. Qed.

(** The loop of [composePreview] and the markup of [Render] agree. *)
Lemma preview_loop_rendered (up : string -> string) (parts : DateText.PartValueMap)
    (seq : list DateText.SeqToken) :
  DateTextUI.startsShown parts seq ->
  let st :=
    fold_left
      (fun (st : string * bool) token =>
         let '(out, lastWasPart) := st in
         match token with
         | DateText.part key =>
             let v := or_string (DateText.get_part key parts) "" in
             let out :=
               if lastWasPart && (Z.of_nat (String.length out) >? 0)
               then out +:+ " " else out in
             (out +:+ v, true)
         | DateText.sep s => (out +:+ s, false)
         end)
      seq ("", false) in
  fst st = DateTextUI.textContent " " (DateTextUI.renderNodes up false parts seq) /\
  snd st = DateTextUI.isPart (last seq) /\
  (seq <> [] -> fst st <> "").
Proof.
  induction seq as [|t seq IH] using rev_ind; intros Hshown.
  - cbv zeta. simpl. repeat split. congruence.
  - specialize (IH (startsShown_prefix parts seq t Hshown)). cbv zeta in IH |- *.
    rewrite fold_left_app, renderNodes_snoc, textContent_app, last_snoc. cbn [fold_left].
    match type of IH with
    | context [fold_left ?f seq ?s] => destruct (fold_left f seq s) as [out lw]
    end.
    cbn [fst snd] in IH |- *. destruct IH as (Hout & Hlw & Hne).
    destruct t as [key|s]; cbn [fst snd DateTextUI.isPart].
    + split; [|split; [reflexivity|]].
      * rewrite <- Hlw, <- Hout. destruct lw; cbn [andb].
        -- assert (Hseq : seq <> []) by (intros ->; simpl in Hlw; discriminate).
           rewrite (string_nonempty_length out (Hne Hseq)).
           simpl. rewrite string_app_nil_r, string_app_assoc. reflexivity.
        -- simpl. rewrite string_app_nil_r. reflexivity.
      * intros _. destruct seq as [|t0 seq0].
        -- simpl in Hout. subst out. simpl in Hlw. subst lw. cbn [andb].
           simpl in Hshown. apply (or_string_truthy _ "") in Hshown. exact Hshown.
        -- assert (Hq : out <> "") by (apply Hne; discriminate).
           destruct (lw && (Z.of_nat (String.length out) >? 0)).
           ++ rewrite string_app_assoc. apply string_app_nonempty, Hq.
           ++ apply string_app_nonempty, Hq.
    + split; [|split; [reflexivity|]].
      * rewrite <- Hout. simpl. rewrite string_app_nil_r. reflexivity.
      * intros _. destruct seq as [|t0 seq0].
        -- simpl in Hout. subst out. simpl in Hshown. destruct s; [contradiction|discriminate].
        -- apply string_app_nonempty, Hne. discriminate.
Qed.

(** The preview is the text [Render] shows after a tick at the same
    instant, reading each spacer as one space, when text is not
    uppercased and the first token of the sequence is not empty. *)
Theorem preview_is_rendered_text (P : Platform) (up : string -> string) (date : Date)
    (locale timezone : option string) (f : DateText.Format)
    (fmt : DateTimeFormat) (parts : DateText.PartValueMap) (seq : list DateText.SeqToken) :
  DateText.buildFormatter P locale timezone f = Normal fmt ->
  DateText.tick P date fmt f = Normal parts ->
  DateText.buildSequence f = Normal seq ->
  DateTextUI.startsShown parts seq ->
  DateText.composePreview P date locale timezone f =
  Normal (DateTextUI.textContent " " (DateTextUI.renderNodes up false parts seq)).
Proof.
  intros Hfmt Htick Hseq Hshown. unfold DateText.composePreview.
  rewrite Hfmt. cbn. unfold DateText.tick in Htick.
  destruct (DateText.ordinalDay f) as [ordinal|e]; [|discriminate]. cbn in Htick |- *.
  inversion Htick as [Hparts]. rewrite Hparts, Hseq. cbn. f_equal.
  exact (proj1 (preview_loop_rendered up parts seq Hshown)).
Qed.

Lemma preview_is_rendered_text_witness :
  exists fmt parts seq,
    DateText.buildFormatter refPlatform (Some "en-US") (Some "UTC")
      (DateText.preset_only "weekday_month_day_ordinal") = Normal fmt /\
    DateText.tick refPlatform (mkDate 1762160707000) fmt
      (DateText.preset_only "weekday_month_day_ordinal") = Normal parts /\
    DateTextUI.renderNodes id false parts seq =
      [DateTextUI.part_div DateText.k_weekday "Monday"; DateTextUI.sep_div ", ";
       DateTextUI.part_div DateText.k_month "November"; DateTextUI.space_div;
       DateTextUI.part_div DateText.k_day "3rd"] /\
    DateText.composePreview refPlatform (mkDate 1762160707000) (Some "en-US") (Some "UTC")
      (DateText.preset_only "weekday_month_day_ordinal") =
    Normal (DateTextUI.textContent " " (DateTextUI.renderNodes id false parts seq)).
Proof.
  eexists _, _, _. split; [reflexivity|]. split; [reflexivity|]. split.
  2:{ eapply (preview_is_rendered_text refPlatform id); reflexivity. }
  reflexivity.
Defined.

(** *** The preset field *)

Lemma mapM_Forall2 {A B} (f : A -> completion B) (l : list A) (r : list B) :
  DateTextUI.mapM f l = Normal r -> Forall2 (fun x y => f x = Normal y) l r.
Proof.
  revert r. induction l as [|x l IH]; intros r H; simpl in H.
  - inversion H. constructor.
  - destruct (f x) as [y|e] eqn:Ex; [|discriminate]. cbn in H.
    destruct (DateTextUI.mapM f l) as [ys|e]; [|discriminate]. cbn in H.
    inversion H. constructor; [exact Ex | apply IH; reflexivity].
Qed.

Lemma mapM_returns {A B} (f : A -> completion B) (l : list A) :
  (forall x, x ∈ l -> returns (f x)) -> returns (DateTextUI.mapM f l).
Proof.
  induction l as [|x l IH]; intros H; [eexists; reflexivity|].
  simpl. destruct (H x) as [y ->]; [left|]. cbn.
  destruct IH as [ys ->]; [intros z Hz; apply H; right; exact Hz|].
  eexists. reflexivity.
Qed.

Lemma counts_length (base : list (string * string)) (preview : string) :
  length
    (default []
       (fold_left
          (fun (counts : gmap string (list string)) (o : string * string) =>
             <[fst o := default [] (counts !! fst o) ++ [snd o]]> counts)
          base ∅ !! preview)) =
  DateTextUI.occurrences preview (fst <$> base).
Proof.
  unfold DateTextUI.occurrences.
  induction base as [|o base IH] using rev_ind; [reflexivity|].
  rewrite fold_left_app, fmap_app, List.filter_app, List.length_app.
  cbn [fold_left fmap list_fmap].
  destruct (decide (fst o = preview)) as [<-|Hne].
  - rewrite lookup_insert_eq. simpl. rewrite length_app, IH. simpl.
    rewrite String.eqb_refl. reflexivity.
  - rewrite lookup_insert_ne by exact Hne. rewrite IH. simpl.
    replace (String.eqb preview (fst o)) with false
      by (symmetry; apply String.eqb_neq; congruence).
    simpl. lia.
Qed.

Lemma presetOptions_values (P : Platform) (today : Date) (locale timezone : option string)
    (options : list DateTextUI.SelectOption) :
  DateTextUI.presetOptions P today locale timezone = Normal options ->
  DateTextUI.value <$> options = fst <$> DateText.PRESETS.
Proof.
  unfold DateTextUI.presetOptions. generalize (fst <$> DateText.PRESETS). intros keys.
  destruct (DateTextUI.mapM _ keys) as [base|e] eqn:Ebase; [|discriminate].
  cbn. intros [= <-]. apply mapM_Forall2 in Ebase.
  match goal with
  | |- context [fold_left ?f base ∅] => generalize (fold_left f base ∅)
  end.
  intros counts. rewrite <- list_fmap_compose.
  induction Ebase as [|key o keys base Ho _ IH]; [reflexivity|].
  rewrite fmap_cons, IH. f_equal. cbn in Ho |- *.
  destruct (DateTextUI.presetPreview P today locale timezone key); [|discriminate].
  cbn in Ho. inversion Ho. reflexivity.
Qed.

(** The preset select offers one option per preset, in the order of
    the table and with the preset key as value; its label is the
    preview of the preset, followed by a bullet and the key exactly when
    another preset has the same preview; and it is built without an
    exception whenever the platform accepts the locale and the zone. *)
Theorem presetOptions_labels (P : Platform) (today : Date) (locale timezone : option string) :
  (locale_ok P locale = true -> is_Some (resolveZone P timezone) ->
   returns (DateTextUI.presetOptions P today locale timezone)) /\
  forall options,
    DateTextUI.presetOptions P today locale timezone = Normal options ->
    DateTextUI.value <$> options = fst <$> DateText.PRESETS /\
    exists previews,
      Forall2 (fun key preview =>
                 DateTextUI.presetPreview P today locale timezone key = Normal preview)
        (fst <$> DateText.PRESETS) previews /\
      options =
      zip_with
        (fun preview key =>
           DateTextUI.mkOption
             (preview +:+
              (if (1 <? DateTextUI.occurrences preview previews)%nat
               then DateTextUI.bullet +:+ key else ""))
             key)
        previews (fst <$> DateText.PRESETS).
Proof.
  split.
  - intros Hl Hz. unfold DateTextUI.presetOptions.
    destruct (mapM_returns
                (fun key =>
                   preview ← DateTextUI.presetPreview P today locale timezone key;
                   Normal (preview, key)) (fst <$> DateText.PRESETS)) as [base ->].
    + intros key Hkey. unfold DateTextUI.presetPreview.
      destruct (String.eqb key "custom"); [eexists; reflexivity|].
      destruct (composePreview_valid P today locale timezone (DateText.preset_only key))
        as [out ->]; [|eexists; reflexivity].
      split; [apply preset_key_lookup, Hkey | split; assumption].
    + eexists. reflexivity.
  - intros options. unfold DateTextUI.presetOptions.
    generalize (fst <$> DateText.PRESETS). intros keys.
    destruct (DateTextUI.mapM _ keys) as [base|e] eqn:Ebase; [|discriminate].
    cbn. intros [= <-]. apply mapM_Forall2 in Ebase.
    assert (Hbase : Forall2 (fun key o =>
                               DateTextUI.presetPreview P today locale timezone key =
                                 Normal (fst o) /\ snd o = key) keys base).
    { eapply Forall2_impl; [exact Ebase|]. intros key o Ho. cbn in Ho.
      destruct (DateTextUI.presetPreview P today locale timezone key); [|discriminate].
      cbn in Ho. inversion Ho. split; reflexivity. }
    clear Ebase. split.
    + rewrite <- list_fmap_compose.
      clear -Hbase. induction Hbase as [|key o keys base [_ Hk] _ IH]; [reflexivity|].
      simpl. rewrite Hk. f_equal. exact IH.
    + exists (fst <$> base). split.
      * clear -Hbase. induction Hbase as [|key o keys base [Hp _] _ IH]; constructor; assumption.
      * set (counts := fold_left _ base ∅).
        assert (Hdup : forall preview,
                  (Z.of_nat (length (default [] (counts !! preview))) >? 1) =
                  (1 <? DateTextUI.occurrences preview (fst <$> base))%nat).
        { intros preview. unfold counts. rewrite counts_length, Z.gtb_ltb.
          destruct (1 <? DateTextUI.occurrences preview (fst <$> base))%nat eqn:E.
          - apply Nat.ltb_lt in E. apply Z.ltb_lt. lia.
          - apply Nat.ltb_ge in E. apply Z.ltb_ge. lia. }
        clearbody counts. revert Hdup. generalize (fst <$> base) at 1 2 as previews.
        intros previews Hdup.
        induction Hbase as [|key o keys base [_ Hk] _ IH]; [reflexivity|].
        rewrite !fmap_cons. cbn [zip_with]. rewrite IH, Hdup, Hk. reflexivity.
Qed.

Lemma presetOptions_labels_witness :
  exists options,
    DateTextUI.presetOptions refPlatform (mkDate 1746446400000) (Some "en-US") (Some "UTC") =
      Normal options /\
    DateTextUI.value <$> options = fst <$> DateText.PRESETS /\
    DateTextUI.label <$> take 6 options =
      ["Monday"; "Mon"; "5"; "5th"; "May • month_long"; "May • month_short"].
Proof.
  destruct (presetOptions_labels refPlatform (mkDate 1746446400000) (Some "en-US") (Some "UTC"))
    as [Hret Hopts].
  destruct Hret as [options Hoptions]; [reflexivity | eexists; reflexivity |].
  exists options. split; [exact Hoptions|].
  split; [exact (proj1 (Hopts options Hoptions))|].
  assert (Hc : DateTextUI.presetOptions refPlatform (mkDate 1746446400000) (Some "en-US")
                 (Some "UTC") = Normal options) by exact Hoptions.
  vm_compute in Hc. inversion Hc. reflexivity.
Defined.

(** The select shows the option of the stored value when that is a
    preset key, and otherwise, also when nothing is stored, the first
    option of the list, the preset "weekday". *)
Theorem selectedOption_fallback (P : Platform) (today : Date) (locale timezone : option string)
    (options : list DateTextUI.SelectOption) (v : option string) :
  DateTextUI.presetOptions P today locale timezone = Normal options ->
  exists o,
    DateTextUI.selectedOption options v = Some o /\
    match v with
    | Some s =>
        if bool_decide (s ∈ fst <$> DateText.PRESETS)
        then DateTextUI.value o = s
        else head options = Some o /\ DateTextUI.value o = "weekday"
    | None => head options = Some o /\ DateTextUI.value o = "weekday"
    end.
Proof.
  intros Hopts. apply presetOptions_values in Hopts.
  assert (Hhead : exists o, head options = Some o /\ DateTextUI.value o = "weekday").
  { destruct options as [|o rest]; [discriminate Hopts|].
    exists o. split; [reflexivity|]. simpl in Hopts. inversion Hopts. reflexivity. }
  unfold DateTextUI.selectedOption.
  destruct v as [s|].
  - destruct (List.find _ options) as [o|] eqn:Efind.
    + exists o. split; [reflexivity|].
      apply List.find_some in Efind as [Hin Heq]. apply String.eqb_eq in Heq.
      rewrite bool_decide_eq_true_2; [exact Heq|].
      rewrite <- Hopts, <- Heq. apply list_elem_of_fmap_2, list_elem_of_In, Hin.
    + destruct Hhead as (o & Ho & Hw). exists o. split; [exact Ho|].
      rewrite bool_decide_eq_false_2; [split; assumption|].
      rewrite <- Hopts. intros Hin. apply list_elem_of_fmap in Hin as (o' & -> & Hin).
      apply list_elem_of_In in Hin.
      pose proof (List.find_none _ _ Efind o' Hin) as Hno. cbn in Hno.
      rewrite String.eqb_refl in Hno. discriminate.
  - destruct Hhead as (o & Ho & Hw). exists o.
    replace (List.find _ options) with (@None DateTextUI.SelectOption).
    + split; [exact Ho | split; assumption].
    + symmetry. clear. induction options as [|o rest IH]; [reflexivity | exact IH].
Qed.

Lemma selectedOption_fallback_witness :
  exists options o,
    DateTextUI.presetOptions refPlatform (mkDate 1746446400000) (Some "en-US") (Some "UTC") =
      Normal options /\
    DateTextUI.selectedOption options (Some "no_such_preset") = Some o /\
    DateTextUI.value o = "weekday".
Proof.
  assert (Hex : exists options,
             DateTextUI.presetOptions refPlatform (mkDate 1746446400000) (Some "en-US")
               (Some "UTC") = Normal options) by (eexists; vm_compute; reflexivity).
  destruct Hex as [options Hoptions].
  destruct (selectedOption_fallback refPlatform (mkDate 1746446400000) (Some "en-US")
              (Some "UTC") options (Some "no_such_preset") Hoptions) as (o & Hsel & Hrest).
  exists options, o. split; [exact Hoptions|]. split; [exact Hsel|].
  exact (proj2 Hrest).
Defined.

(** ** DigitalClock: labels and colons *)






Section Layout.
Variables (u : DigitalClock.UnitKey * list string -> DigitalClockUI.LayoutNode).

Local Abbreviation placed c l :=
  (concat (imap (fun (i : nat) s =>
                   u s :: (if c i then [DigitalClockUI.colon] else [])) l)).

Lemma placed_none (c : nat -> bool) (l : list (DigitalClock.UnitKey * list string)) :
  (forall i, (i < length l)%nat -> c i = false) -> placed c l = u <$> l.
Proof.
  revert c. induction l as [|x l IH]; intros c Hc; [reflexivity|].
  rewrite imap_cons. cbn [concat]. rewrite (Hc 0%nat) by (simpl; lia).
  cbn. f_equal. apply (IH (c ∘ S)). intros i Hi. apply Hc. simpl. lia.
Qed.

Lemma placed_between (c : nat -> bool) (l : list (DigitalClock.UnitKey * list string)) :
  (forall i, (S i < length l)%nat -> c i = true) ->
  (forall i, (S i = length l)%nat -> c i = false) ->
  placed c l = intersperse DigitalClockUI.colon (u <$> l).
Proof.
  revert c. induction l as [|x l IH]; intros c Hin Hlast; [reflexivity|].
  change (placed c (x :: l))
    with ((u x :: (if c 0%nat then [DigitalClockUI.colon] else [])) ++
          placed (fun i => c (S i)) l).
  cbv beta. rewrite (IH (fun i => c (S i))).
  - destruct l as [|y l'].
    + rewrite (Hlast 0%nat) by reflexivity. reflexivity.
    + rewrite (Hin 0%nat) by (simpl; lia). reflexivity.
  - intros i Hi. apply Hin. simpl. lia.
  - intros i Hi. apply Hlast. simpl. lia.
Qed.

Lemma placed_app (c : nat -> bool) (l1 l2 : list (DigitalClock.UnitKey * list string)) :
  placed c (l1 ++ l2) = placed c l1 ++ placed (fun i => c (length l1 + i)%nat) l2.
Proof. rewrite imap_app, concat_app. reflexivity. Qed.

End Layout.

(** Colons stand between unit groups only: there is none when
    [appearance.separator] is false; otherwise there is exactly one
    between adjacent groups and none at either end, except that in
    digital mode a scaled AM/PM group at the end follows the previous
    group without a colon. *)
Theorem renderLayout_colons (styleMode : DigitalClockUI.StyleMode) (show : DigitalClock.Show)
    (labelsShow : bool) (separator : option bool) (locales : gmap string string)
    (sections : list (DigitalClock.UnitKey * list string)) :
  let unit := DigitalClockUI.unitNode styleMode show labelsShow locales in
  let layout :=
    DigitalClockUI.renderLayout styleMode show labelsShow separator locales sections in
  (separator = Some false -> layout = unit <$> sections) /\
  (separator <> Some false ->
   (forall key, key ∈ fst <$> sections ->
                DigitalClockUI.isScaledAmPm styleMode show (Some key) = false) ->
   layout = intersperse DigitalClockUI.colon (unit <$> sections)) /\
  (separator <> Some false ->
   DigitalClockUI.isScaledAmPm styleMode show (Some DigitalClock.u_hours_am_pm) = true ->
   forall init digits,
     sections = init ++ [(DigitalClock.u_hours_am_pm, digits)] ->
     DigitalClock.u_hours_am_pm ∉ fst <$> init ->
     layout =
     intersperse DigitalClockUI.colon (unit <$> init) ++
     [unit (DigitalClock.u_hours_am_pm, digits)]).
Proof.
  cbv zeta. unfold DigitalClockUI.renderLayout.
  assert (HnotAm : forall key, key <> DigitalClock.u_hours_am_pm ->
                     DigitalClockUI.isScaledAmPm styleMode show (Some key) = false)
    by (intros key Hk; destruct key; try reflexivity; contradiction).
  split; [|split].
  - intros ->. apply placed_none. intros i _. rewrite andb_false_r. reflexivity.
  - intros Hsep Hplain.
    assert (Hon : negb match separator with Some false => true | _ => false end = true)
      by (destruct separator as [[]|]; try reflexivity; contradiction).
    apply placed_between.
    + intros i Hi. rewrite Hon.
      replace (Z.of_nat i <? Z.of_nat (length sections) - 1) with true
        by (symmetry; apply Z.ltb_lt; lia).
      destruct (sections !! S i) as [[key ds]|] eqn:E.
      * cbn [fmap option_fmap option_map fst]. rewrite Hplain; [reflexivity|].
        apply list_elem_of_fmap. exists (key, ds). split; [reflexivity|].
        apply list_elem_of_lookup. exists (S i). exact E.
      * apply lookup_ge_None in E. lia.
    + intros i Hi.
      replace (Z.of_nat i <? Z.of_nat (length sections) - 1) with false
        by (symmetry; apply Z.ltb_ge; lia).
      reflexivity.
  - intros Hsep Hscaled init digits -> Hnotin.
    assert (Hon : negb match separator with Some false => true | _ => false end = true)
      by (destruct separator as [[]|]; try reflexivity; contradiction).
    rewrite placed_app. f_equal.
    + apply placed_between.
      * intros i Hi. rewrite Hon, length_app. simpl.
        replace (Z.of_nat i <? Z.of_nat (length init + 1) - 1) with true
          by (symmetry; apply Z.ltb_lt; lia).
        rewrite lookup_app_l by lia.
        destruct (init !! S i) as [[key ds]|] eqn:E.
        -- cbn [fmap option_fmap option_map fst]. rewrite HnotAm; [reflexivity|]. intros ->. apply Hnotin.
           apply list_elem_of_fmap. exists (DigitalClock.u_hours_am_pm, ds).
           split; [reflexivity|]. apply list_elem_of_lookup. exists (S i). exact E.
        -- apply lookup_ge_None in E. lia.
      * intros i Hi. rewrite length_app. simpl.
        rewrite (list_lookup_middle init [] _ (S i)) by exact Hi.
        cbn [fmap option_fmap option_map fst]. rewrite Hscaled, andb_false_r. reflexivity.
    + simpl. rewrite length_app, Nat.add_0_r. simpl.
      replace (Z.of_nat (length init) <? Z.of_nat (length init + 1) - 1) with false
        by (symmetry; apply Z.ltb_ge; lia).
      reflexivity.
Qed.

Lemma renderLayout_colons_witness :
  let show := DigitalClock.mkShow DigitalClock.hf12 false None false None false None
                true true false true (Some DigitalClock.ampm_scaled) None in
  let sections := [(DigitalClock.u_hour, ["0"; "9"]); (DigitalClock.u_minute, ["0"; "5"]);
                   (DigitalClock.u_hours_am_pm, ["A"; "M"])] in
  DigitalClockUI.renderLayout DigitalClockUI.sm_digital show false None ∅ sections =
  [DigitalClockUI.unit_time DigitalClock.u_hour false ["0"; "9"] None; DigitalClockUI.colon;
   DigitalClockUI.unit_time DigitalClock.u_minute false ["0"; "5"] None;
   DigitalClockUI.unit_time DigitalClock.u_hours_am_pm true ["A"; "M"] None] /\
  DigitalClockUI.renderLayout DigitalClockUI.sm_flip show false (Some true) ∅ sections =
  [DigitalClockUI.unit_time DigitalClock.u_hour false ["0"; "9"] None; DigitalClockUI.colon;
   DigitalClockUI.unit_time DigitalClock.u_minute false ["0"; "5"] None; DigitalClockUI.colon;
   DigitalClockUI.unit_time DigitalClock.u_hours_am_pm false ["A"; "M"] None].
Proof.
  intros show sections. split.
  - refine (proj2 (proj2 (renderLayout_colons DigitalClockUI.sm_digital show false None ∅
                            sections)) _ eq_refl
              [(DigitalClock.u_hour, ["0"; "9"]); (DigitalClock.u_minute, ["0"; "5"])]
              ["A"; "M"] eq_refl _).
    + discriminate.
    + intros H. apply list_elem_of_In in H. simpl in H.
      destruct H as [H|[H|[]]]; discriminate.
  - refine (proj1 (proj2 (renderLayout_colons DigitalClockUI.sm_flip show false (Some true) ∅
                            sections)) _ _).
    + discriminate.
    + intros key _. destruct key; reflexivity.
Defined.

(** ** AnalogClock: when the hands fall back to zero *)

(** On a platform whose formatter accepts the tags its canonicalizer
    returns, the [try] block of the analog clock throws exactly when the
    time zone it is given is unknown, whatever the language setting; in
    particular the hands start at zero when the widget is left on
    "user-settings" and the host has no time zone, because the name
    "user-settings" itself is then taken for the zone. *)
Theorem analog_fallback_is_unknown_zone {number : Type} (N : AnalogClock.NumberOps number)
    (P : Platform) (now : Date) (locale : option string) :
  (forall l canon, getCanonicalLocales P [l] = Normal canon ->
                   locale_ok P (head canon) = true) ->
  (forall timezone,
     (exists e, AnalogClock.computeHands N P now locale timezone = Throw e) <->
     zoneOffset P (default "user-settings" timezone) = None) /\
  (zoneOffset P "user-settings" = None ->
   AnalogClock.initialHands N P now locale (AnalogClockUI.timezoneProp "user-settings" None) =
   Normal (AnalogClock.zeroHands N)) /\
  (forall override cfg_time_zone,
     override <> "user-settings" ->
     AnalogClockUI.timezoneProp override cfg_time_zone = Some override).
Proof.
  intros Hcanon.
  assert (Hiff : forall timezone,
            (exists e, AnalogClock.computeHands N P now locale timezone = Throw e) <->
            zoneOffset P (default "user-settings" timezone) = None).
  { intros timezone. unfold AnalogClock.computeHands.
    destruct (getLocale_returns P locale) as [loc Hloc]. rewrite Hloc. cbn.
    assert (Hok : locale_ok P loc = true).
    { destruct (getLocale_result P locale loc Hloc) as [->|(canon & Hc & ->)];
        [reflexivity | exact (Hcanon _ _ Hc)]. }
    unfold newDateTimeFormat. rewrite Hok. cbn.
    destruct (zoneOffset P (default "user-settings" timezone)) as [off|]; cbn.
    - split; [intros [e He]; discriminate | discriminate].
    - split; [reflexivity | intros _; eexists; reflexivity]. }
  split; [exact Hiff|]. split.
  - intros Hzone. unfold AnalogClock.initialHands.
    destruct (proj2 (Hiff (AnalogClockUI.timezoneProp "user-settings" None)) Hzone)
      as [e He].
    rewrite He. reflexivity.
  - intros override cfg Hne. unfold AnalogClockUI.timezoneProp.
    replace (String.eqb override "user-settings") with false
      by (symmetry; apply String.eqb_neq; exact Hne).
    reflexivity.
Qed.

Lemma analog_fallback_is_unknown_zone_witness :
  AnalogClock.initialHands exactNumbers refPlatform (mkDate 1762160707250) (Some "en-US")
    (AnalogClockUI.timezoneProp "user-settings" None) =
  Normal (AnalogClock.zeroHands exactNumbers) /\
  ~ exists e, AnalogClock.computeHands exactNumbers refPlatform (mkDate 1762160707250)
                (Some "xx-invalid") (AnalogClockUI.timezoneProp "UTC" None) = Throw e.
Proof.
  assert (Hcanon : forall l canon,
            getCanonicalLocales refPlatform [l] = Normal canon ->
            locale_ok refPlatform (head canon) = true).
  { intros l canon H.
    change (getCanonicalLocales refPlatform [l]) with (canonicalize [l]) in H.
    cbn [canonicalize] in H.
    destruct (assoc tags l) as [c|] eqn:E; [|discriminate].
    cbn in H. injection H as <-.
    unfold tags in E. cbn [assoc] in E.
    repeat match type of E with
      | context [String.eqb ?k l] => destruct (String.eqb k l)
      end; try discriminate; injection E as <-; reflexivity. }
  split.
  - exact (proj1 (proj2 (analog_fallback_is_unknown_zone exactNumbers refPlatform
                           (mkDate 1762160707250) (Some "en-US") Hcanon)) eq_refl).
  - intros Hthrow.
    apply (proj1 (analog_fallback_is_unknown_zone exactNumbers refPlatform
                    (mkDate 1762160707250) (Some "xx-invalid") Hcanon)) in Hthrow.
    discriminate Hthrow.
Defined.

(** ** AnalogClock: the dial *)

(** The five-minute markers are the multiples of five among the sixty
    minute markers and contain the quarter markers; hour label [i] is
    placed on five-minute marker [5 i] and reads, in both tables, the
    hour that marker stands for. *)
Theorem dial_tables :
  AnalogClockUI.fiveMinuteMarkers = (fun i => 5 * i) <$> seqZ 0 12 /\
  AnalogClockUI.quarterMarkers ⊆ AnalogClockUI.fiveMinuteMarkers /\
  AnalogClockUI.labelMarker <$> seqZ 0 12 = AnalogClockUI.fiveMinuteMarkers /\
  AnalogClockUI.hourLabelsNumbers =
    (fun i => Number_toString (AnalogClockUI.hourAtMarker (AnalogClockUI.labelMarker i)))
      <$> seqZ 0 12 /\
  AnalogClockUI.hourLabelsRoman =
    (fun i => AnalogClockUI.roman (AnalogClockUI.hourAtMarker (AnalogClockUI.labelMarker i)))
      <$> seqZ 0 12 /\
  forall ticks,
    Forall (fun m => 0 <= m < 60)
      (AnalogClockUI.drawnMinuteMarkers ticks ++ AnalogClockUI.drawnFiveMinuteMarkers ticks).
Proof.
  split; [reflexivity|]. split.
  - intros m Hm. apply list_elem_of_In in Hm. apply list_elem_of_In.
    simpl in Hm. vm_compute. intuition.
  - split; [reflexivity|]. split; [reflexivity|]. split; [reflexivity|].
    intros ticks. apply Forall_forall. intros m Hm. apply list_elem_of_In in Hm.
    destruct ticks; vm_compute in Hm; intuition lia.
Qed.

(** ** Days of the month *)

Lemma daysInMonth_spec (n : nat) (doe : Z) :
  daysInMonth doe n = true ->
  forall k, doe <= k < doe + Z.of_nat n -> dayInMonth k = true.
Proof.
  revert doe. induction n as [|n IH]; intros doe H k Hk; [lia|].
  cbn [daysInMonth] in H. apply andb_true_iff in H as [Hd Hrest].
  destruct (Z.eq_dec k doe) as [->|Hne]; [exact Hd|].
  apply (IH (doe + 1) Hrest). lia.
Qed.

Lemma dayInMonth_cycle : daysInMonth 0 (Z.to_nat 146097) = true.
Proof. vm_compute. reflexivity. Qed.

Lemma civil_day_cycle (days : Z) :
  snd (civil_from_days days) =
  snd (civil_from_days ((days + 719468) mod 146097 - 719468)).
Proof.
  unfold civil_from_days. cbv zeta. cbn [snd].
  replace ((days + 719468) mod 146097 - 719468 + 719468)
    with ((days + 719468) mod 146097) by lia.
  assert (Hm : 0 <= (days + 719468) mod 146097 < 146097)
    by (apply Z.mod_pos_bound; lia).
  replace (days + 719468 - (days + 719468) / 146097 * 146097)
    with ((days + 719468) mod 146097)
    by (rewrite Z.mod_eq by lia; lia).
  set (m := (days + 719468) mod 146097) in *.
  rewrite (Z.div_small m 146097) by lia.
  replace (m - 0 * 146097) with m by lia.
  reflexivity.
Qed.

Lemma DateFromTime_bounds (t : Z) : 1 <= DateFromTime t <= 31.
Proof.
  unfold DateFromTime. rewrite civil_day_cycle.
  assert (Hm : 0 <= (Day t + 719468) mod 146097 < 146097)
    by (apply Z.mod_pos_bound; lia).
  pose proof (daysInMonth_spec _ _ dayInMonth_cycle ((Day t + 719468) mod 146097)) as Hall.
  rewrite Z2Nat.id in Hall by lia.
  specialize (Hall ltac:(lia)). unfold dayInMonth in Hall.
  apply andb_true_iff in Hall as [H1 H2].
  apply Z.leb_le in H1, H2. split; assumption.
Qed.

(** Whenever the day is ordinal, for every instant, before or after 1970,
    and every runtime offset, the tick of the date widget stores as the
    day a number between 1 and 31, that of the runtime's own date,
    followed by its English suffix. *)
Theorem ordinal_token_wellformed (P : Platform) (now : Date) (fmt : DateTimeFormat)
    (f : DateText.Format) :
  dayIsOrdinal f ->
  exists parts day,
    DateText.tick P now fmt f = Normal parts /\
    day = getDate P now /\ 1 <= day <= 31 /\
    DateText.pv_day parts = Some (Number_toString day +:+ englishOrdinalSuffix day).
Proof.
  intros Ho. destruct (tick_ordinal_day P now fmt f Ho) as (parts & Htick & Hday).
  exists parts, (getDate P now).
  pose proof (DateFromTime_bounds (LocalTime P (getTime now))) as Hb.
  split; [exact Htick|]. split; [reflexivity|]. split; [exact Hb|].
  rewrite Hday. unfold getDate. rewrite getOrdinalSuffix_nonneg by lia. reflexivity.
Qed.

Lemma ordinal_token_wellformed_witness :
  exists parts day,
    DateText.tick refPlatform (mkDate (-11644473600000 + 22 * msPerDay))
      (mkFormat (fun _ => [])) (DateText.preset_only "day_ordinal") = Normal parts /\
    day = getDate refPlatform (mkDate (-11644473600000 + 22 * msPerDay)) /\
    1 <= day <= 31 /\
    DateText.pv_day parts = Some (Number_toString day +:+ englishOrdinalSuffix day).
Proof.
  apply ordinal_token_wellformed.
  right. split; [reflexivity|]. eexists. split; reflexivity.
Defined.
